(** * DownloaderForReddit: the Extractors module

    A shallow embedding of [DownloaderForReddit/Extractors/Extractors.py].
    Every extractor method mutates the three output lists of its instance
    and may raise; it is embedded as a computation of the monad [M], which
    threads the instance's mutable state and carries Python exceptions.
    The logger and the network are observed through two further lists of
    the state (the records logged and the host calls issued). *)

From Stdlib Require Import List String Ascii ZArith Lia Bool.
From Stdlib Require Import DecimalString DecimalZ.
Import ListNotations.
Open Scope string_scope.
Open Scope Z_scope.
Set Warnings "-register-all".

(** ** Python strings *)

Module PyStr.

(** The line feed of the message templates. *)
Definition nl : string := String (ascii_of_nat 10) EmptyString.

(** [s.startswith(p)] *)
Definition startswith (p s : string) : bool := prefix p s.

(** [sub in s] *)
Fixpoint contains (sub s : string) : bool :=
  prefix sub s ||
  match s with
  | EmptyString => false
  | String _ s' => contains sub s'
  end.

(** [s.find(sub)]: the first index at which [sub] occurs, or -1. *)
Fixpoint find_from (i : Z) (sub s : string) : Z :=
  if prefix sub s then i
  else match s with
       | EmptyString => -1
       | String _ s' => find_from (i + 1) sub s'
       end.

Definition find (sub s : string) : Z := find_from 0 sub s.

Definition len (s : string) : Z := Z.of_nat (String.length s).

(** [s[:i]], with Python's reading of a negative bound. *)
Definition slice_to (i : Z) (s : string) : string :=
  let stop := if i <? 0 then Z.max 0 (len s + i) else i in
  substring 0 (Z.to_nat stop) s.

(** Reversal, used for the suffix test. *)
Fixpoint rev_onto (s acc : string) : string :=
  match s with
  | EmptyString => acc
  | String c s' => rev_onto s' (String c acc)
  end.

Definition rev (s : string) : string := rev_onto s EmptyString.

(** [s.endswith(suf)] *)
Definition endswith (suf s : string) : bool := prefix (rev suf) (rev s).

(** [s.endswith((suf1, suf2, ...))] *)
Definition endswith_any (sufs : list string) (s : string) : bool :=
  existsb (fun suf => endswith suf s) sufs.

Definition lower_char (c : ascii) : ascii :=
  let n := nat_of_ascii c in
  if (andb (Nat.leb 65 n) (Nat.leb n 90)) then ascii_of_nat (n + 32) else c.

(** [s.lower()] on 8-bit characters. *)
Fixpoint lower (s : string) : string :=
  match s with
  | EmptyString => EmptyString
  | String c s' => String (lower_char c) (lower s')
  end.

(** [s.rsplit(sep, 1)] for a one-character separator: the text before
    and after the last occurrence of [sep], or [None] when [sep] does not
    occur (Python then returns the one-element list [[s]]). *)
Fixpoint rsplit1 (sep : ascii) (s : string) : option (string * string) :=
  match s with
  | EmptyString => None
  | String c s' =>
      match rsplit1 sep s' with
      | Some (a, b) => Some (String c a, b)
      | None => if Ascii.eqb c sep then Some (EmptyString, s') else None
      end
  end.

(** [s.rfind(sep)] for a one-character separator, as an offset. *)
Definition rfind (sep : ascii) (s : string) : Z :=
  match rsplit1 sep s with
  | Some (a, _) => len a
  | None => -1
  end.

(** [str(n)] for an integer. *)
Definition of_int (z : Z) : string := NilZero.string_of_int (Z.to_int z).

End PyStr.

(** ** Python values, exceptions and the extractor state *)

(** The values a decoded JSON body can hold. *)
Inductive pyval : Type :=
| PNone
| PBool (b : bool)
| PInt (z : Z)
| PStr (s : string)
| PList (l : list pyval)
| PDict (d : list (string * pyval)).

(** The exceptions the module can meet.  [UnboundLocalError] is a subclass
    of [NameError]; [ImgurClientError] carries its [status_code]. *)
Inductive exn : Type :=
| ValueError
| TypeError
| AttributeError
| KeyError
| IndexError
| NameError
| UnboundLocalError
| ConnectionError
| ImgurClientError (status_code : option Z)
| ImgurClientRateLimitError
| OtherException (name : string).

Inductive result (A : Type) : Type :=
| Returns (a : A)
| Raises (e : exn).
Arguments Returns {A} a.
Arguments Raises {A} e.

(** [Core.Post.Post(url, author, title, subreddit, created)] *)
Record Post : Type := Post_new {
  post_url : string;
  post_author : string;
  post_title_of : string;
  post_subreddit : string;
  post_created : Z
}.

(** [Core.Content.Content], with the arguments of its constructor in the
    order the extractors pass them. *)
Record Content : Type := Content_new {
  c_url : pyval;
  c_user : string;
  c_post_title : string;
  c_subreddit : string;
  c_file_name : string;
  c_number_in_seq : pyval;
  c_file_ext : string;
  c_save_path : string;
  c_subreddit_save_method : string;
  c_date_created : Z;
  c_display_only : bool
}.

(** What [extracted_content] holds: the extractors append [Content]
    objects and, on some paths, plain message strings. *)
Inductive entry : Type :=
| EContent (c : Content)
| EMessage (s : string).

Inductive log_level : Type := Error | Warning.

(** The counters [get_log_data] reports. *)
Record log_counts : Type := Counts {
  extracted_content_count : nat;
  failed_extract_message_count : nat;
  failed_extracts_to_save_count : nat
}.

Record log_record : Type := Log {
  log_lvl : log_level;
  log_msg : string;
  log_response_code : option Z;
  log_extractor_data : option log_counts
}.

Inductive host_call : Type :=
| HttpGet (url : string)
| ImgurGetImage (image_id : string)
| ImgurGetAlbumImages (album_id : string).

Record State : Type := mkState {
  extracted_content : list entry;
  failed_extract_messages : list string;
  failed_extracts_to_save : list Post;
  logged : list log_record;
  host_calls : list host_call
}.

Definition empty_state : State := mkState [] [] [] [] [].

(** ** The state and exception monad *)

Definition M (A : Type) : Type := State -> result A * State.

Definition ret {A} (a : A) : M A := fun st => (Returns a, st).

Definition raise {A} (e : exn) : M A := fun st => (Raises e, st).

Definition bind {A B} (m : M A) (k : A -> M B) : M B :=
  fun st =>
    match m st with
    | (Returns a, st') => k a st'
    | (Raises e, st') => (Raises e, st')
    end.

Declare Scope py_scope.
Delimit Scope py_scope with py.
Notation "x <- m ;; k" := (bind m (fun x => k))
  (at level 61, m at next level, right associativity) : py_scope.
Notation "' pat <- m ;; k" := (bind m (fun x => match x with pat => k end))
  (at level 61, pat pattern, m at next level, right associativity) : py_scope.
Notation "m ;; k" := (bind m (fun _ => k))
  (at level 61, right associativity) : py_scope.
Open Scope py_scope.

(** [try: body except ...: handler]: [handler e] is the clause that
    matches [e], if any; an exception no clause matches, and an exception a
    handler raises, go on to the caller. *)
Definition try_except {A} (body : M A) (handler : exn -> option (M A)) : M A :=
  fun st =>
    match body st with
    | (Returns a, st') => (Returns a, st')
    | (Raises e, st') =>
        match handler e with
        | Some h => h st'
        | None => (Raises e, st')
        end
    end.

(** A [for] loop whose body updates a local variable. *)
Fixpoint for_each {A B} (l : list A) (acc : B) (body : B -> A -> M B) : M B :=
  match l with
  | [] => ret acc
  | x :: l' => acc' <- body acc x ;; for_each l' acc' body
  end.

(** [a, b = s.rsplit(sep, 1)]: unpacking a one-element list raises. *)
Definition rsplit_unpack (sep : ascii) (s : string) : M (string * string) :=
  match PyStr.rsplit1 sep s with
  | Some p => ret p
  | None => raise ValueError
  end.

(** [v.get(key)]: defined on dictionaries only. *)
Fixpoint dict_lookup (key : string) (d : list (string * pyval)) : pyval :=
  match d with
  | [] => PNone
  | (k, v) :: d' => if String.eqb k key then v else dict_lookup key d'
  end.

Definition py_get (v : pyval) (key : string) : M pyval :=
  match v with
  | PDict d => ret (dict_lookup key d)
  | _ => raise AttributeError
  end.

(** Truth value of a Python value. *)
Definition truthy (v : pyval) : bool :=
  match v with
  | PNone => false
  | PBool b => b
  | PInt z => negb (z =? 0)
  | PStr s => negb (String.eqb s "")
  | PList l => match l with [] => false | _ => true end
  | PDict d => match d with [] => false | _ => true end
  end.

(** [v <= 0]: defined between numbers; Python 3 refuses to order a
    string, a list, a dictionary or [None] against an integer. *)
Definition py_le_zero (v : pyval) : M bool :=
  match v with
  | PInt z => ret (z <=? 0)
  | PBool b => ret (negb b)
  | _ => raise TypeError
  end.

(** ['%s' % v] *)
Definition py_str (v : pyval) : string :=
  match v with
  | PNone => "None"
  | PBool true => "True"
  | PBool false => "False"
  | PInt z => PyStr.of_int z
  | PStr s => s
  | PList _ => "[...]"
  | PDict _ => "{...}"
  end.

(** State updates. *)
Definition append_extracted_content (x : entry) : M unit :=
  fun st => (Returns tt,
             mkState (extracted_content st ++ [x]) (failed_extract_messages st)
                     (failed_extracts_to_save st) (logged st) (host_calls st)).

Definition append_failed_extract_messages (s : string) : M unit :=
  fun st => (Returns tt,
             mkState (extracted_content st) (failed_extract_messages st ++ [s])
                     (failed_extracts_to_save st) (logged st) (host_calls st)).

Definition append_failed_extracts_to_save (p : Post) : M unit :=
  fun st => (Returns tt,
             mkState (extracted_content st) (failed_extract_messages st)
                     (failed_extracts_to_save st ++ [p]) (logged st) (host_calls st)).

Definition emit_log (r : log_record) : M unit :=
  fun st => (Returns tt,
             mkState (extracted_content st) (failed_extract_messages st)
                     (failed_extracts_to_save st) (logged st ++ [r]) (host_calls st)).

Definition record_call (c : host_call) : M unit :=
  fun st => (Returns tt,
             mkState (extracted_content st) (failed_extract_messages st)
                     (failed_extracts_to_save st) (logged st) (host_calls st ++ [c])).

Definition lift {A} (r : result A) : M A := fun st => (r, st).

(** ** The collaborators of the module *)

(** What [requests.get] hands back: [headers['Content-Type']] may be
    missing, and [json()] may fail to decode the body. *)
Record Response : Type := Response_new {
  status_code : Z;
  headers_content_type : option string;
  response_json : result pyval;
  response_text : string
}.

(** An [img] element of a parsed page: its [class] attribute (a list of
    tokens, when present) and its [src] attribute. *)
Record Img : Type := Img_new {
  img_class : option (list string);
  img_src : option string
}.

(** An image record of the Imgur client; [mp4] is set for animations. *)
Record Image : Type := Image_new {
  link : string;
  type_ : string;
  animated : bool;
  mp4 : option string
}.

(** The Imgur API client, with what [credits['ClientRemaining']] holds:
    [None] when the rate-limit header was missing, otherwise the value the
    client stored, which for the client library is the text of the header
    (a stub may store a number). *)
Record ImgurClient : Type := ImgurClient_mk {
  get_image : string -> result Image;
  get_album_images : string -> result (list Image);
  credits_ClientRemaining : pyval
}.

(** Everything outside the module: the network, the HTML parser, the
    settings manager and the constructor of the Imgur client. *)
Record World : Type := World_new {
  requests_get : string -> result Response;
  find_all_img : string -> list Img;
  imgur_client_id : option string;
  imgur_client_secret : option string;
  ImgurClient_new : string -> string -> result ImgurClient
}.

(** ** class Extractor *)

Record Extractor : Type := Extractor_new {
  world : World;
  url : string;
  user : string;
  post_title : string;
  subreddit : string;
  creation_date : Z;
  subreddit_save_method : string;
  name_downloads_by : string;
  save_path : string;
  content_display_only : bool
}.

Module Base.

(** The three output lists start empty. *)
Definition init_state : State := empty_state.

Definition get_log_data (self : Extractor) : M log_counts :=
  fun st => (Returns (Counts (List.length (extracted_content st))
                             (List.length (failed_extract_messages st))
                             (List.length (failed_extracts_to_save st))), st).

Definition log_with_data (self : Extractor) (lvl : log_level) (msg : string)
    (code : option Z) : M unit :=
  d <- get_log_data self ;;
  emit_log (Log lvl msg code (Some d)).

(** [requests.get(url)] *)
Definition http_get (self : Extractor) (u : string) : M Response :=
  record_call (HttpGet u) ;;
  lift (requests_get (world self) u).

(** [status_code == 200 and word in headers['Content-Type']] *)
Definition response_ok (word : string) (response : Response) : M bool :=
  if status_code response =? 200 then
    match headers_content_type response with
    | Some ct => ret (PyStr.contains word ct)
    | None => raise KeyError
    end
  else ret false.

Definition json_failure_message (self : Extractor) (u : string) : string :=
  "Failed to retrieve json data for link " ++ u ++ PyStr.nl ++ "User: " ++ user self
    ++ "  Subreddit: " ++ subreddit self ++ "  Tile: " ++ post_title self.

Definition text_failure_message (self : Extractor) (u : string) : string :=
  "Failed to retrieve data for link " ++ u ++ PyStr.nl ++ "User: " ++ user self
    ++ "  Subreddit: " ++ subreddit self ++ "  Tile: " ++ post_title self.

Definition get_json (self : Extractor) (u : string) : M pyval :=
  response <- http_get self u ;;
  ok <- response_ok "json" response ;;
  if ok : bool then lift (response_json response)
  else
    log_with_data self Error "Failed connection: Bad response"
                  (Some (status_code response)) ;;
    append_extracted_content (EMessage (json_failure_message self u)) ;;
    ret PNone.

Definition get_text (self : Extractor) (u : string) : M pyval :=
  response <- http_get self u ;;
  ok <- response_ok "text" response ;;
  if ok : bool then ret (PStr (response_text response))
  else
    log_with_data self Error "Failed connection: Bad response"
                  (Some (status_code response)) ;;
    append_extracted_content (EMessage (text_failure_message self u)) ;;
    ret PNone.

Definition make_content (self : Extractor) (u : string) (file_name : string)
    (count : pyval) (extension : string) (date_created : Z) : M unit :=
  let count := if truthy count then " " ++ py_str count else "" in
  append_extracted_content
    (EContent (Content_new (PStr u) (user self) (post_title self) (subreddit self)
                           file_name (PStr count) ("." ++ extension) (save_path self)
                           (subreddit_save_method self) date_created
                           (content_display_only self))).

(** [self.post_title if self.name_downloads_by == 'Post Title' else other] *)
Definition choose_file_name (self : Extractor) (other : string) : string :=
  if String.eqb (name_downloads_by self) "Post Title" then post_title self else other.

(** The message of the bare [except:] clauses. *)
Definition failed_to_locate_message (self : Extractor) : string :=
  "Failed to locate the content at " ++ url self ++ PyStr.nl ++ "User: " ++ user self
    ++ "  Subreddit: " ++ subreddit self ++ "  Title: " ++ post_title self.

(** [BeautifulSoup(text, 'html.parser').find_all('img')]; the parser
    refuses [None]. *)
Definition soup_find_all_img (self : Extractor) (text : pyval) : M (list Img) :=
  match text with
  | PStr s => ret (find_all_img (world self) s)
  | _ => raise TypeError
  end.

End Base.

(** ** class ImgurExtractor *)

Record ImgurExtractor : Type := ImgurExtractor_new {
  imgur_base : Extractor;
  client : option ImgurClient
}.

Module Imgur.

Definition no_client_message (self : Extractor) : string :=
  PyStr.nl ++ "Failed: No valid Imgur client is detected. In order to download "
    ++ "content from imgur.com you must have a valid Imugr client. Please see"
    ++ "the settings menu." ++ PyStr.nl ++ "Title: " ++ post_title self
    ++ ",  User: " ++ user self ++ ",  Subreddit: " ++ subreddit self
    ++ ",  URL: " ++ url self ++ PyStr.nl.

Definition rate_limit_message (self : Extractor) : string :=
  PyStr.nl ++ "Failed: Imgur rate limit exceeded.  This post has been saved and will "
    ++ "be downloaded the next time the application is run.  Please make sure you "
    ++ "have adequate user credits upon the next run.  User credits can be "
    ++ "checked in the help menu" ++ PyStr.nl ++ "Title: " ++ post_title self
    ++ ",  User: " ++ user self ++ ",  Subreddit: " ++ subreddit self.

Definition no_credit_message (self : Extractor) : string :=
  PyStr.nl ++ "Failed: You do not have enough imgur credits left to extract this "
    ++ "content.  This post will be saved and extraction attempted "
    ++ "the next time the program is run.  Please make sure that you "
    ++ "have adequate credits upon next run." ++ PyStr.nl ++ "Title: "
    ++ post_title self ++ ",  User: " ++ user self ++ ",  "
    ++ "Subreddit: " ++ subreddit self.

Definition over_capacity_message (self : Extractor) : string :=
  PyStr.nl ++ "Failed: Imgur is currently over capacity.  This post has been saved and "
    ++ "extraction will be attempted the next time the program is run." ++ PyStr.nl
    ++ "Title: " ++ post_title self ++ ", User: " ++ user self ++ ",  Subreddit: "
    ++ subreddit self.

Definition does_not_exist_message (self : Extractor) : string :=
  PyStr.nl ++ "Failed: The content does not exist.  This most likely means that the "
    ++ "image has been deleted on Imgur, but the post still remains on reddit"
    ++ PyStr.nl ++ "Url: " ++ url self ++ ",  User: " ++ user self ++ ",  Subreddit: "
    ++ subreddit self ++ ",  Title: " ++ post_title self.

Definition failed_to_locate_message (self : Extractor) : string :=
  PyStr.nl ++ "Failed to locate the content at " ++ url self ++ PyStr.nl ++ "User: "
    ++ user self ++ "  Subreddit: " ++ subreddit self ++ "  Title: " ++ post_title self
    ++ PyStr.nl.

Definition unrecognized_extension_message (self : Extractor) : string :=
  "Failed: Unrecognized file extension: " ++ url self ++ PyStr.nl ++ "User: "
    ++ user self ++ "  Subreddit: " ++ subreddit self ++ "  "
    ++ "Title: " ++ post_title self.

Definition this_post (self : Extractor) : Post :=
  Post_new (url self) (user self) (post_title self) (subreddit self) (creation_date self).

Definition rate_limit_exceeded_error (self : Extractor) : M unit :=
  append_failed_extracts_to_save (this_post self) ;;
  append_failed_extract_messages (rate_limit_message self) ;;
  Base.log_with_data self Error "Failed extract: Rate limit exceeded" None.

Definition no_credit_error (self : Extractor) : M unit :=
  append_failed_extracts_to_save (this_post self) ;;
  append_failed_extract_messages (no_credit_message self) ;;
  Base.log_with_data self Error "Failed extract: Out of credits" None.

Definition over_capacity_error (self : Extractor) : M unit :=
  append_failed_extracts_to_save (this_post self) ;;
  append_failed_extract_messages (over_capacity_message self) ;;
  Base.log_with_data self Error "Failed extract: Imgur over capacity" None.

Definition does_not_exist_error (self : Extractor) : M unit :=
  append_failed_extract_messages (does_not_exist_message self) ;;
  Base.log_with_data self Warning "Failed extract: Content no longer exists" None.

Definition failed_to_locate_error (self : Extractor) : M unit :=
  append_failed_extract_messages (failed_to_locate_message self) ;;
  Base.log_with_data self Error "Failed extract: Failed to locate content" None.

(** [e.status_code == n] *)
Definition status_is (sc : option Z) (n : Z) : bool :=
  match sc with
  | Some z => z =? n
  | None => false
  end.

(** [__init__]: the client is set only when both credentials are there
    and its constructor returns. *)
Definition init (self : Extractor) : M ImgurExtractor :=
  match imgur_client_id (world self), imgur_client_secret (world self) with
  | Some client_id, Some client_secret =>
      try_except
        (c <- lift (ImgurClient_new (world self) client_id client_secret) ;;
         ret (ImgurExtractor_new self (Some c)))
        (fun e =>
           match e with
           | ImgurClientError sc =>
               Some ((if status_is sc 500 then over_capacity_error self else ret tt) ;;
                     ret (ImgurExtractor_new self None))
           | _ => None
           end)
  | _, _ =>
      emit_log (Log Warning "Imgur extract failed: No imgur client setup" None None) ;;
      append_failed_extract_messages (no_client_message self) ;;
      ret (ImgurExtractor_new self None)
  end.

(** [self.client]: the attribute is missing when [__init__] did not set it. *)
Definition get_client (self : ImgurExtractor) : M ImgurClient :=
  match client self with
  | Some c => ret c
  | None => raise AttributeError
  end.

(** [self.client.get_image(image_id)] *)
Definition client_get_image (self : ImgurExtractor) (image_id : string) : M Image :=
  c <- get_client self ;;
  record_call (ImgurGetImage image_id) ;;
  lift (get_image c image_id).

(** [self.client.get_album_images(album_id)] *)
Definition client_get_album_images (self : ImgurExtractor) (album_id : string)
    : M (list Image) :=
  c <- get_client self ;;
  record_call (ImgurGetAlbumImages album_id) ;;
  lift (get_album_images c album_id).

(** [picture.mp4] *)
Definition image_mp4 (pic : Image) : M string :=
  match mp4 pic with
  | Some u => ret u
  | None => raise AttributeError
  end.

Definition direct_extensions : list string :=
  [".jpg"; ".jpeg"; ".png"; ".gif"; ".gifv"; ".mp4"; ".webm"].

(** The loop that opens [extract_direct_link] and
    [extract_direct_mislinked]: the local [url] stays unbound when no
    extension occurs in the link, and the last one that occurs wins. *)
Definition cut_after_extension (u : string) : option string :=
  fold_left
    (fun (bound : option string) (ext : string) =>
       if PyStr.contains ext u
       then Some (PyStr.slice_to (PyStr.find ext u) u ++ ext)
       else bound)
    direct_extensions None.

Definition local_url (bound : option string) : M string :=
  match bound with
  | Some u => ret u
  | None => raise UnboundLocalError
  end.

Definition is_animated_gif (pic : Image) : bool :=
  String.eqb (type_ pic) "image/gif" && animated pic.

Definition except_NameError (self : Extractor) (event : string) (e : exn)
    : option (M unit) :=
  match e with
  | NameError | UnboundLocalError =>
      Some (Base.log_with_data self Error event None ;;
            append_failed_extract_messages (unrecognized_extension_message self))
  | _ => None
  end.

(** The [gif]/[gifv] branch shared by the two direct paths. *)
Definition resolve_gif (self : ImgurExtractor) (u image_id extension : string)
    : M (string * string) :=
  if PyStr.endswith "gifv" u || PyStr.endswith "gif" u then
    picture <- client_get_image self image_id ;;
    if is_animated_gif picture then
      m <- image_mp4 picture ;; ret (m, "mp4")
    else ret (u, extension)
  else ret (u, extension).

Definition new_content (self : Extractor) (u : string) (file_name : string)
    (number_in_seq : pyval) (extension : string) : entry :=
  EContent (Content_new (PStr u) (user self) (post_title self) (subreddit self)
                        file_name number_in_seq ("." ++ extension) (save_path self)
                        (subreddit_save_method self) (creation_date self)
                        (content_display_only self)).

Definition extract_direct_link (self : ImgurExtractor) : M unit :=
  let base := imgur_base self in
  let bound := cut_after_extension (url base) in
  try_except
    (u <- local_url bound ;;
     '(domain, id_with_ext) <- rsplit_unpack "/" u ;;
     '(image_id, extension) <- rsplit_unpack "." id_with_ext ;;
     let file_name := Base.choose_file_name base image_id in
     '(u, extension) <- resolve_gif self u image_id extension ;;
     append_extracted_content (new_content base u file_name (PStr "") extension))
    (except_NameError base "Failed direct extract: Unrecognized extension").

(** One round of the loop of [extract_album]; it hands back the next
    value of [count]. *)
Definition album_step (base : Extractor) (album_id : string) (count : Z) (pic : Image)
  : M Z :=
  let u := link pic in
  '(address, extension) <- rsplit_unpack "." u ;;
  let file_name := Base.choose_file_name base album_id in
  '(u, extension) <- (if is_animated_gif pic
                      then m <- image_mp4 pic ;; ret (m, "mp4")
                      else ret (u, extension)) ;;
  append_extracted_content
    (new_content base u (file_name ++ " ") (PInt count) extension) ;;
  ret (count + 1).

Definition extract_album (self : ImgurExtractor) : M unit :=
  let base := imgur_base self in
  '(domain, album_id) <- rsplit_unpack "/" (url base) ;;
  pics <- client_get_album_images self album_id ;;
  for_each pics 1 (album_step base album_id) ;;
  ret tt.

Definition extract_single (self : ImgurExtractor) : M unit :=
  let base := imgur_base self in
  '(domain, image_id) <- rsplit_unpack "/" (url base) ;;
  pic <- client_get_image self image_id ;;
  let u := link pic in
  '(address, extension) <- rsplit_unpack "." u ;;
  let file_name := Base.choose_file_name base image_id in
  '(u, extension) <- (if is_animated_gif pic
                      then m <- image_mp4 pic ;; ret (m, "mp4")
                      else ret (u, extension)) ;;
  append_extracted_content (new_content base u file_name (PStr "") extension).

Definition extract_direct_mislinked (self : ImgurExtractor) : M unit :=
  let base := imgur_base self in
  let bound := cut_after_extension (url base) in
  try_except
    (u <- local_url bound ;;
     '(domain, id_with_ext) <- rsplit_unpack "/" u ;;
     let domain := "https://i.imgur.com/" in
     let u := domain ++ id_with_ext in
     '(image_id, extension) <- rsplit_unpack "." id_with_ext ;;
     let file_name := Base.choose_file_name base image_id in
     '(u, extension) <- resolve_gif self u image_id extension ;;
     append_extracted_content (new_content base u file_name (PStr "") extension))
    (except_NameError base "Failed direct mislinked extract: Unrecognized extension").

Definition mislinked_suffixes : list string :=
  [".jpg"; "jpeg"; ".png"; ".gif"; ".gifv"; ".mp4"; ".webm"].

(** The body of the [try] of [extract_content]. *)
Definition dispatch (self : ImgurExtractor) : M unit :=
  let u := url (imgur_base self) in
  if PyStr.contains "i.imgur" u then extract_direct_link self
  else if PyStr.contains "/a/" u then extract_album self
  else if PyStr.contains "/gallery/" u then
    try_except (extract_album self) (fun _ => Some (ret tt))
  else if PyStr.endswith_any mislinked_suffixes (PyStr.lower u) then
    extract_direct_mislinked self
  else extract_single self.

(** The clause [except ImgurClientError as e]. *)
Definition on_ImgurClientError (self : ImgurExtractor) (sc : option Z) : M unit :=
  let base := imgur_base self in
  (if status_is sc 403 then
     c <- get_client self ;;
     match credits_ClientRemaining c with
     | PNone => failed_to_locate_error base
     | remaining =>
         exhausted <- py_le_zero remaining ;;
         if exhausted : bool then no_credit_error base
         else failed_to_locate_error base
     end
   else ret tt) ;;
  (if status_is sc 429 then rate_limit_exceeded_error base else ret tt) ;;
  (if status_is sc 500 then over_capacity_error base else ret tt) ;;
  (if status_is sc 404 then does_not_exist_error base else ret tt).

Definition handlers (self : ImgurExtractor) (e : exn) : option (M unit) :=
  match e with
  | ImgurClientError sc => Some (on_ImgurClientError self sc)
  | ImgurClientRateLimitError => Some (rate_limit_exceeded_error (imgur_base self))
  | _ => Some (failed_to_locate_error (imgur_base self))
  end.

Definition extract_content (self : ImgurExtractor) : M unit :=
  try_except (dispatch self) (handlers self).

End Imgur.

(** ** class GfycatExtractor *)

Module Gfycat.

Definition api_caller : string := "https://gfycat.com/cajax/get/".

Definition direct_suffixes : list string := ["webm"; "gif"; "gifv"].

Definition new_content (self : Extractor) (u : pyval) (file_name : string)
    (extension : string) : entry :=
  EContent (Content_new u (user self) (post_title self) (subreddit self)
                        file_name (PStr "") extension (save_path self)
                        (subreddit_save_method self) (creation_date self)
                        (content_display_only self)).

Definition extract_direct_link (self : Extractor) : M unit :=
  '(domain, id_with_ext) <- rsplit_unpack "/" (url self) ;;
  '(gfy_id, ext) <- rsplit_unpack "." id_with_ext ;;
  let file_name := Base.choose_file_name self gfy_id in
  append_extracted_content (new_content self (PStr (url self)) file_name ("." ++ ext)).

Definition extract_single (self : Extractor) : M unit :=
  '(domain, gif_id) <- rsplit_unpack "/" (url self) ;;
  gfy_json <- Base.get_json self (api_caller ++ gif_id) ;;
  gfy_item <- py_get gfy_json "gfyItem" ;;
  gfy_url <- py_get gfy_item "webmUrl" ;;
  let file_name := Base.choose_file_name self gif_id in
  append_extracted_content (new_content self gfy_url file_name ".webm").

(** The body of the [try] of [extract_content]. *)
Definition dispatch (self : Extractor) : M unit :=
  if PyStr.endswith_any direct_suffixes (PyStr.lower (url self))
  then extract_direct_link self
  else extract_single self.

(** The bare [except:] clause. *)
Definition on_exception (self : Extractor) : M unit :=
  append_extracted_content (EMessage (Base.failed_to_locate_message self)) ;;
  Base.log_with_data self Error "Failed extract: Failed to locate content" None.

Definition extract_content (self : Extractor) : M unit :=
  try_except (dispatch self) (fun _ => Some (on_exception self)).

End Gfycat.

(** ** class VidbleExtractor *)

Module Vidble.

Definition vidble_base : string := "https://vidble.com".

Definition direct_suffixes : list string :=
  [".jpg"; "jpeg"; ".png"; ".gif"; ".gifv"; ".mp4"; "webm"].

Definition new_content (self : Extractor) (u : string) (file_name : string)
    (number_in_seq : pyval) (extension : string) : entry :=
  EContent (Content_new (PStr u) (user self) (post_title self) (subreddit self)
                        file_name number_in_seq ("." ++ extension) (save_path self)
                        (subreddit_save_method self) (creation_date self)
                        (content_display_only self)).

(** [img_class is not None and img_class[0] == 'img2'] *)
Definition is_img2 (img : Img) : M bool :=
  match img_class img with
  | None => ret false
  | Some [] => raise IndexError
  | Some (first :: _) => ret (String.eqb first "img2")
  end.

Definition extract_single (self : Extractor) : M unit :=
  '(domain, vidble_id) <- rsplit_unpack "/" (url self) ;;
  let vidble_id :=
    if PyStr.contains "." vidble_id
    then PyStr.slice_to (PyStr.rfind "." vidble_id) vidble_id
    else vidble_id in
  text <- Base.get_text self (url self) ;;
  imgs <- Base.soup_find_all_img self text ;;
  for_each imgs tt
    (fun _ img =>
       selected <- is_img2 img ;;
       if selected : bool then
         match img_src img with
         | Some link =>
             '(base, extension) <- rsplit_unpack "." link ;;
             let file_name := Base.choose_file_name self vidble_id in
             append_extracted_content
               (new_content self (vidble_base ++ link) file_name (PStr "") extension)
         | None => ret tt
         end
       else ret tt).

(** One round of the loop of [extract_album]; it hands back the next
    value of [count]. *)
Definition album_step (self : Extractor) (vidble_id : string) (count : Z) (img : Img)
  : M Z :=
  selected <- is_img2 img ;;
  if selected : bool then
    match img_src img with
    | Some link =>
        '(base, extension) <- rsplit_unpack "." link ;;
        let file_name := Base.choose_file_name self vidble_id in
        append_extracted_content
          (new_content self (vidble_base ++ link) file_name (PInt count) extension) ;;
        ret (count + 1)
    | None => ret count
    end
  else ret count.

Definition extract_album (self : Extractor) : M unit :=
  '(domain, vidble_id) <- rsplit_unpack "/" (url self) ;;
  text <- Base.get_text self (url self) ;;
  imgs <- Base.soup_find_all_img self text ;;
  for_each imgs 1 (album_step self vidble_id) ;;
  ret tt.

Definition extract_direct_link (self : Extractor) : M unit :=
  '(domain, id_with_ext) <- rsplit_unpack "/" (url self) ;;
  '(vidble_id, extension) <- rsplit_unpack "." id_with_ext ;;
  let file_name := Base.choose_file_name self vidble_id in
  append_extracted_content
    (new_content self (url self) file_name (PStr "") extension).

(** The body of the [try] of [extract_content]. *)
Definition dispatch (self : Extractor) : M unit :=
  let u := url self in
  if PyStr.contains "/show/" u || PyStr.contains "/explore/" u then extract_single self
  else if PyStr.contains "/album/" u then extract_album self
  else if PyStr.endswith_any direct_suffixes (PyStr.lower u) then extract_direct_link self
  else extract_album self.

(** The bare [except:] clause. *)
Definition on_exception (self : Extractor) : M unit :=
  append_extracted_content (EMessage (Base.failed_to_locate_message self)) ;;
  Base.log_with_data self Error "Failed extract: Failed to locate content" None.

Definition extract_content (self : Extractor) : M unit :=
  try_except (dispatch self) (fun _ => Some (on_exception self)).

End Vidble.

(** ** class RedditUploadsExtractor *)

Module RedditUploads.

Definition dispatch (self : Extractor) : M unit :=
  let direct_link := url self ++ ".jpg" in
  append_extracted_content
    (EContent (Content_new (PStr direct_link) (user self) (post_title self)
                           (subreddit self) (post_title self) (PStr "") ".jpg"
                           (save_path self) (subreddit_save_method self)
                           (creation_date self) (content_display_only self))).

Definition on_exception (self : Extractor) : M unit :=
  append_extracted_content (EMessage (Base.failed_to_locate_message self)) ;;
  Base.log_with_data self Error "Failed extract: Failed to locate content" None.

Definition extract_content (self : Extractor) : M unit :=
  try_except (dispatch self) (fun _ => Some (on_exception self)).

End RedditUploads.

(** ** class DirectExtractor *)

Module Direct.

Definition extract_content (self : Extractor) : M unit :=
  '(domain, id_with_ext) <- rsplit_unpack "/" (url self) ;;
  '(image_id, extension) <- rsplit_unpack "." id_with_ext ;;
  let file_name := Base.choose_file_name self image_id in
  append_extracted_content
    (EContent (Content_new (PStr (url self)) (user self) (post_title self)
                           (subreddit self) file_name (PStr "") ("." ++ extension)
                           (save_path self) (subreddit_save_method self)
                           (creation_date self) (content_display_only self))).

End Direct.

(** ** The file name of a content item *)

(** Modelled from the spec: the class [Core.Content.Content] is not part of
    this module.  Its computed file name is the name it was given followed
    by the rendering of the ordinal it was given (nothing for the empty
    ordinal of single items). *)
Definition computed_file_name (c : Content) : string :=
  c_file_name c ++ py_str (c_number_in_seq c).

(** ** Sample requests and collaborators *)

Module Sample.

(** A world with no network, no parser output and no Imgur credentials. *)
Definition offline : World :=
  World_new (fun _ => Raises ConnectionError) (fun _ => []) None None
            (fun _ _ => Raises ConnectionError).

Definition request (w : World) (u naming : string) : Extractor :=
  Extractor_new w u "bob" "A title" "pics" 1500000000 "User Name" naming
                "/downloads/" false.

(** An Imgur client whose calls all fail with [e]. *)
Definition failing_client (e : exn) : ImgurClient :=
  ImgurClient_mk (fun _ => Raises e) (fun _ => Raises e) PNone.

Definition gallery_request : ImgurExtractor :=
  ImgurExtractor_new
    (request offline "https://imgur.com/gallery/abc" "Post Title")
    (Some (failing_client (ImgurClientError (Some 500)))).

End Sample.

Module SampleFailures.

(** A world whose every page is missing: status 404 with an HTML body. *)
Definition not_found : World :=
  World_new
    (fun _ => Returns (Response_new 404 (Some "text/html") (Raises ValueError)
                                    "<html>Not Found</html>"))
    (fun _ => []) None None (fun _ _ => Raises ConnectionError).

(** An Imgur client that answers every call with a client error of
    status 400, and reports 100 remaining credits. *)
Definition bad_request_client : ImgurClient :=
  ImgurClient_mk (fun _ => Raises (ImgurClientError (Some 400)))
                 (fun _ => Raises (ImgurClientError (Some 400)))
                 (PInt 100).

Definition single_image_request (c : ImgurClient) : ImgurExtractor :=
  ImgurExtractor_new
    (Sample.request Sample.offline "https://imgur.com/abc" "Post Title") (Some c).

Definition gfycat_request : Extractor :=
  Sample.request not_found "https://gfycat.com/abc" "Post Title".

End SampleFailures.

(** ** Predicates on computations *)

(** [m] always returns. *)
Definition never_raises {A} (m : M A) : Prop :=
  forall st, exists a, fst (m st) = Returns a.

(** [m] raises exceptions of [E] only. *)
Definition raises_only (E : exn -> Prop) {A} (m : M A) : Prop :=
  forall st e, fst (m st) = Raises e -> E e.

(** Every run of [m], returning or raising, takes a state to one that [P]
    relates to it. *)
Definition preserves (P : State -> State -> Prop) {A} (m : M A) : Prop :=
  forall st, P st (snd (m st)).

(** The two failure lists are as they were. *)
Definition same_failures (st st' : State) : Prop :=
  failed_extract_messages st' = failed_extract_messages st /\
  failed_extracts_to_save st' = failed_extracts_to_save st.

(** The response is refused: a status other than 200, or a content type
    that lacks the expected word. *)
Definition refused (word : string) (response : Response) : Prop :=
  status_code response <> 200 \/
  exists ct, headers_content_type response = Some ct /\
             PyStr.contains word ct = false.

(** The state [get_json] and [get_text] leave after a refused response. *)
Definition after_refusal (st : State) (u message : string) (code : Z) : State :=
  mkState (extracted_content st ++ [EMessage message])
          (failed_extract_messages st)
          (failed_extracts_to_save st)
          (logged st ++
             [Log Error "Failed connection: Bad response" (Some code)
                  (Some (Counts (List.length (extracted_content st))
                                (List.length (failed_extract_messages st))
                                (List.length (failed_extracts_to_save st))))])
          (host_calls st ++ [HttpGet u]).

Module SampleLinks.

(** A Gfycat link that ends in [gif] without a dot before it. *)
Definition gfycat_undotted : Extractor :=
  Sample.request Sample.offline "https://gfycat.com/abcgif" "Post Title".

Definition gfycat_gif : Extractor :=
  Sample.request Sample.offline "https://gfycat.com/abc123.gif" "Post Title".

Definition png (name : string) : Image :=
  Image_new ("https://i.imgur.com/" ++ name ++ ".png") "image/png" false None.

(** An Imgur client that knows one album of two still images. *)
Definition album_client : ImgurClient :=
  ImgurClient_mk (fun _ => Raises (ImgurClientError (Some 404)))
                 (fun _ => Returns [png "one"; png "two"])
                 (PInt 100).

(** An album link on the direct host that ends in [.png]. *)
Definition direct_host_album : ImgurExtractor :=
  ImgurExtractor_new
    (Sample.request Sample.offline "https://i.imgur.com/a/abc.png" "Post Title")
    (Some album_client).

Definition album_png : ImgurExtractor :=
  ImgurExtractor_new
    (Sample.request Sample.offline "https://imgur.com/a/abc.png" "Post Title")
    (Some album_client).

End SampleLinks.

(** No host call was issued. *)
Definition same_calls (st st' : State) : Prop := host_calls st' = host_calls st.

(** Nothing was extracted and no host was called. *)
Definition no_extraction (st st' : State) : Prop :=
  extracted_content st' = extracted_content st /\
  host_calls st' = host_calls st.

(** At most one entry was appended to [extracted_content], and no host
    was called. *)
Definition at_most_one_entry (st st' : State) : Prop :=
  (exists l, extracted_content st' = (extracted_content st ++ l)%list /\
             (List.length l <= 1)%nat) /\
  host_calls st' = host_calls st.

(** The record of the warning [ImgurExtractor.__init__] logs. *)
Definition no_client_warning : log_record :=
  Log Warning "Imgur extract failed: No imgur client setup" None None.

Module SampleDirect.

Definition direct_jpg : Extractor :=
  Sample.request Sample.offline "https://i.imgur.com/abc.jpg" "Post Title".

End SampleDirect.

(** The file name an entry of [extracted_content] carries is one of
    [names]; message strings carry none. *)
Definition entry_named_in (names : list string) (x : entry) : Prop :=
  match x with
  | EContent c => In (c_file_name c) names
  | EMessage _ => True
  end.

(** Every entry appended to [extracted_content] is named in [names]. *)
Definition named_in (names : list string) (st st' : State) : Prop :=
  exists l, extracted_content st' = (extracted_content st ++ l)%list /\
            Forall (entry_named_in names) l.

Module SampleAlbum.

(** An album link, named by post title, with a client that knows the album. *)
Definition album : ImgurExtractor :=
  ImgurExtractor_new
    (Sample.request Sample.offline "https://imgur.com/a/abc" "Post Title")
    (Some SampleLinks.album_client).

End SampleAlbum.

(** ** Albums *)

(** [count_from k n] is [k, k+1, ..., k+n-1]. *)
Fixpoint count_from (k : Z) (n : nat) : list Z :=
  match n with
  | O => []
  | S n' => k :: count_from (k + 1) n'
  end.

(** The ordinals [1, 2, ..., n]. *)
Definition ordinals (n : nat) : list Z := count_from 1 n.

(** An image record an album item can be built from: its link has a dot,
    and an animation carries its [mp4] address. *)
Definition image_well_formed (pic : Image) : Prop :=
  PyStr.contains "." (link pic) = true /\
  (Imgur.is_animated_gif pic = true -> exists m, mp4 pic = Some m).

(** The address an image is downloaded from. *)
Definition image_download_url (pic : Image) : string :=
  match mp4 pic with
  | Some m => if Imgur.is_animated_gif pic then m else link pic
  | None => link pic
  end.

(** The images a Vidble page offers: the [src] of every [img] whose first
    class token is [img2]. *)
Definition discovered_links (imgs : list Img) : list string :=
  flat_map
    (fun img =>
       match img_class img, img_src img with
       | Some (first :: _), Some link =>
           if String.eqb first "img2" then [link] else []
       | _, _ => []
       end)
    imgs.

(** [items] is the album of the addresses [urls]: one item per address,
    in the same order, numbered from 1, all with the file name [name], and
    no two with the same computed file name. *)
Definition album_of (name : string) (urls : list string) (items : list Content) : Prop :=
  List.length items = List.length urls /\
  map c_url items = map PStr urls /\
  map c_number_in_seq items = map PInt (ordinals (List.length urls)) /\
  Forall (fun c => c_file_name c = name) items /\
  NoDup (map computed_file_name items).

Module SamplePage.

(** A page with two album images; the address of the second has no dot. *)
Definition page_imgs : list Img :=
  [Img_new (Some ["img2"]) (Some "/one_med.jpg");
   Img_new (Some ["img2"]) (Some "/two")].

Definition vidble_world (imgs : list Img) : World :=
  World_new
    (fun _ => Returns (Response_new 200 (Some "text/html; charset=utf-8")
                                    (Raises ValueError) "<html>...</html>"))
    (fun _ => imgs) None None (fun _ _ => Raises ConnectionError).

Definition vidble_album (imgs : list Img) : Extractor :=
  Sample.request (vidble_world imgs) "https://vidble.com/album/xyz" "Post Title".

Definition good_imgs : list Img :=
  [Img_new (Some ["img2"]) (Some "/one_med.jpg");
   Img_new (Some ["thumb"]) (Some "/logo.png");
   Img_new None (Some "/banner.png");
   Img_new (Some ["img2"; "wide"]) (Some "/two_med.png")].

End SamplePage.

(** The state after [items] were appended and [calls] issued. *)
Definition after_items (st : State) (items : list Content) (calls : list host_call)
  : State :=
  mkState (extracted_content st ++ map EContent items)
          (failed_extract_messages st) (failed_extracts_to_save st)
          (logged st) (host_calls st ++ calls).

(** ** Further predicates on states *)

(** [l'] is [l] with entries added at its end. *)
Definition grows {A} (l l' : list A) : Prop := exists t, l' = (l ++ t)%list.

(** Every list of the state kept what it held, in place. *)
Definition extends (st st' : State) : Prop :=
  grows (extracted_content st) (extracted_content st') /\
  grows (failed_extract_messages st) (failed_extract_messages st') /\
  grows (failed_extracts_to_save st) (failed_extracts_to_save st') /\
  grows (logged st) (logged st') /\
  grows (host_calls st) (host_calls st').

(** At most one host call was issued, and it is of the given kind. *)
Definition one_call_at_most (kind : host_call -> Prop) (st st' : State) : Prop :=
  exists l, host_calls st' = (host_calls st ++ l)%list /\
            (List.length l <= 1)%nat /\ Forall kind l.

(** The calls of the Imgur client, and the plain HTTP requests. *)
Definition is_imgur_call (c : host_call) : Prop :=
  match c with
  | ImgurGetImage _ | ImgurGetAlbumImages _ => True
  | HttpGet _ => False
  end.

Definition is_http_get (c : host_call) : Prop :=
  match c with
  | HttpGet _ => True
  | _ => False
  end.

(** At most one failure message and at most one retry record were added;
    a retry record comes with a message and is the post [p]. *)
Definition one_failure_at_most (p : Post) (st st' : State) : Prop :=
  exists msgs saves,
    failed_extract_messages st' = (failed_extract_messages st ++ msgs)%list /\
    failed_extracts_to_save st' = (failed_extracts_to_save st ++ saves)%list /\
    (List.length saves <= List.length msgs)%nat /\
    (List.length msgs <= 1)%nat /\
    Forall (eq p) saves.

(** The state after a failure was recorded: the retry records [saves] and
    the message were appended, then one event was logged with the counters
    of the lists as they are by then. *)
Definition recorded (st : State) (saves : list Post) (message : string)
    (lvl : log_level) (event : string) : State :=
  mkState (extracted_content st)
          (failed_extract_messages st ++ [message])
          (failed_extracts_to_save st ++ saves)
          (logged st ++
             [Log lvl event None
                  (Some (Counts (List.length (extracted_content st))
                                (List.length (failed_extract_messages st) + 1)
                                (List.length (failed_extracts_to_save st)
                                 + List.length saves)))])
          (host_calls st).

(** The state after one entry was appended to [extracted_content]. *)
Definition with_entry (st : State) (x : entry) : State :=
  mkState (extracted_content st ++ [x]) (failed_extract_messages st)
          (failed_extracts_to_save st) (logged st) (host_calls st).

(** The state after one host call was issued. *)
Definition with_call (st : State) (c : host_call) : State :=
  mkState (extracted_content st) (failed_extract_messages st)
          (failed_extracts_to_save st) (logged st) (host_calls st ++ [c]).

(** The state after the bare [except:] of the Gfycat, Vidble and
    RedditUploads extractors ran: its message, then its log event. *)
Definition after_generic_failure (self : Extractor) (st : State) : State :=
  mkState (extracted_content st ++ [EMessage (Base.failed_to_locate_message self)])
          (failed_extract_messages st) (failed_extracts_to_save st)
          (logged st ++
             [Log Error "Failed extract: Failed to locate content" None
                  (Some (Counts (List.length (extracted_content st) + 1)
                                (List.length (failed_extract_messages st))
                                (List.length (failed_extracts_to_save st))))])
          (host_calls st).

Module SampleMore.


(** A world with both credentials whose client constructor fails with [e]. *)
Definition configured (r : result ImgurClient) : World :=
  World_new (fun _ => Raises ConnectionError) (fun _ => [])
            (Some "client-id") (Some "client-secret") (fun _ _ => r).

End SampleMore.

(** [v] is not a JSON object: [v.get] is undefined on it. *)
Definition not_an_object (v : pyval) : Prop :=
  match v with
  | PDict _ => False
  | _ => True
  end.

Module SampleGfycat.

Definition body : pyval :=
  PDict [("gfyItem", PDict [("webmUrl", PStr "https://x/abc123.webm")])].

Definition world_with (json : result pyval) : World :=
  World_new
    (fun _ => Returns (Response_new 200 (Some "application/json") json "{...}"))
    (fun _ => []) None None (fun _ _ => Raises ConnectionError).

Definition request (json : result pyval) : Extractor :=
  Sample.request (world_with json) "https://gfycat.com/abc123" "Site Id".

End SampleGfycat.

(** The state after the handler of [NameError] of the two direct paths
    ran: it logs first, then appends its message. *)
Definition after_unrecognized_extension (self : Extractor) (event : string) (st : State)
  : State :=
  mkState (extracted_content st)
          (failed_extract_messages st ++ [Imgur.unrecognized_extension_message self])
          (failed_extracts_to_save st)
          (logged st ++
             [Log Error event None
                  (Some (Counts (List.length (extracted_content st))
                                (List.length (failed_extract_messages st))
                                (List.length (failed_extracts_to_save st))))])
          (host_calls st).

Module SampleImgur.

Definition with_client (c : option ImgurClient) (u naming : string) : ImgurExtractor :=
  ImgurExtractor_new (Sample.request Sample.offline u naming) c.

(** A client that knows one animation. *)
Definition animation : Image :=
  Image_new "https://i.imgur.com/abc.gif" "image/gif" true
            (Some "https://i.imgur.com/abc.mp4").

Definition animation_client : ImgurClient :=
  ImgurClient_mk (fun _ => Returns animation) (fun _ => Returns [animation]) (PInt 100).

End SampleImgur.

Module SampleVidble.

Definition refused_page : Extractor :=
  Sample.request SampleFailures.not_found "https://vidble.com/show/abc.jpg" "Site Id".

Definition show_page : Extractor :=
  Sample.request (SamplePage.vidble_world SamplePage.good_imgs)
                 "https://vidble.com/show/abc.jpg" "Site Id".

End SampleVidble.

(** The body of the loop of [VidbleExtractor.extract_single], named. *)
Definition vidble_single_step (self : Extractor) (vidble_id : string) (_ : unit)
    (img : Img) : M unit :=
  selected <- Vidble.is_img2 img ;;
  if selected : bool then
    match img_src img with
    | Some link =>
        '(base, extension) <- rsplit_unpack "." link ;;
        let file_name := Base.choose_file_name self vidble_id in
        append_extracted_content
          (Vidble.new_content self (Vidble.vidble_base ++ link) file_name (PStr "")
                              extension)
    | None => ret tt
    end
  else ret tt.

(** The last segment of a Vidble page link without its extension, as
    [extract_single] computes it. *)
Definition vidble_stem (vidble_id : string) : string :=
  if PyStr.contains "." vidble_id
  then PyStr.slice_to (PyStr.rfind "." vidble_id) vidble_id
  else vidble_id.

(** The values of the credit counter that the clause for status 403 can
    handle: [None], or a number that [<= 0] is defined on. *)
Definition none_or_number (v : pyval) : Prop :=
  match v with
  | PNone | PInt _ | PBool _ => True
  | _ => False
  end.

Module SampleDenied.

(** The client as the library leaves it after a denied request: the call
    fails with status 403 and the counter holds the text of the header. *)
Definition denied_client : ImgurClient :=
  ImgurClient_mk (fun _ => Raises (ImgurClientError (Some 403)))
                 (fun _ => Raises (ImgurClientError (Some 403)))
                 (PStr "0").

Definition denied_request : ImgurExtractor :=
  ImgurExtractor_new
    (Sample.request Sample.offline "https://imgur.com/abc" "Post Title")
    (Some denied_client).

End SampleDenied.

(** * Properties *)

(** ** Splitting at the last separator *)

Section RsplitFacts.

Variable sep : ascii.

Lemma contains_sep_cons (c : ascii) (s : string) :
  PyStr.contains (String sep EmptyString) (String c s) = Ascii.eqb c sep || PyStr.contains (String sep EmptyString) s.
Proof.
  cbn [PyStr.contains prefix].
  destruct (ascii_dec sep c) as [<- | Hne].
  - rewrite Ascii.eqb_refl. now destruct s.
  - destruct (Ascii.eqb_spec c sep) as [-> | _]; [contradiction | reflexivity].
Qed.

(** [rsplit] yields one piece exactly when the separator is absent. *)
Lemma rsplit1_None (s : string) :
  PyStr.rsplit1 sep s = None <-> PyStr.contains (String sep EmptyString) s = false.
Proof.
  induction s as [| c s IH].
  - cbn. tauto.
  - rewrite contains_sep_cons. cbn [PyStr.rsplit1].
    destruct (PyStr.rsplit1 sep s) as [[a b] |].
    + split; [discriminate |].
      intros H. apply orb_false_elim in H as [_ H].
      apply IH in H. discriminate.
    + destruct (Ascii.eqb c sep); cbn.
      * split; discriminate.
      * split; [intros _; now apply IH | reflexivity].
Qed.

(** Otherwise the two pieces rebuild the text around the separator, and
    the second piece is free of it. *)
Lemma rsplit1_Some (s a b : string) :
  PyStr.rsplit1 sep s = Some (a, b) ->
  s = a ++ String sep b /\ PyStr.contains (String sep EmptyString) b = false.
Proof.
  revert a b. induction s as [| c s IH]; intros a b; cbn [PyStr.rsplit1].
  - discriminate.
  - destruct (PyStr.rsplit1 sep s) as [[a' b'] |] eqn:E.
    + intros [= <- <-]. destruct (IH _ _ eq_refl) as [-> Hb].
      split; [reflexivity | exact Hb].
    + destruct (Ascii.eqb_spec c sep) as [-> | _]; [| discriminate].
      intros [= <- <-]. split; [reflexivity |]. now apply rsplit1_None.
Qed.

(** Conversely, a text built around a separator that its second piece
    lacks splits into these two pieces. *)
Lemma rsplit1_app_sep (a b : string) :
  PyStr.contains (String sep EmptyString) b = false ->
  PyStr.rsplit1 sep (a ++ String sep b) = Some (a, b).
Proof.
  intros Hb. apply rsplit1_None in Hb.
  induction a as [| c a IH]; cbn [append PyStr.rsplit1].
  - now rewrite Hb, Ascii.eqb_refl.
  - now rewrite IH.
Qed.

End RsplitFacts.

(** ** Transitions that respect a preorder on states *)

Section Preserves.

Variable P : State -> State -> Prop.
Hypothesis P_refl : forall st, P st st.
Hypothesis P_trans : forall a b c, P a b -> P b c -> P a c.

Lemma preserves_ret {A} (a : A) : preserves P (ret a).
Proof. intros st. apply P_refl. Qed.

Lemma preserves_raise {A} (e : exn) : preserves P (@raise A e).
Proof. intros st. apply P_refl. Qed.

Lemma preserves_lift {A} (r : result A) : preserves P (lift r).
Proof. intros st. apply P_refl. Qed.

Lemma preserves_bind {A B} (m : M A) (k : A -> M B) :
  preserves P m -> (forall a, preserves P (k a)) -> preserves P (bind m k).
Proof.
  intros Hm Hk st. unfold bind. specialize (Hm st).
  destruct (m st) as [[a | e] st']; cbn in *.
  - eapply P_trans; [exact Hm | apply Hk].
  - exact Hm.
Qed.

Lemma preserves_try_except {A} (body : M A) (handler : exn -> option (M A)) :
  preserves P body ->
  (forall e h, handler e = Some h -> preserves P h) ->
  preserves P (try_except body handler).
Proof.
  intros Hb Hh st. unfold try_except. specialize (Hb st).
  destruct (body st) as [[a | e] st']; cbn in *; [exact Hb |].
  destruct (handler e) as [h |] eqn:E; cbn; [| exact Hb].
  eapply P_trans; [exact Hb | eapply Hh; eassumption].
Qed.

Lemma preserves_for_each {A B} (l : list A) (body : B -> A -> M B) :
  (forall acc x, In x l -> preserves P (body acc x)) ->
  forall acc, preserves P (for_each l acc body).
Proof.
  induction l as [| x l IH]; intros Hbody acc; cbn [for_each].
  - apply preserves_ret.
  - apply preserves_bind.
    + apply Hbody. now left.
    + intros acc'. apply IH. intros ? ? ?. apply Hbody. now right.
Qed.

Lemma preserves_rsplit_unpack (c : ascii) (s : string) :
  preserves P (rsplit_unpack c s).
Proof.
  unfold rsplit_unpack. destruct (PyStr.rsplit1 c s);
    [apply preserves_ret | apply preserves_raise].
Qed.

Lemma preserves_py_get (v : pyval) (k : string) : preserves P (py_get v k).
Proof. destruct v; cbn; (apply preserves_ret || apply preserves_raise). Qed.

Lemma preserves_py_le_zero (v : pyval) : preserves P (py_le_zero v).
Proof. destruct v; cbn; (apply preserves_ret || apply preserves_raise). Qed.

End Preserves.

(** ** Computations that never raise *)

Lemma never_raises_ret {A} (a : A) : never_raises (ret a).
Proof. intros st. now exists a. Qed.

Lemma never_raises_bind {A B} (m : M A) (k : A -> M B) :
  never_raises m -> (forall a, never_raises (k a)) -> never_raises (bind m k).
Proof.
  intros Hm Hk st. unfold bind. destruct (Hm st) as [a Ha].
  destruct (m st) as [[a' | e] st']; cbn in Ha; [| discriminate].
  apply Hk.
Qed.

(** A [try] whose clauses catch everything and do not raise themselves. *)
Lemma never_raises_try_except {A} (body : M A) (handler : exn -> option (M A)) :
  (forall e, exists h, handler e = Some h /\ never_raises h) ->
  never_raises (try_except body handler).
Proof.
  intros Hh st. unfold try_except.
  destruct (body st) as [[a | e] st']; cbn; [now exists a |].
  destruct (Hh e) as (h & -> & Hn). apply Hn.
Qed.

Lemma never_raises_unit (m : M unit) :
  never_raises m -> forall st, fst (m st) = Returns tt.
Proof. intros H st. destruct (H st) as [[] Ha]. exact Ha. Qed.

Lemma never_raises_append_extracted_content x :
  never_raises (append_extracted_content x).
Proof. intros st. now exists tt. Qed.

Lemma never_raises_append_failed_extract_messages s :
  never_raises (append_failed_extract_messages s).
Proof. intros st. now exists tt. Qed.

Lemma never_raises_append_failed_extracts_to_save p :
  never_raises (append_failed_extracts_to_save p).
Proof. intros st. now exists tt. Qed.

Lemma never_raises_log_with_data self lvl msg code :
  never_raises (Base.log_with_data self lvl msg code).
Proof. intros st. now exists tt. Qed.

Create HintDb never_raises.

#[local] Hint Resolve never_raises_ret never_raises_append_extracted_content
  never_raises_append_failed_extract_messages never_raises_append_failed_extracts_to_save
  never_raises_log_with_data : never_raises.

Ltac never_raises_step :=
  first [ solve [auto with never_raises] | apply never_raises_bind; [| intros ?] ].

Lemma never_raises_rate_limit_exceeded_error self :
  never_raises (Imgur.rate_limit_exceeded_error self).
Proof. unfold Imgur.rate_limit_exceeded_error. repeat never_raises_step. Qed.

Lemma never_raises_no_credit_error self : never_raises (Imgur.no_credit_error self).
Proof. unfold Imgur.no_credit_error. repeat never_raises_step. Qed.

Lemma never_raises_over_capacity_error self :
  never_raises (Imgur.over_capacity_error self).
Proof. unfold Imgur.over_capacity_error. repeat never_raises_step. Qed.

Lemma never_raises_does_not_exist_error self :
  never_raises (Imgur.does_not_exist_error self).
Proof. unfold Imgur.does_not_exist_error. repeat never_raises_step. Qed.

Lemma never_raises_failed_to_locate_error self :
  never_raises (Imgur.failed_to_locate_error self).
Proof. unfold Imgur.failed_to_locate_error. repeat never_raises_step. Qed.

#[local] Hint Resolve never_raises_rate_limit_exceeded_error never_raises_no_credit_error
  never_raises_over_capacity_error never_raises_does_not_exist_error
  never_raises_failed_to_locate_error : never_raises.

Lemma never_raises_gfycat_on_exception self : never_raises (Gfycat.on_exception self).
Proof. unfold Gfycat.on_exception. repeat never_raises_step. Qed.

Lemma never_raises_vidble_on_exception self : never_raises (Vidble.on_exception self).
Proof. unfold Vidble.on_exception. repeat never_raises_step. Qed.

Lemma never_raises_reddit_on_exception self :
  never_raises (RedditUploads.on_exception self).
Proof. unfold RedditUploads.on_exception. repeat never_raises_step. Qed.

(** A [try] that catches, without raising again, whatever its body can raise. *)
Lemma never_raises_try_except_body {A} (body : M A) (handler : exn -> option (M A)) :
  (forall st e, fst (body st) = Raises e ->
                exists h, handler e = Some h /\ never_raises h) ->
  never_raises (try_except body handler).
Proof.
  intros Hh st. unfold try_except. specialize (Hh st).
  destruct (body st) as [[a | e] st']; cbn in *; [now exists a |].
  destruct (Hh e eq_refl) as (h & -> & Hn). apply Hn.
Qed.

(** ** The exceptions a computation can raise *)

Section RaisesOnly.

Variable E : exn -> Prop.

Lemma raises_only_ret {A} (a : A) : raises_only E (ret a).
Proof. intros st e. discriminate. Qed.

Lemma raises_only_raise {A} (e : exn) : E e -> raises_only E (@raise A e).
Proof. intros He st e' [= <-]. exact He. Qed.

Lemma raises_only_never {A} (m : M A) : never_raises m -> raises_only E m.
Proof. intros H st e He. destruct (H st) as [a Ha]. congruence. Qed.

Lemma raises_only_bind {A B} (m : M A) (k : A -> M B) :
  raises_only E m -> (forall a, raises_only E (k a)) -> raises_only E (bind m k).
Proof.
  intros Hm Hk st e. unfold bind. specialize (Hm st).
  destruct (m st) as [[a | e'] st']; cbn in *.
  - apply Hk.
  - intros [= <-]. now apply Hm.
Qed.

Lemma raises_only_try_except {A} (body : M A) (handler : exn -> option (M A)) :
  raises_only E body ->
  (forall e h, handler e = Some h -> raises_only E h) ->
  raises_only E (try_except body handler).
Proof.
  intros Hb Hh st e. unfold try_except. specialize (Hb st).
  destruct (body st) as [[a | e'] st']; cbn in *; [discriminate |].
  destruct (handler e') as [h |] eqn:Eh; cbn.
  - eapply Hh; eassumption.
  - intros [= <-]. now apply Hb.
Qed.

Lemma raises_only_for_each {A B} (l : list A) (body : B -> A -> M B) :
  (forall acc x, raises_only E (body acc x)) ->
  forall acc, raises_only E (for_each l acc body).
Proof.
  intros Hbody. induction l as [| x l IH]; intros acc; cbn [for_each].
  - apply raises_only_ret.
  - apply raises_only_bind; [apply Hbody | exact IH].
Qed.

Hypothesis E_ValueError : E ValueError.
Hypothesis E_AttributeError : E AttributeError.
Hypothesis E_UnboundLocalError : E UnboundLocalError.

Lemma raises_only_rsplit_unpack (c : ascii) (s : string) :
  raises_only E (rsplit_unpack c s).
Proof.
  unfold rsplit_unpack. destruct (PyStr.rsplit1 c s);
    [apply raises_only_ret | now apply raises_only_raise].
Qed.

Lemma raises_only_image_mp4 (pic : Image) : raises_only E (Imgur.image_mp4 pic).
Proof.
  unfold Imgur.image_mp4. destruct (mp4 pic);
    [apply raises_only_ret | now apply raises_only_raise].
Qed.

Lemma raises_only_local_url (bound : option string) :
  raises_only E (Imgur.local_url bound).
Proof.
  destruct bound; [apply raises_only_ret | now apply raises_only_raise].
Qed.

(** Without a client, every use of [self.client] stops at the missing
    attribute. *)
Section NoClient.

Variable self : ImgurExtractor.
Hypothesis no_client : client self = None.

Lemma no_client_get_image (image_id : string) (st : State) :
  Imgur.client_get_image self image_id st = (Raises AttributeError, st).
Proof.
  unfold Imgur.client_get_image, Imgur.get_client, bind. now rewrite no_client.
Qed.

Lemma no_client_get_album_images (album_id : string) (st : State) :
  Imgur.client_get_album_images self album_id st = (Raises AttributeError, st).
Proof.
  unfold Imgur.client_get_album_images, Imgur.get_client, bind.
  now rewrite no_client.
Qed.

Lemma raises_only_no_client_get_image (image_id : string) :
  raises_only E (Imgur.client_get_image self image_id).
Proof.
  intros st e. rewrite no_client_get_image. now intros [= <-].
Qed.

Lemma raises_only_no_client_get_album_images (album_id : string) :
  raises_only E (Imgur.client_get_album_images self album_id).
Proof.
  intros st e. rewrite no_client_get_album_images. now intros [= <-].
Qed.

Lemma raises_only_no_client_resolve_gif (u image_id extension : string) :
  raises_only E (Imgur.resolve_gif self u image_id extension).
Proof.
  unfold Imgur.resolve_gif.
  destruct (_ || _); [| apply raises_only_ret].
  apply raises_only_bind; [apply raises_only_no_client_get_image |].
  intros pic. destruct (Imgur.is_animated_gif pic); [| apply raises_only_ret].
  apply raises_only_bind; [apply raises_only_image_mp4 |].
  intros m. apply raises_only_ret.
Qed.

Lemma raises_only_no_client_direct_body (u0 : option string) (shift : bool) :
  raises_only E
    (u <- Imgur.local_url u0 ;;
     '(domain, id_with_ext) <- rsplit_unpack "/" u ;;
     let u := if shift then "https://i.imgur.com/" ++ id_with_ext else u in
     '(image_id, extension) <- rsplit_unpack "." id_with_ext ;;
     let file_name := Base.choose_file_name (imgur_base self) image_id in
     '(u, extension) <- Imgur.resolve_gif self u image_id extension ;;
     append_extracted_content
       (Imgur.new_content (imgur_base self) u file_name (PStr "") extension)).
Proof.
  apply raises_only_bind; [apply raises_only_local_url | intros u].
  apply raises_only_bind; [apply raises_only_rsplit_unpack | intros [d t]].
  apply raises_only_bind; [apply raises_only_rsplit_unpack | intros [i x]].
  apply raises_only_bind; [apply raises_only_no_client_resolve_gif | intros [u' x']].
  apply raises_only_never. auto with never_raises.
Qed.

Lemma raises_only_except_NameError (event : string) (e : exn) (h : M unit) :
  Imgur.except_NameError (imgur_base self) event e = Some h -> raises_only E h.
Proof.
  intros H. apply raises_only_never.
  destruct e; cbn in H; try discriminate; injection H as <-;
    repeat never_raises_step.
Qed.

Lemma raises_only_no_client_extract_direct_link :
  raises_only E (Imgur.extract_direct_link self).
Proof.
  unfold Imgur.extract_direct_link. apply raises_only_try_except.
  - apply (raises_only_no_client_direct_body _ false).
  - intros e h. apply raises_only_except_NameError.
Qed.

Lemma raises_only_no_client_extract_direct_mislinked :
  raises_only E (Imgur.extract_direct_mislinked self).
Proof.
  unfold Imgur.extract_direct_mislinked. apply raises_only_try_except.
  - apply (raises_only_no_client_direct_body _ true).
  - intros e h. apply raises_only_except_NameError.
Qed.

Lemma raises_only_no_client_extract_album :
  raises_only E (Imgur.extract_album self).
Proof.
  unfold Imgur.extract_album.
  apply raises_only_bind; [apply raises_only_rsplit_unpack | intros [d t]].
  apply raises_only_bind; [apply raises_only_no_client_get_album_images |].
  intros pics. apply raises_only_bind; [| intros; apply raises_only_ret].
  intros st e. rewrite (surjective_pairing (for_each _ _ _ st)).
  revert st e. apply raises_only_for_each. intros count pic.
  apply raises_only_bind; [apply raises_only_rsplit_unpack | intros [a x]].
  apply raises_only_bind.
  - destruct (Imgur.is_animated_gif pic); [| apply raises_only_ret].
    apply raises_only_bind; [apply raises_only_image_mp4 |].
    intros m. apply raises_only_ret.
  - intros [u x']. apply raises_only_never. repeat never_raises_step.
Qed.

Lemma raises_only_no_client_extract_single :
  raises_only E (Imgur.extract_single self).
Proof.
  unfold Imgur.extract_single.
  apply raises_only_bind; [apply raises_only_rsplit_unpack | intros [d t]].
  apply raises_only_bind; [apply raises_only_no_client_get_image | intros pic].
  apply raises_only_bind; [apply raises_only_rsplit_unpack | intros [a x]].
  apply raises_only_bind.
  - destruct (Imgur.is_animated_gif pic); [| apply raises_only_ret].
    apply raises_only_bind; [apply raises_only_image_mp4 |].
    intros m. apply raises_only_ret.
  - intros [u x']. apply raises_only_never. auto with never_raises.
Qed.

Lemma raises_only_no_client_dispatch : raises_only E (Imgur.dispatch self).
Proof.
  unfold Imgur.dispatch.
  destruct (PyStr.contains "i.imgur" _);
    [apply raises_only_no_client_extract_direct_link |].
  destruct (PyStr.contains "/a/" _); [apply raises_only_no_client_extract_album |].
  destruct (PyStr.contains "/gallery/" _).
  - apply raises_only_try_except; [apply raises_only_no_client_extract_album |].
    intros e h [= <-]. apply raises_only_ret.
  - destruct (PyStr.endswith_any _ _).
    + apply raises_only_no_client_extract_direct_mislinked.
    + apply raises_only_no_client_extract_single.
Qed.

End NoClient.

End RaisesOnly.

(** ** Stepping through preservation goals *)

Create HintDb preorder.

Ltac preorder := solve [eauto 3 with preorder].

Ltac preserves_step :=
  lazymatch goal with
  | |- forall _, _ => intros
  | H : Some _ = Some ?h |- preserves _ ?h => injection H as <-
  | H : None = Some ?h |- preserves _ ?h => discriminate H
  | H : match ?e with _ => _ end = Some ?h |- preserves _ ?h => destruct e
  | |- preserves _ (bind _ _) => apply preserves_bind; [preorder | |]
  | |- preserves _ (ret _) => apply preserves_ret; preorder
  | |- preserves _ (raise _) => apply preserves_raise; preorder
  | |- preserves _ (lift _) => apply preserves_lift; preorder
  | |- preserves _ (rsplit_unpack _ _) => apply preserves_rsplit_unpack; preorder
  | |- preserves _ (py_get _ _) => apply preserves_py_get; preorder
  | |- preserves _ (py_le_zero _) => apply preserves_py_le_zero; preorder
  | |- preserves _ (try_except _ _) => apply preserves_try_except; [preorder | |]
  | |- preserves _ (for_each _ _ _) => apply preserves_for_each; [preorder | preorder |]
  | |- preserves _ (match ?x with _ => _ end) => destruct x
  | |- preserves _ (let _ := _ in _) => cbv zeta
  end.

(** ** The failure lists are left alone *)

Lemma same_failures_refl st : same_failures st st.
Proof. now split. Qed.

Lemma same_failures_trans a b c :
  same_failures a b -> same_failures b c -> same_failures a c.
Proof. intros [H1 H2] [H3 H4]. split; congruence. Qed.

#[local] Hint Resolve same_failures_refl same_failures_trans : preorder.

Lemma same_failures_append_extracted_content x :
  preserves same_failures (append_extracted_content x).
Proof. intros st. now split. Qed.

Lemma same_failures_record_call c : preserves same_failures (record_call c).
Proof. intros st. now split. Qed.

Ltac same_failures_tac :=
  repeat first
    [ apply same_failures_append_extracted_content
    | apply same_failures_record_call
    | preserves_step ].

Lemma same_failures_extract_album self :
  preserves same_failures (Imgur.extract_album self).
Proof.
  unfold Imgur.extract_album, Imgur.album_step, Imgur.client_get_album_images,
    Imgur.get_client, Imgur.image_mp4.
  same_failures_tac.
Qed.

(** ** Exceptions at the entry points *)

Lemma never_raises_bind_ret {A B} (a : A) (k : A -> M B) :
  never_raises (k a) -> never_raises (bind (ret a) k).
Proof. intros H st. exact (H st). Qed.

Lemma never_raises_py_le_zero v :
  none_or_number v -> v <> PNone -> never_raises (py_le_zero v).
Proof.
  destruct v; cbn; intros Hn Hv; try contradiction; try apply never_raises_ret.
Qed.

Lemma never_raises_on_ImgurClientError self c sc :
  client self = Some c ->
  none_or_number (credits_ClientRemaining c) ->
  never_raises (Imgur.on_ImgurClientError self sc).
Proof.
  intros Hc Hnum. unfold Imgur.on_ImgurClientError, Imgur.get_client. rewrite Hc.
  repeat (apply never_raises_bind; [| intros ?]);
    try (match goal with
         | |- never_raises (if Imgur.status_is _ _ then _ else _) =>
             destruct (Imgur.status_is sc _)
         end; auto with never_raises).
  apply never_raises_bind_ret.
  destruct (credits_ClientRemaining c) eqn:Hv; cbn in Hnum; try contradiction;
    auto with never_raises.
  - apply never_raises_bind; [apply never_raises_ret | intros []];
      auto with never_raises.
  - apply never_raises_bind; [apply never_raises_ret | intros []];
      auto with never_raises.
Qed.

(** With a counter that is [None] or a number, and in particular
    without any client, no exception leaves
    [ImgurExtractor.extract_content]. *)
Lemma never_raises_imgur_extract_content self :
  (forall c, client self = Some c -> none_or_number (credits_ClientRemaining c)) ->
  never_raises (Imgur.extract_content self).
Proof.
  intros Hnum. unfold Imgur.extract_content. destruct (client self) as [c |] eqn:Hc.
  - apply never_raises_try_except. intros e.
    destruct e; cbn; eexists; (split; [reflexivity |]); auto with never_raises.
    eapply never_raises_on_ImgurClientError; [eassumption | now apply Hnum].
  - apply never_raises_try_except_body. intros st e He.
    assert (Hne : forall sc, e <> ImgurClientError sc).
    { refine (raises_only_no_client_dispatch
                (fun e => forall sc, e <> ImgurClientError sc) _ _ _ self Hc st e He);
        discriminate. }
    destruct e; cbn; try (eexists; (split; [reflexivity |]); auto with never_raises).
    now destruct (Hne status_code0).
Qed.

Lemma direct_extract_content_no_separator self st :
  PyStr.contains "/" (url self) = false ->
  Direct.extract_content self st = (Raises ValueError, st).
Proof.
  intros H. apply rsplit1_None in H.
  unfold Direct.extract_content, rsplit_unpack, bind. now rewrite H.
Qed.

Lemma direct_extract_content_no_dot self st d t :
  PyStr.rsplit1 "/" (url self) = Some (d, t) ->
  PyStr.contains "." t = false ->
  Direct.extract_content self st = (Raises ValueError, st).
Proof.
  intros Hs H. apply rsplit1_None in H.
  unfold Direct.extract_content, rsplit_unpack, bind. rewrite Hs. cbn. now rewrite H.
Qed.

Lemma direct_extract_content_dot self st d t :
  PyStr.rsplit1 "/" (url self) = Some (d, t) ->
  PyStr.contains "." t = true ->
  fst (Direct.extract_content self st) = Returns tt.
Proof.
  intros Hs H.
  unfold Direct.extract_content, rsplit_unpack, bind. rewrite Hs. cbn.
  destruct (PyStr.rsplit1 "." t) as [[i x] |] eqn:E; [reflexivity |].
  apply rsplit1_None in E. congruence.
Qed.

(** C1, as the code has it.  The clause for client errors compares the
    credit counter with [0] when the status is 403.  The client holds the
    text of the rate-limit header there, and the comparison of a string
    with an integer raises [TypeError]; raised inside an [except] clause,
    it is not caught by the bare [except:] beside it.  So when the
    extraction of a link fails with status 403 and the counter is a string,
    [TypeError] leaves [extract_content], and nothing is recorded for the
    failure. *)
Theorem C1_credit_comparison_raises_out_of_extract_content :
  forall self c header st st1,
    client self = Some c ->
    credits_ClientRemaining c = PStr header ->
    Imgur.dispatch self st = (Raises (ImgurClientError (Some 403)), st1) ->
    Imgur.extract_content self st = (Raises TypeError, st1).
Proof.
  intros self c header st st1 Hc Hheader Hd.
  unfold Imgur.extract_content, try_except. rewrite Hd.
  cbn [Imgur.handlers]. unfold Imgur.on_ImgurClientError, Imgur.get_client.
  rewrite Hc. change (Imgur.status_is (Some 403) 403) with true. cbv iota.
  unfold bind at 1 2 3 4. cbn [ret]. rewrite Hheader. reflexivity.
Qed.

Lemma C1_witness :
  Imgur.extract_content SampleDenied.denied_request empty_state
  = (Raises TypeError, mkState [] [] [] [] [ImgurGetImage "abc"]).
Proof.
  exact (C1_credit_comparison_raises_out_of_extract_content
           SampleDenied.denied_request SampleDenied.denied_client "0" empty_state
           (mkState [] [] [] [] [ImgurGetImage "abc"]) eq_refl eq_refl eq_refl).
Defined.

(** A failed gallery link: [extract_album] raises the client error of an
    over-capacity host, [extract_content] returns, and neither a failure
    message nor a retry record is left behind. *)
Lemma gallery_failure_is_not_recorded :
  Imgur.extract_album Sample.gallery_request empty_state
  = (Raises (ImgurClientError (Some 500)),
     mkState [] [] [] [] [ImgurGetAlbumImages "abc"]) /\
  Imgur.extract_content Sample.gallery_request empty_state
  = (Returns tt, mkState [] [] [] [] [ImgurGetAlbumImages "abc"]).
Proof. split; reflexivity. Qed.

(** ** The transport helpers *)

Lemma response_ok_refused word response st :
  refused word response ->
  Base.response_ok word response st = (Returns false, st).
Proof.
  unfold Base.response_ok. intros [Hs | (ct & Hct & Hw)].
  - apply Z.eqb_neq in Hs. now rewrite Hs.
  - rewrite Hct, Hw. now destruct (status_code response =? 200).
Qed.

Lemma response_ok_accepted word response ct st :
  status_code response = 200 ->
  headers_content_type response = Some ct ->
  PyStr.contains word ct = true ->
  Base.response_ok word response st = (Returns true, st).
Proof.
  unfold Base.response_ok. intros -> -> ->. reflexivity.
Qed.

(** On an accepted response [get_json] hands back what [response.json()]
    gives, and [get_text] the body; nothing is logged or appended. *)
Lemma get_json_accepted self u response ct st :
  requests_get (world self) u = Returns response ->
  status_code response = 200 ->
  headers_content_type response = Some ct ->
  PyStr.contains "json" ct = true ->
  Base.get_json self u st
  = (response_json response,
     mkState (extracted_content st) (failed_extract_messages st)
             (failed_extracts_to_save st) (logged st) (host_calls st ++ [HttpGet u])).
Proof.
  intros Hg Hs Hct Hw.
  unfold Base.get_json, Base.http_get, bind, record_call, lift. cbn. rewrite Hg.
  rewrite (response_ok_accepted _ _ ct) by assumption.
  now destruct (response_json response).
Qed.

Lemma get_text_accepted self u response ct st :
  requests_get (world self) u = Returns response ->
  status_code response = 200 ->
  headers_content_type response = Some ct ->
  PyStr.contains "text" ct = true ->
  Base.get_text self u st
  = (Returns (PStr (response_text response)),
     mkState (extracted_content st) (failed_extract_messages st)
             (failed_extracts_to_save st) (logged st) (host_calls st ++ [HttpGet u])).
Proof.
  intros Hg Hs Hct Hw.
  unfold Base.get_text, Base.http_get, bind, record_call, lift. cbn. rewrite Hg.
  now rewrite (response_ok_accepted _ _ ct) by assumption.
Qed.

Lemma get_json_refused self u response st :
  requests_get (world self) u = Returns response ->
  refused "json" response ->
  Base.get_json self u st
  = (Returns PNone,
     after_refusal st u (Base.json_failure_message self u) (status_code response)).
Proof.
  intros Hg Hr.
  unfold Base.get_json, Base.http_get, bind, record_call, lift. cbn. rewrite Hg.
  now rewrite response_ok_refused.
Qed.

(** C4, as the code has it.  When the response is refused, [get_json] and
    [get_text] log one event and return [None], but the message they build
    is appended to [extracted_content], the list of content items;
    [failed_extract_messages] is left as it was. *)
Theorem C4_refused_response_message_goes_to_extracted_content :
  forall self u response st,
    requests_get (world self) u = Returns response ->
    (refused "json" response ->
     Base.get_json self u st
     = (Returns PNone,
        after_refusal st u (Base.json_failure_message self u) (status_code response))) /\
    (refused "text" response ->
     Base.get_text self u st
     = (Returns PNone,
        after_refusal st u (Base.text_failure_message self u) (status_code response))).
Proof.
  intros self u response st Hg. split; intros Hr.
  - now apply get_json_refused.
  - unfold Base.get_text, Base.http_get, bind, record_call, lift. cbn. rewrite Hg.
    now rewrite response_ok_refused.
Qed.

Lemma C4_witness :
  Base.get_json SampleFailures.gfycat_request "https://gfycat.com/cajax/get/abc" empty_state
  = (Returns PNone,
     mkState
       [EMessage (Base.json_failure_message SampleFailures.gfycat_request
                                             "https://gfycat.com/cajax/get/abc")]
       [] []
       [Log Error "Failed connection: Bad response" (Some 404) (Some (Counts 0 0 0))]
       [HttpGet "https://gfycat.com/cajax/get/abc"]).
Proof.
  refine (proj1 (C4_refused_response_message_goes_to_extracted_content
                   SampleFailures.gfycat_request "https://gfycat.com/cajax/get/abc"
                   _ empty_state eq_refl) _).
  left. cbn. discriminate.
Defined.

(** A missing [Content-Type] header on a 200 response: the lookup raises
    and nothing is logged or appended. *)
Lemma get_json_missing_content_type self u response st :
  requests_get (world self) u = Returns response ->
  status_code response = 200 ->
  headers_content_type response = None ->
  Base.get_json self u st
  = (Raises KeyError,
     mkState (extracted_content st) (failed_extract_messages st)
             (failed_extracts_to_save st) (logged st) (host_calls st ++ [HttpGet u])).
Proof.
  intros Hg Hs Hct.
  unfold Base.get_json, Base.http_get, Base.response_ok, bind, record_call, lift.
  cbn. now rewrite Hg, Hs, Hct.
Qed.

(** ** Gfycat: the API path after a refused response *)

(** C9, as the code has it.  On the API path, when the response to the
    lookup is refused, [get_json] returns [None]; [extract_single] goes on
    to call [.get] on it, which raises, and the bare [except:] of
    [extract_content] appends the generic message after the one [get_json]
    appended.  Two messages end up in [extracted_content] and none in
    [failed_extract_messages]. *)
Theorem C9_refused_lookup_leaves_two_messages :
  forall self domain gif_id response st,
    PyStr.endswith_any Gfycat.direct_suffixes (PyStr.lower (url self)) = false ->
    PyStr.rsplit1 "/" (url self) = Some (domain, gif_id) ->
    requests_get (world self) (Gfycat.api_caller ++ gif_id) = Returns response ->
    refused "json" response ->
    let st1 :=
      after_refusal st (Gfycat.api_caller ++ gif_id)
                    (Base.json_failure_message self (Gfycat.api_caller ++ gif_id))
                    (status_code response) in
    Gfycat.extract_single self st = (Raises AttributeError, st1) /\
    Gfycat.extract_content self st
    = (Returns tt,
       mkState (extracted_content st
                  ++ [EMessage (Base.json_failure_message
                                  self (Gfycat.api_caller ++ gif_id));
                      EMessage (Base.failed_to_locate_message self)])
               (failed_extract_messages st)
               (failed_extracts_to_save st)
               (logged st1 ++
                  [Log Error "Failed extract: Failed to locate content" None
                       (Some (Counts (List.length (extracted_content st) + 2)
                                     (List.length (failed_extract_messages st))
                                     (List.length (failed_extracts_to_save st))))])
               (host_calls st ++ [HttpGet (Gfycat.api_caller ++ gif_id)])).
Proof.
  intros self domain gif_id response st Hend Hsplit Hget Href st1.
  assert (Hsingle : Gfycat.extract_single self st = (Raises AttributeError, st1)).
  { unfold Gfycat.extract_single, rsplit_unpack. rewrite Hsplit.
    unfold bind at 1. cbn [ret]. unfold bind at 1.
    rewrite (get_json_refused self (Gfycat.api_caller ++ gif_id) response st Hget Href).
    reflexivity. }
  split; [exact Hsingle |].
  unfold Gfycat.extract_content, Gfycat.dispatch, try_except. rewrite Hend, Hsingle.
  unfold Gfycat.on_exception, Base.log_with_data, Base.get_log_data, bind,
    append_extracted_content, emit_log, st1, after_refusal. cbn.
  rewrite <- !app_assoc. cbn. rewrite !length_app. cbn.
  reflexivity.
Qed.

Lemma C9_witness :
  Gfycat.extract_single SampleFailures.gfycat_request empty_state
  = (Raises AttributeError,
     after_refusal empty_state "https://gfycat.com/cajax/get/abc"
                   (Base.json_failure_message SampleFailures.gfycat_request
                                              "https://gfycat.com/cajax/get/abc")
                   404) /\
  Gfycat.extract_content SampleFailures.gfycat_request empty_state
  = (Returns tt,
     mkState
       [EMessage (Base.json_failure_message SampleFailures.gfycat_request
                                             "https://gfycat.com/cajax/get/abc");
        EMessage (Base.failed_to_locate_message SampleFailures.gfycat_request)]
       [] []
       [Log Error "Failed connection: Bad response" (Some 404) (Some (Counts 0 0 0));
        Log Error "Failed extract: Failed to locate content" None (Some (Counts 2 0 0))]
       [HttpGet "https://gfycat.com/cajax/get/abc"]).
Proof.
  refine (C9_refused_lookup_leaves_two_messages
            SampleFailures.gfycat_request "https://gfycat.com" "abc" _ empty_state
            eq_refl eq_refl eq_refl _).
  left. cbn. discriminate.
Defined.

(** ** Imgur: the clause for client errors *)


Lemma status_is_false sc n : sc <> Some n -> Imgur.status_is sc n = false.
Proof.
  destruct sc as [z |]; [| reflexivity]. cbn. intros H.
  apply Z.eqb_neq. congruence.
Qed.

(** C2, as the code has it.  The clause for client errors tests the status
    against 403, 429, 500 and 404 and has no final [else]: for a client
    error with any other status, or with none, it returns with the state
    untouched, so that [extract_content] records no outcome at all. *)
Theorem C2_unlisted_status_records_nothing :
  forall self sc st st1,
    Imgur.dispatch self st = (Raises (ImgurClientError sc), st1) ->
    ~ In sc [Some 403; Some 429; Some 500; Some 404] ->
    Imgur.extract_content self st = (Returns tt, st1).
Proof.
  intros self sc st st1 Hd Hsc.
  unfold Imgur.extract_content, try_except. rewrite Hd.
  cbn [Imgur.handlers]. unfold Imgur.on_ImgurClientError.
  rewrite !status_is_false by (intros ->; apply Hsc; cbn; tauto).
  reflexivity.
Qed.

Lemma C2_witness :
  Imgur.extract_content
    (SampleFailures.single_image_request SampleFailures.bad_request_client) empty_state
  = (Returns tt, mkState [] [] [] [] [ImgurGetImage "abc"]).
Proof.
  refine (C2_unlisted_status_records_nothing
            (SampleFailures.single_image_request SampleFailures.bad_request_client) (Some 400)
            empty_state (mkState [] [] [] [] [ImgurGetImage "abc"]) eq_refl _).
  cbn. intros [H | [H | [H | [H | []]]]]; discriminate H.
Defined.

(** ** RedditUploads *)

(** C10.  [RedditUploadsExtractor.extract_content] appends one item whose
    file name is the post title, and returns; the naming policy of the
    request does not enter the result. *)
Theorem C10_reddit_uploads_names_by_post_title :
  (forall self st,
      RedditUploads.extract_content self st
      = (Returns tt,
         mkState (extracted_content st ++
                    [EContent (Content_new (PStr (url self ++ ".jpg")) (user self)
                                           (post_title self) (subreddit self)
                                           (post_title self) (PStr "") ".jpg"
                                           (save_path self) (subreddit_save_method self)
                                           (creation_date self)
                                           (content_display_only self))])
                 (failed_extract_messages st) (failed_extracts_to_save st)
                 (logged st) (host_calls st))) /\
  (forall w u usr title sub date method naming naming' path display st,
      RedditUploads.extract_content
        (Extractor_new w u usr title sub date method naming path display) st
      = RedditUploads.extract_content
          (Extractor_new w u usr title sub date method naming' path display) st).
Proof.
  split; reflexivity.
Qed.

(** ** Gfycat: direct links *)

(** A link that ends in [gif] but has no dot in its last segment: the
    direct path is chosen, the split of the extension raises, and a message
    is appended in place of a content item. *)
Lemma C8_undotted_suffix_emits_no_item :
  PyStr.endswith "gif" (PyStr.lower (url SampleLinks.gfycat_undotted)) = true /\
  Gfycat.dispatch SampleLinks.gfycat_undotted empty_state = (Raises ValueError, empty_state) /\
  extracted_content (snd (Gfycat.extract_content SampleLinks.gfycat_undotted empty_state))
  = [EMessage (Base.failed_to_locate_message SampleLinks.gfycat_undotted)].
Proof. repeat split. Qed.

(** C8, as the code has it.  For a URL that ends, whatever the case, in
    [webm], [gif] or [gifv], that has a ['/'] and whose segment after the
    last ['/'] has a ['.'], [extract_content] appends exactly one item; its
    URL is the URL of the request, its extension is the dot followed by the
    text after the last dot of that segment, as it is written, and no host
    call is issued. *)
Theorem C8_gfycat_direct_link :
  forall self domain gfy_id ext st,
    PyStr.endswith_any Gfycat.direct_suffixes (PyStr.lower (url self)) = true ->
    PyStr.rsplit1 "/" (url self) = Some (domain, gfy_id ++ "." ++ ext) ->
    PyStr.contains "." ext = false ->
    Gfycat.extract_content self st
    = (Returns tt,
       mkState (extracted_content st ++
                  [EContent (Content_new (PStr (url self)) (user self) (post_title self)
                                         (subreddit self)
                                         (Base.choose_file_name self gfy_id) (PStr "")
                                         ("." ++ ext) (save_path self)
                                         (subreddit_save_method self)
                                         (creation_date self)
                                         (content_display_only self))])
               (failed_extract_messages st) (failed_extracts_to_save st)
               (logged st) (host_calls st)).
Proof.
  intros self domain gfy_id ext st Hend Hsplit Hext.
  pose proof (rsplit1_app_sep "." gfy_id ext Hext) as Htail.
  unfold Gfycat.extract_content, Gfycat.dispatch, try_except. rewrite Hend.
  unfold Gfycat.extract_direct_link, rsplit_unpack, bind. rewrite Hsplit.
  cbn [ret append]. rewrite Htail. reflexivity.
Qed.

Lemma C8_witness :
  Gfycat.extract_content SampleLinks.gfycat_gif empty_state
  = (Returns tt,
     mkState [EContent (Content_new (PStr "https://gfycat.com/abc123.gif") "bob"
                                    "A title" "pics" "A title" (PStr "") ".gif"
                                    "/downloads/" "User Name" 1500000000 false)]
             [] [] [] []).
Proof.
  apply (C8_gfycat_direct_link SampleLinks.gfycat_gif "https://gfycat.com" "abc123" "gif");
    reflexivity.
Defined.

(** ** Imgur: the order of the classification *)

Lemma same_calls_refl st : same_calls st st.
Proof. reflexivity. Qed.

Lemma same_calls_trans a b c : same_calls a b -> same_calls b c -> same_calls a c.
Proof. unfold same_calls. congruence. Qed.

#[local] Hint Resolve same_calls_refl same_calls_trans : preorder.

Lemma same_calls_append_extracted_content x :
  preserves same_calls (append_extracted_content x).
Proof. intros st. reflexivity. Qed.

Lemma same_calls_append_failed_extract_messages s :
  preserves same_calls (append_failed_extract_messages s).
Proof. intros st. reflexivity. Qed.

Lemma same_calls_append_failed_extracts_to_save p :
  preserves same_calls (append_failed_extracts_to_save p).
Proof. intros st. reflexivity. Qed.

Lemma same_calls_log_with_data self lvl msg code :
  preserves same_calls (Base.log_with_data self lvl msg code).
Proof. intros st. reflexivity. Qed.

Ltac same_calls_tac :=
  repeat first
    [ apply same_calls_append_extracted_content
    | apply same_calls_append_failed_extract_messages
    | apply same_calls_append_failed_extracts_to_save
    | apply same_calls_log_with_data
    | preserves_step ].

(** The outer handlers of [ImgurExtractor.extract_content] issue no call. *)
Lemma same_calls_imgur_handlers self e h :
  Imgur.handlers self e = Some h -> preserves same_calls h.
Proof.
  intros H.
  destruct e; cbn in H; injection H as <-;
    unfold Imgur.on_ImgurClientError, Imgur.failed_to_locate_error,
      Imgur.rate_limit_exceeded_error, Imgur.no_credit_error,
      Imgur.over_capacity_error, Imgur.does_not_exist_error, Imgur.get_client;
    same_calls_tac.
Qed.

(** With a client, [extract_album] on a link with a ['/'] issues exactly
    one call: the listing of the album named by the last segment. *)
Lemma extract_album_calls self c domain album_id st :
  client self = Some c ->
  PyStr.rsplit1 "/" (url (imgur_base self)) = Some (domain, album_id) ->
  host_calls (snd (Imgur.extract_album self st))
  = (host_calls st ++ [ImgurGetAlbumImages album_id])%list.
Proof.
  intros Hc Hsplit.
  unfold Imgur.extract_album, rsplit_unpack. rewrite Hsplit.
  unfold bind at 1. cbn [ret].
  unfold Imgur.client_get_album_images, Imgur.get_client. rewrite Hc.
  unfold bind at 1 2 3 4. cbn [ret record_call lift].
  destruct (get_album_images c album_id) as [pics | e]; [| reflexivity].
  match goal with
  | |- context [for_each pics 1 ?body ?st0] =>
      assert (Hloop : preserves same_calls (for_each pics 1 body)) by
        (unfold Imgur.album_step, Imgur.image_mp4; same_calls_tac);
      specialize (Hloop st0); unfold same_calls in Hloop;
      destruct (for_each pics 1 body st0) as [[n | e] st']; exact Hloop
  end.
Qed.

(** With the direct host in an album link that ends in [.png], the direct
    path is taken: one item is emitted for the link itself and the album
    is never listed, while [extract_album] would list it. *)
Lemma C5_direct_host_wins_over_album :
  PyStr.contains "/a/" (url (imgur_base SampleLinks.direct_host_album)) = true /\
  PyStr.endswith ".png" (url (imgur_base SampleLinks.direct_host_album)) = true /\
  Imgur.dispatch SampleLinks.direct_host_album empty_state
  = Imgur.extract_direct_link SampleLinks.direct_host_album empty_state /\
  Imgur.dispatch SampleLinks.direct_host_album empty_state
  <> Imgur.extract_album SampleLinks.direct_host_album empty_state /\
  host_calls (snd (Imgur.extract_content SampleLinks.direct_host_album empty_state)) = [] /\
  host_calls (snd (Imgur.extract_album SampleLinks.direct_host_album empty_state))
  = [ImgurGetAlbumImages "abc.png"].
Proof. repeat split. discriminate. Qed.

(** C5, as the code has it.  The branches of [extract_content] are tried
    in the order: direct host (['i.imgur'] occurs), album (['/a/'] occurs),
    gallery (['/gallery/'] occurs), media suffix, single image; the first
    that matches is taken.  In particular a URL without ['i.imgur'] that
    has ['/a/'] and ends in [.png] is handled by [extract_album], whose
    only host call is the listing of the album. *)
Theorem C5_imgur_classification_order :
  forall self,
    let u := url (imgur_base self) in
    (PyStr.contains "i.imgur" u = true ->
     Imgur.dispatch self = Imgur.extract_direct_link self) /\
    (PyStr.contains "i.imgur" u = false ->
     PyStr.contains "/a/" u = true ->
     Imgur.dispatch self = Imgur.extract_album self) /\
    (PyStr.contains "i.imgur" u = false ->
     PyStr.contains "/a/" u = false ->
     PyStr.contains "/gallery/" u = true ->
     Imgur.dispatch self = try_except (Imgur.extract_album self) (fun _ => Some (ret tt))) /\
    (PyStr.contains "i.imgur" u = false ->
     PyStr.contains "/a/" u = false ->
     PyStr.contains "/gallery/" u = false ->
     PyStr.endswith_any Imgur.mislinked_suffixes (PyStr.lower u) = true ->
     Imgur.dispatch self = Imgur.extract_direct_mislinked self) /\
    (PyStr.contains "i.imgur" u = false ->
     PyStr.contains "/a/" u = false ->
     PyStr.contains "/gallery/" u = false ->
     PyStr.endswith_any Imgur.mislinked_suffixes (PyStr.lower u) = false ->
     Imgur.dispatch self = Imgur.extract_single self) /\
    (PyStr.contains "i.imgur" u = false ->
     PyStr.contains "/a/" u = true ->
     PyStr.endswith ".png" u = true ->
     forall c domain album_id st,
       client self = Some c ->
       PyStr.rsplit1 "/" u = Some (domain, album_id) ->
       Imgur.dispatch self st = Imgur.extract_album self st /\
       host_calls (snd (Imgur.extract_content self st))
       = (host_calls st ++ [ImgurGetAlbumImages album_id])%list).
Proof.
  intros self u. unfold Imgur.dispatch. fold u.
  repeat apply conj.
  - now intros ->.
  - now intros -> ->.
  - now intros -> -> ->.
  - now intros -> -> -> ->.
  - now intros -> -> -> ->.
  - intros H1 H2 _ c domain album_id st Hc Hsplit. rewrite H1, H2.
    split; [reflexivity |].
    pose proof (extract_album_calls self c domain album_id st Hc Hsplit) as Hcalls.
    unfold Imgur.extract_content, try_except, Imgur.dispatch. fold u.
    rewrite H1, H2.
    destruct (Imgur.extract_album self st) as [[[] | e] st'] eqn:Ha;
      cbn [snd] in Hcalls; [exact Hcalls |].
    destruct (Imgur.handlers self e) as [h |] eqn:Hh; [| exact Hcalls].
    rewrite (same_calls_imgur_handlers self e h Hh st'). exact Hcalls.
Qed.

Lemma C5_witness :
  Imgur.dispatch SampleLinks.album_png empty_state
  = Imgur.extract_album SampleLinks.album_png empty_state /\
  host_calls (snd (Imgur.extract_content SampleLinks.album_png empty_state))
  = [ImgurGetAlbumImages "abc.png"].
Proof.
  destruct (C5_imgur_classification_order SampleLinks.album_png)
    as (_ & _ & _ & _ & _ & Halbum).
  exact (Halbum eq_refl eq_refl eq_refl SampleLinks.album_client "https://imgur.com/a"
                "abc.png" empty_state eq_refl eq_refl).
Defined.

(** ** Imgur without credentials *)

Lemma no_extraction_refl st : no_extraction st st.
Proof. now split. Qed.

Lemma no_extraction_trans a b c :
  no_extraction a b -> no_extraction b c -> no_extraction a c.
Proof. intros [H1 H2] [H3 H4]. split; congruence. Qed.

#[local] Hint Resolve no_extraction_refl no_extraction_trans : preorder.

Lemma no_extraction_at_most_one a b : no_extraction a b -> at_most_one_entry a b.
Proof.
  intros [H1 H2]. split; [| exact H2].
  exists []. rewrite app_nil_r. split; [exact H1 | cbn; lia].
Qed.

Lemma no_extraction_then_at_most_one a b c :
  no_extraction a b -> at_most_one_entry b c -> at_most_one_entry a c.
Proof.
  intros [H1 H2] [(l & H3 & Hl) H4]. split; [| congruence].
  exists l. split; [congruence | exact Hl].
Qed.

Lemma at_most_one_then_no_extraction a b c :
  at_most_one_entry a b -> no_extraction b c -> at_most_one_entry a c.
Proof.
  intros [(l & H3 & Hl) H4] [H1 H2]. split; [| congruence].
  exists l. split; [congruence | exact Hl].
Qed.

Lemma at_most_one_bind {A B} (m : M A) (k : A -> M B) :
  preserves no_extraction m ->
  (forall a, preserves at_most_one_entry (k a)) ->
  preserves at_most_one_entry (bind m k).
Proof.
  intros Hm Hk st. unfold bind. specialize (Hm st).
  destruct (m st) as [[a | e] st']; cbn in *.
  - eapply no_extraction_then_at_most_one; [exact Hm | apply Hk].
  - now apply no_extraction_at_most_one.
Qed.

Lemma at_most_one_try_except {A} (body : M A) (handler : exn -> option (M A)) :
  preserves at_most_one_entry body ->
  (forall e h, handler e = Some h -> preserves no_extraction h) ->
  preserves at_most_one_entry (try_except body handler).
Proof.
  intros Hb Hh st. unfold try_except. specialize (Hb st).
  destruct (body st) as [[a | e] st']; cbn in *; [exact Hb |].
  destruct (handler e) as [h |] eqn:E; cbn; [| exact Hb].
  eapply at_most_one_then_no_extraction; [exact Hb | eapply Hh; eassumption].
Qed.

Lemma at_most_one_append_extracted_content x :
  preserves at_most_one_entry (append_extracted_content x).
Proof. intros st. split; [| reflexivity]. exists [x]. split; [reflexivity | cbn; lia]. Qed.

Lemma no_extraction_append_failed_extract_messages s :
  preserves no_extraction (append_failed_extract_messages s).
Proof. intros st. now split. Qed.

Lemma no_extraction_append_failed_extracts_to_save p :
  preserves no_extraction (append_failed_extracts_to_save p).
Proof. intros st. now split. Qed.

Lemma no_extraction_log_with_data self lvl msg code :
  preserves no_extraction (Base.log_with_data self lvl msg code).
Proof. intros st. now split. Qed.

Ltac no_extraction_tac :=
  repeat first
    [ apply no_extraction_append_failed_extract_messages
    | apply no_extraction_append_failed_extracts_to_save
    | apply no_extraction_log_with_data
    | preserves_step ].

Lemma no_extraction_except_NameError self event e h :
  Imgur.except_NameError self event e = Some h -> preserves no_extraction h.
Proof.
  intros H. destruct e; cbn in H; try discriminate; injection H as <-;
    no_extraction_tac.
Qed.

Section WithoutClient.

Variable self : ImgurExtractor.
Hypothesis no_client : client self = None.

Lemma no_extraction_get_client : preserves no_extraction (Imgur.get_client self).
Proof.
  unfold Imgur.get_client. rewrite no_client. no_extraction_tac.
Qed.

Lemma no_extraction_client_get_image image_id :
  preserves no_extraction (Imgur.client_get_image self image_id).
Proof.
  intros st. rewrite (no_client_get_image self no_client). apply no_extraction_refl.
Qed.

Lemma no_extraction_client_get_album_images album_id :
  preserves no_extraction (Imgur.client_get_album_images self album_id).
Proof.
  intros st. rewrite (no_client_get_album_images self no_client).
  apply no_extraction_refl.
Qed.

Lemma no_extraction_resolve_gif u image_id extension :
  preserves no_extraction (Imgur.resolve_gif self u image_id extension).
Proof.
  unfold Imgur.resolve_gif. destruct (_ || _); [| no_extraction_tac].
  apply preserves_bind; [exact no_extraction_trans | |].
  - apply no_extraction_client_get_image.
  - intros pic. unfold Imgur.image_mp4. no_extraction_tac.
Qed.

(** The clause for client errors reads [self.client] for status 403
    only; either way nothing is extracted. *)
Lemma no_extraction_handlers e h :
  Imgur.handlers self e = Some h -> preserves no_extraction h.
Proof.
  intros H.
  destruct e; cbn in H; injection H as <-;
    unfold Imgur.on_ImgurClientError, Imgur.failed_to_locate_error,
      Imgur.rate_limit_exceeded_error, Imgur.no_credit_error,
      Imgur.over_capacity_error, Imgur.does_not_exist_error, Imgur.get_client;
    no_extraction_tac.
Qed.

Lemma no_extraction_extract_album : preserves no_extraction (Imgur.extract_album self).
Proof.
  unfold Imgur.extract_album.
  apply preserves_bind; [exact no_extraction_trans | no_extraction_tac |].
  intros [domain album_id]. intros st.
  unfold bind. rewrite (no_client_get_album_images self no_client).
  apply no_extraction_refl.
Qed.

Lemma no_extraction_extract_single : preserves no_extraction (Imgur.extract_single self).
Proof.
  unfold Imgur.extract_single.
  apply preserves_bind; [exact no_extraction_trans | no_extraction_tac |].
  intros [domain image_id]. intros st.
  unfold bind. rewrite (no_client_get_image self no_client).
  apply no_extraction_refl.
Qed.

Lemma at_most_one_extract_direct_link :
  preserves at_most_one_entry (Imgur.extract_direct_link self).
Proof.
  unfold Imgur.extract_direct_link.
  apply at_most_one_try_except; [| apply no_extraction_except_NameError].
  apply at_most_one_bind; [unfold Imgur.local_url; no_extraction_tac | intros u].
  apply at_most_one_bind; [no_extraction_tac | intros [domain id_with_ext]].
  apply at_most_one_bind; [no_extraction_tac | intros [image_id extension]].
  apply at_most_one_bind; [apply no_extraction_resolve_gif | intros [u' extension']].
  apply at_most_one_append_extracted_content.
Qed.

Lemma at_most_one_extract_direct_mislinked :
  preserves at_most_one_entry (Imgur.extract_direct_mislinked self).
Proof.
  unfold Imgur.extract_direct_mislinked.
  apply at_most_one_try_except; [| apply no_extraction_except_NameError].
  apply at_most_one_bind; [unfold Imgur.local_url; no_extraction_tac | intros u].
  apply at_most_one_bind; [no_extraction_tac | intros [domain id_with_ext]].
  apply at_most_one_bind; [no_extraction_tac | intros [image_id extension]].
  apply at_most_one_bind; [apply no_extraction_resolve_gif | intros [u' extension']].
  apply at_most_one_append_extracted_content.
Qed.

Lemma at_most_one_extract_content :
  preserves at_most_one_entry (Imgur.extract_content self).
Proof.
  unfold Imgur.extract_content.
  apply at_most_one_try_except; [| apply no_extraction_handlers].
  unfold Imgur.dispatch.
  destruct (PyStr.contains "i.imgur" _); [apply at_most_one_extract_direct_link |].
  destruct (PyStr.contains "/a/" _).
  { intros st. apply no_extraction_at_most_one, no_extraction_extract_album. }
  destruct (PyStr.contains "/gallery/" _).
  { intros st. apply no_extraction_at_most_one. revert st.
    apply preserves_try_except; [exact no_extraction_trans | |].
    - apply no_extraction_extract_album.
    - intros e h [= <-]. no_extraction_tac. }
  destruct (PyStr.endswith_any _ _); [apply at_most_one_extract_direct_mislinked |].
  intros st. apply no_extraction_at_most_one, no_extraction_extract_single.
Qed.

(** Off the two direct paths nothing is extracted. *)
Lemma no_extraction_extract_content :
  PyStr.contains "i.imgur" (url (imgur_base self)) = false ->
  PyStr.contains "/a/" (url (imgur_base self)) = true \/
  PyStr.contains "/gallery/" (url (imgur_base self)) = true \/
  PyStr.endswith_any Imgur.mislinked_suffixes (PyStr.lower (url (imgur_base self)))
  = false ->
  preserves no_extraction (Imgur.extract_content self).
Proof.
  intros H1 H2. unfold Imgur.extract_content.
  apply preserves_try_except; [exact no_extraction_trans | | apply no_extraction_handlers].
  unfold Imgur.dispatch. rewrite H1.
  destruct (PyStr.contains "/a/" _); [apply no_extraction_extract_album |].
  destruct (PyStr.contains "/gallery/" _).
  { apply preserves_try_except; [exact no_extraction_trans | |].
    - apply no_extraction_extract_album.
    - intros e h [= <-]. no_extraction_tac. }
  destruct H2 as [H2 | [H2 | H2]]; try discriminate. rewrite H2.
  apply no_extraction_extract_single.
Qed.

End WithoutClient.

Lemma init_without_credentials base st :
  imgur_client_id (world base) = None \/ imgur_client_secret (world base) = None ->
  Imgur.init base st
  = (Returns (ImgurExtractor_new base None),
     mkState (extracted_content st)
             (failed_extract_messages st ++ [Imgur.no_client_message base])
             (failed_extracts_to_save st)
             (logged st ++ [no_client_warning])
             (host_calls st)).
Proof.
  intros H. unfold Imgur.init.
  destruct (imgur_client_id (world base)) as [i |],
           (imgur_client_secret (world base)) as [s |];
    try reflexivity.
  destruct H; discriminate.
Qed.

(** Without credentials a direct link to a still image is extracted all
    the same: construction records its warning and its message, and
    [extract_content] then appends a content item for the link. *)
Lemma C3_direct_link_extracted_without_client :
  imgur_client_id (world SampleDirect.direct_jpg) = None /\
  Imgur.init SampleDirect.direct_jpg empty_state
  = (Returns (ImgurExtractor_new SampleDirect.direct_jpg None),
     mkState [] [Imgur.no_client_message SampleDirect.direct_jpg] [] [no_client_warning] []) /\
  extracted_content
    (snd (Imgur.extract_content (ImgurExtractor_new SampleDirect.direct_jpg None) empty_state))
  = [EContent (Content_new (PStr "https://i.imgur.com/abc.jpg") "bob" "A title" "pics"
                           "A title" (PStr "") ".jpg" "/downloads/" "User Name"
                           1500000000 false)].
Proof. repeat split. Qed.

(** C3, as the code has it.  When either credential is missing,
    [__init__] logs one warning, appends one failure message and sets no
    client.  A later [extract_content] returns without issuing any host
    call, for every URL, and appends at most one entry to
    [extracted_content]; it appends none unless the link takes one of the
    two direct paths (it has ['i.imgur'], or it has neither ['/a/'] nor
    ['/gallery/'] and ends in a media suffix). *)
Theorem C3_imgur_without_credentials :
  forall base st,
    imgur_client_id (world base) = None \/ imgur_client_secret (world base) = None ->
    exists self,
      Imgur.init base st
      = (Returns self,
         mkState (extracted_content st)
                 (failed_extract_messages st ++ [Imgur.no_client_message base])
                 (failed_extracts_to_save st)
                 (logged st ++ [no_client_warning])
                 (host_calls st)) /\
      imgur_base self = base /\
      client self = None /\
      forall st2,
        fst (Imgur.extract_content self st2) = Returns tt /\
        at_most_one_entry st2 (snd (Imgur.extract_content self st2)) /\
        (PyStr.contains "i.imgur" (url base) = false ->
         PyStr.contains "/a/" (url base) = true \/
         PyStr.contains "/gallery/" (url base) = true \/
         PyStr.endswith_any Imgur.mislinked_suffixes (PyStr.lower (url base)) = false ->
         no_extraction st2 (snd (Imgur.extract_content self st2))).
Proof.
  intros base st H. exists (ImgurExtractor_new base None).
  split; [now apply init_without_credentials |].
  split; [reflexivity |]. split; [reflexivity |].
  intros st2. split; [| split].
  - apply never_raises_unit, never_raises_imgur_extract_content.
    intros c Hc. discriminate Hc.
  - now apply at_most_one_extract_content.
  - intros H1 H2. now apply no_extraction_extract_content.
Qed.

Lemma C3_witness :
  exists self,
    Imgur.init (imgur_base Sample.gallery_request) empty_state
    = (Returns self,
       mkState [] [Imgur.no_client_message (imgur_base Sample.gallery_request)] []
               [no_client_warning] []) /\
    imgur_base self = imgur_base Sample.gallery_request /\
    client self = None /\
    forall st2,
      fst (Imgur.extract_content self st2) = Returns tt /\
      at_most_one_entry st2 (snd (Imgur.extract_content self st2)) /\
      no_extraction st2 (snd (Imgur.extract_content self st2)).
Proof.
  destruct (C3_imgur_without_credentials (imgur_base Sample.gallery_request) empty_state)
    as (self & Hinit & Hbase & Hclient & Hextract).
  - left. reflexivity.
  - exists self. repeat (split; [assumption |]).
    intros st2. destruct (Hextract st2) as (Hr & Hone & Hnone).
    repeat (split; [assumption |]).
    apply Hnone; [reflexivity | right; left; reflexivity].
Defined.

(** ** Naming by post title *)

Section NamedIn.

Variable names : list string.

Lemma named_in_refl st : named_in names st st.
Proof. exists []. now rewrite app_nil_r. Qed.

Lemma named_in_trans a b c :
  named_in names a b -> named_in names b c -> named_in names a c.
Proof.
  intros (l1 & H1 & F1) (l2 & H2 & F2). exists (l1 ++ l2)%list. split.
  - now rewrite H2, H1, app_assoc.
  - apply Forall_app. now split.
Qed.

Lemma named_in_append_extracted_content x :
  entry_named_in names x -> preserves (named_in names) (append_extracted_content x).
Proof. intros Hx st. exists [x]. split; [reflexivity | now constructor]. Qed.

Lemma named_in_append_failed_extract_messages s :
  preserves (named_in names) (append_failed_extract_messages s).
Proof. intros st. exists []. now rewrite app_nil_r. Qed.

Lemma named_in_append_failed_extracts_to_save p :
  preserves (named_in names) (append_failed_extracts_to_save p).
Proof. intros st. exists []. now rewrite app_nil_r. Qed.

Lemma named_in_log_with_data self lvl msg code :
  preserves (named_in names) (Base.log_with_data self lvl msg code).
Proof. intros st. exists []. now rewrite app_nil_r. Qed.

Lemma named_in_record_call c : preserves (named_in names) (record_call c).
Proof. intros st. exists []. now rewrite app_nil_r. Qed.

End NamedIn.

#[local] Hint Resolve named_in_refl named_in_trans : preorder.

Lemma choose_file_name_post_title self other :
  name_downloads_by self = "Post Title" ->
  Base.choose_file_name self other = post_title self.
Proof. unfold Base.choose_file_name. now intros ->. Qed.

Ltac named_in_tac Hpolicy :=
  repeat first
    [ apply named_in_append_failed_extract_messages
    | apply named_in_append_failed_extracts_to_save
    | apply named_in_log_with_data
    | apply named_in_record_call
    | apply named_in_append_extracted_content;
      cbn; rewrite ?(choose_file_name_post_title _ _ Hpolicy); cbn; tauto
    | preserves_step ].

Section ByPostTitle.

Variable self : Extractor.
Hypothesis by_post_title : name_downloads_by self = "Post Title".

Lemma named_gfycat_extract_content :
  preserves (named_in [post_title self]) (Gfycat.extract_content self).
Proof.
  unfold Gfycat.extract_content, Gfycat.dispatch, Gfycat.on_exception,
    Gfycat.extract_direct_link, Gfycat.extract_single, Base.get_json, Base.http_get,
    Base.response_ok.
  named_in_tac by_post_title.
Qed.

Lemma named_vidble_extract_content :
  preserves (named_in [post_title self]) (Vidble.extract_content self).
Proof.
  unfold Vidble.extract_content, Vidble.dispatch, Vidble.on_exception,
    Vidble.extract_direct_link, Vidble.extract_single, Vidble.extract_album,
    Vidble.album_step, Vidble.is_img2, Base.get_text, Base.soup_find_all_img, Base.http_get,
    Base.response_ok.
  named_in_tac by_post_title.
Qed.

Lemma named_reddit_extract_content :
  preserves (named_in [post_title self]) (RedditUploads.extract_content self).
Proof.
  unfold RedditUploads.extract_content, RedditUploads.dispatch,
    RedditUploads.on_exception.
  named_in_tac by_post_title.
Qed.

Lemma named_direct_extract_content :
  preserves (named_in [post_title self]) (Direct.extract_content self).
Proof.
  unfold Direct.extract_content. named_in_tac by_post_title.
Qed.

Variable imgur_client : option ImgurClient.

Lemma named_imgur_handlers names e h :
  Imgur.handlers (ImgurExtractor_new self imgur_client) e = Some h ->
  preserves (named_in names) h.
Proof.
  intros H.
  destruct e; cbn in H; injection H as <-;
    unfold Imgur.on_ImgurClientError, Imgur.failed_to_locate_error,
      Imgur.rate_limit_exceeded_error, Imgur.no_credit_error,
      Imgur.over_capacity_error, Imgur.does_not_exist_error, Imgur.get_client;
    named_in_tac by_post_title.
Qed.

Lemma named_imgur_extract_album :
  preserves (named_in [post_title self ++ " "])
            (Imgur.extract_album (ImgurExtractor_new self imgur_client)).
Proof.
  unfold Imgur.extract_album, Imgur.album_step, Imgur.client_get_album_images,
    Imgur.get_client, Imgur.image_mp4.
  named_in_tac by_post_title.
Qed.

Lemma named_imgur_extract_single :
  preserves (named_in [post_title self])
            (Imgur.extract_single (ImgurExtractor_new self imgur_client)).
Proof.
  unfold Imgur.extract_single, Imgur.client_get_image, Imgur.get_client,
    Imgur.image_mp4.
  named_in_tac by_post_title.
Qed.

Lemma named_imgur_extract_direct_link :
  preserves (named_in [post_title self])
            (Imgur.extract_direct_link (ImgurExtractor_new self imgur_client)).
Proof.
  unfold Imgur.extract_direct_link, Imgur.except_NameError, Imgur.resolve_gif,
    Imgur.local_url, Imgur.client_get_image, Imgur.get_client, Imgur.image_mp4.
  named_in_tac by_post_title.
Qed.

Lemma named_imgur_extract_direct_mislinked :
  preserves (named_in [post_title self])
            (Imgur.extract_direct_mislinked (ImgurExtractor_new self imgur_client)).
Proof.
  unfold Imgur.extract_direct_mislinked, Imgur.except_NameError, Imgur.resolve_gif,
    Imgur.local_url, Imgur.client_get_image, Imgur.get_client, Imgur.image_mp4.
  named_in_tac by_post_title.
Qed.

End ByPostTitle.

(** An album named by post title: the name each item carries is the
    title followed by a space. *)
Lemma C7_album_items_carry_a_trailing_space :
  name_downloads_by (imgur_base SampleAlbum.album) = "Post Title" /\
  post_title (imgur_base SampleAlbum.album) = "A title" /\
  extracted_content (snd (Imgur.extract_content SampleAlbum.album empty_state))
  = [EContent (Content_new (PStr "https://i.imgur.com/one.png") "bob" "A title" "pics"
                           "A title " (PInt 1) ".png" "/downloads/" "User Name"
                           1500000000 false);
     EContent (Content_new (PStr "https://i.imgur.com/two.png") "bob" "A title" "pics"
                           "A title " (PInt 2) ".png" "/downloads/" "User Name"
                           1500000000 false)] /\
  ~ named_in ["A title"] empty_state
      (snd (Imgur.extract_content SampleAlbum.album empty_state)).
Proof.
  repeat split.
  intros (l & Hl & Hnamed). cbn in Hl. subst l.
  inversion Hnamed as [| x l Hx _]. cbn in Hx. destruct Hx as [Hx | []].
  discriminate Hx.
Qed.

(** C7, as the code has it.  When downloads are named by post title,
    every content item appended by [extract_content] carries the post
    title as its file name, for the Gfycat, Vidble, RedditUploads and
    Direct extractors and for the direct, mislinked and single-image paths
    of the Imgur extractor; on the album and gallery paths of the Imgur
    extractor the name carried is the post title followed by one space. *)
Theorem C7_named_by_post_title :
  forall self,
    name_downloads_by self = "Post Title" ->
    (forall st, named_in [post_title self] st (snd (Gfycat.extract_content self st))) /\
    (forall st, named_in [post_title self] st (snd (Vidble.extract_content self st))) /\
    (forall st,
        named_in [post_title self] st (snd (RedditUploads.extract_content self st))) /\
    (forall st, named_in [post_title self] st (snd (Direct.extract_content self st))) /\
    (forall c st,
        PyStr.contains "i.imgur" (url self) = true \/
        PyStr.contains "/a/" (url self) = false /\
        PyStr.contains "/gallery/" (url self) = false ->
        named_in [post_title self] st
                 (snd (Imgur.extract_content (ImgurExtractor_new self c) st))) /\
    (forall c st,
        PyStr.contains "i.imgur" (url self) = false ->
        PyStr.contains "/a/" (url self) = true \/
        PyStr.contains "/gallery/" (url self) = true ->
        named_in [post_title self ++ " "] st
                 (snd (Imgur.extract_content (ImgurExtractor_new self c) st))).
Proof.
  intros self Hpolicy. repeat apply conj.
  - now apply named_gfycat_extract_content.
  - now apply named_vidble_extract_content.
  - now apply named_reddit_extract_content.
  - now apply named_direct_extract_content.
  - intros c st Hpath. revert st. unfold Imgur.extract_content.
    apply preserves_try_except; [preorder | | now apply named_imgur_handlers].
    unfold Imgur.dispatch. cbn [imgur_base].
    destruct (PyStr.contains "i.imgur" (url self)).
    { now apply named_imgur_extract_direct_link. }
    destruct Hpath as [Hpath | [-> ->]]; [discriminate |].
    destruct (PyStr.endswith_any _ _).
    + now apply named_imgur_extract_direct_mislinked.
    + now apply named_imgur_extract_single.
  - intros c st Hhost Hpath. revert st. unfold Imgur.extract_content.
    apply preserves_try_except; [preorder | | now apply named_imgur_handlers].
    unfold Imgur.dispatch. cbn [imgur_base]. rewrite Hhost.
    destruct (PyStr.contains "/a/" (url self)).
    { now apply named_imgur_extract_album. }
    destruct Hpath as [Hpath | ->]; [discriminate |].
    apply preserves_try_except; [preorder | now apply named_imgur_extract_album |].
    intros e h [= <-]. apply preserves_ret. preorder.
Qed.

Lemma C7_witness :
  named_in ["A title"] empty_state
           (snd (Gfycat.extract_content SampleLinks.gfycat_gif empty_state)) /\
  named_in ["A title "] empty_state
           (snd (Imgur.extract_content SampleAlbum.album empty_state)).
Proof.
  split.
  - apply (C7_named_by_post_title SampleLinks.gfycat_gif eq_refl).
  - destruct (C7_named_by_post_title (imgur_base SampleAlbum.album) eq_refl)
      as (_ & _ & _ & _ & _ & Halbum).
    apply (Halbum (Some SampleLinks.album_client) empty_state eq_refl).
    left. reflexivity.
Defined.

(** ** Albums: one numbered item per image *)

Lemma of_int_inj z z' : PyStr.of_int z = PyStr.of_int z' -> z = z'.
Proof.
  unfold PyStr.of_int. intros H.
  assert (Hz : forall n, NilZero.int_of_string (NilZero.string_of_int (Z.to_int n))
                         = Some (Z.to_int n)).
  { intros n. apply NilZero.isi; destruct n; cbn; try discriminate;
      intros [= E]; now apply (DecimalPos.Unsigned.to_uint_nonnil p). }
  apply DecimalZ.to_int_inj.
  pose proof (Hz z) as H1. rewrite H, Hz in H1. now injection H1.
Qed.

Lemma append_inj_l (s a b : string) : (s ++ a = s ++ b)%string -> a = b.
Proof. induction s as [| c s IH]; cbn; [trivial |]. intros [= H]. now apply IH. Qed.

Lemma NoDup_map_inj {A B} (f : A -> B) (l : list A) :
  (forall x y, f x = f y -> x = y) -> NoDup l -> NoDup (map f l).
Proof.
  intros Hf. induction 1 as [| x l Hx _ IH]; cbn; constructor; [| exact IH].
  intros Hin. apply in_map_iff in Hin as (y & Hy & Hin).
  apply Hf in Hy. now subst y.
Qed.

Lemma count_from_lower k n x : In x (count_from k n) -> k <= x.
Proof.
  revert k. induction n as [| n IH]; intros k; cbn; [contradiction |].
  intros [<- | H]; [lia |]. apply IH in H. lia.
Qed.

Lemma NoDup_count_from k n : NoDup (count_from k n).
Proof.
  revert k. induction n as [| n IH]; intros k; cbn; constructor; [| apply IH].
  intros H. apply count_from_lower in H. lia.
Qed.

Lemma length_count_from k n : List.length (count_from k n) = n.
Proof. revert k. induction n as [| n IH]; intros k; cbn; [| rewrite IH]; reflexivity. Qed.

(** Items with one file name and pairwise distinct integer ordinals have
    pairwise distinct computed file names. *)
Lemma NoDup_computed_file_name name ks items :
  Forall (fun c => c_file_name c = name) items ->
  map c_number_in_seq items = map PInt ks ->
  NoDup ks ->
  NoDup (map computed_file_name items).
Proof.
  intros Hname Hseq Hks.
  assert (E : map computed_file_name items
              = map (fun k => (name ++ PyStr.of_int k)%string) ks).
  { clear Hks. revert ks Hseq.
    induction Hname as [| c items Hc _ IH]; intros [| k ks]; cbn; try discriminate.
    - reflexivity.
    - intros [= Hk Hrest]. unfold computed_file_name at 1.
      rewrite Hc, Hk. cbn [py_str]. f_equal. now apply IH. }
  rewrite E. apply NoDup_map_inj; [| exact Hks].
  intros x y H. apply append_inj_l in H. now apply of_int_inj.
Qed.

Lemma after_items_nil st : after_items st [] [] = st.
Proof. destruct st. unfold after_items. cbn. now rewrite !app_nil_r. Qed.

Lemma after_items_cons st c items :
  after_items (after_items st [c] []) items [] = after_items st (c :: items) [].
Proof.
  unfold after_items. cbn. now rewrite !app_nil_r, <- app_assoc.
Qed.

Lemma rsplit1_of_contains sep s :
  PyStr.contains (String sep EmptyString) s = true ->
  exists a b, PyStr.rsplit1 sep s = Some (a, b).
Proof.
  intros H. destruct (PyStr.rsplit1 sep s) as [[a b] |] eqn:E; [now exists a, b |].
  apply rsplit1_None in E. congruence.
Qed.

(** One round of the Imgur loop on a well-formed image. *)
Lemma imgur_album_step base album_id count pic st :
  image_well_formed pic ->
  exists c,
    Imgur.album_step base album_id count pic st
    = (Returns (count + 1), after_items st [c] []) /\
    c_url c = PStr (image_download_url pic) /\
    c_number_in_seq c = PInt count /\
    c_file_name c = (Base.choose_file_name base album_id ++ " ")%string.
Proof.
  intros [Hdot Hmp4]. apply rsplit1_of_contains in Hdot as (a & x & Hsplit).
  unfold Imgur.album_step, rsplit_unpack, image_download_url, Imgur.image_mp4.
  rewrite Hsplit. unfold bind at 1. cbn [ret].
  destruct (Imgur.is_animated_gif pic).
  - destruct (Hmp4 eq_refl) as [m ->]. eexists.
    split; [unfold after_items; cbn; now rewrite app_nil_r |].
    repeat split; reflexivity.
  - eexists. split; [unfold after_items; cbn; now rewrite app_nil_r |].
    repeat split; try reflexivity.
    cbn. now destruct (mp4 pic).
Qed.

Lemma imgur_album_loop base album_id pics :
  Forall image_well_formed pics ->
  forall count st,
  exists items,
    for_each pics count (Imgur.album_step base album_id) st
    = (Returns (count + Z.of_nat (List.length pics)), after_items st items []) /\
    List.length items = List.length pics /\
    map c_url items = map PStr (map image_download_url pics) /\
    map c_number_in_seq items = map PInt (count_from count (List.length pics)) /\
    Forall (fun c => c_file_name c = (Base.choose_file_name base album_id ++ " ")%string)
           items.
Proof.
  induction 1 as [| pic pics Hpic _ IH]; intros count st.
  - exists []. cbn. rewrite after_items_nil, Z.add_0_r. repeat split. constructor.
  - destruct (imgur_album_step base album_id count pic st Hpic)
      as (c & Hstep & Hurl & Hseq & Hname).
    destruct (IH (count + 1) (after_items st [c] []))
      as (items & Hloop & Hlen & Hurls & Hseqs & Hnames).
    exists (c :: items). cbn [for_each]. unfold bind. rewrite Hstep, Hloop.
    rewrite after_items_cons. cbn [List.length map count_from].
    rewrite Hlen, Hurl, Hurls, Hseq, Hseqs.
    repeat split; [| now constructor].
    do 2 f_equal. lia.
Qed.

(** One round of the Vidble loop. *)
Lemma vidble_album_step self vidble_id count img st :
  img_class img <> Some [] ->
  Forall (fun l => PyStr.contains "." l = true) (discovered_links [img]) ->
  exists items,
    Vidble.album_step self vidble_id count img st
    = (Returns (count + Z.of_nat (List.length (discovered_links [img]))),
       after_items st items []) /\
    map c_url items
    = map PStr (map (append Vidble.vidble_base) (discovered_links [img])) /\
    map c_number_in_seq items
    = map PInt (count_from count (List.length (discovered_links [img]))) /\
    Forall (fun c => c_file_name c = Base.choose_file_name self vidble_id) items.
Proof.
  intros Hclass Hdots.
  unfold Vidble.album_step, Vidble.is_img2, discovered_links in *. cbn [flat_map] in *.
  destruct (img_class img) as [[| first rest] |]; [congruence | |].
  - unfold bind at 1. cbn [ret].
    destruct (String.eqb first "img2").
    + destruct (img_src img) as [l |].
      * cbn in Hdots. inversion Hdots as [| ? ? Hdot _]; subst.
        apply rsplit1_of_contains in Hdot as (a & x & Hsplit).
        unfold rsplit_unpack. rewrite Hsplit. eexists [_]. cbn.
        unfold after_items. cbn. rewrite app_nil_r. repeat split. now constructor.
      * exists []. cbn. rewrite after_items_nil, Z.add_0_r. repeat split. constructor.
    + destruct (img_src img); exists []; cbn;
        rewrite after_items_nil, Z.add_0_r; repeat split; constructor.
  - exists []. cbn. rewrite after_items_nil, Z.add_0_r. repeat split. constructor.
Qed.

Lemma count_from_app k n m :
  count_from k (n + m) = (count_from k n ++ count_from (k + Z.of_nat n) m)%list.
Proof.
  revert k. induction n as [| n IH]; intros k; cbn [count_from Nat.add app].
  - now rewrite Z.add_0_r.
  - rewrite IH. do 3 f_equal. lia.
Qed.

Lemma after_items_app st a b :
  after_items (after_items st a []) b [] = after_items st (a ++ b) [].
Proof.
  unfold after_items. cbn. now rewrite !app_nil_r, map_app, <- app_assoc.
Qed.

Lemma discovered_links_cons img imgs :
  discovered_links (img :: imgs)
  = (discovered_links [img] ++ discovered_links imgs)%list.
Proof. unfold discovered_links. cbn [flat_map]. now rewrite app_nil_r. Qed.

Lemma vidble_album_loop self vidble_id imgs :
  Forall (fun img => img_class img <> Some []) imgs ->
  Forall (fun l => PyStr.contains "." l = true) (discovered_links imgs) ->
  forall count st,
  exists items,
    for_each imgs count (Vidble.album_step self vidble_id) st
    = (Returns (count + Z.of_nat (List.length (discovered_links imgs))),
       after_items st items []) /\
    map c_url items
    = map PStr (map (append Vidble.vidble_base) (discovered_links imgs)) /\
    map c_number_in_seq items
    = map PInt (count_from count (List.length (discovered_links imgs))) /\
    Forall (fun c => c_file_name c = Base.choose_file_name self vidble_id) items.
Proof.
  induction 1 as [| img imgs Himg _ IH]; intros Hdots count st.
  - exists []. cbn. rewrite after_items_nil, Z.add_0_r. repeat split. constructor.
  - rewrite discovered_links_cons in *. apply Forall_app in Hdots as [Hd1 Hd2].
    destruct (vidble_album_step self vidble_id count img st Himg Hd1)
      as (items1 & Hstep & Hurl1 & Hseq1 & Hname1).
    destruct (IH Hd2 (count + Z.of_nat (List.length (discovered_links [img])))
                 (after_items st items1 []))
      as (items2 & Hloop & Hurl2 & Hseq2 & Hname2).
    exists (items1 ++ items2)%list. cbn [for_each]. unfold bind.
    rewrite Hstep, Hloop, after_items_app.
    rewrite length_app, count_from_app, !map_app, Hurl1, Hurl2, Hseq1, Hseq2.
    repeat split.
    + do 2 f_equal. lia.
    + apply Forall_app. now split.
Qed.

Lemma album_of_intro name urls items :
  map c_url items = map PStr urls ->
  map c_number_in_seq items = map PInt (count_from 1 (List.length urls)) ->
  Forall (fun c => c_file_name c = name) items ->
  album_of name urls items.
Proof.
  intros Hurl Hseq Hname. unfold album_of, ordinals. repeat split; try assumption.
  - apply (f_equal (@List.length _)) in Hurl. now rewrite !length_map in Hurl.
  - eapply NoDup_computed_file_name; [exact Hname | exact Hseq |].
    apply NoDup_count_from.
Qed.

(** A page whose second album image has an address without a dot: two
    images are found, one item is appended, and the split of the second
    address raises. *)
Lemma C6_undotted_address_cuts_the_album_short :
  discovered_links SamplePage.page_imgs = ["/one_med.jpg"; "/two"] /\
  Vidble.extract_album (SamplePage.vidble_album SamplePage.page_imgs) empty_state
  = (Raises ValueError,
     after_items empty_state
       [Content_new (PStr "https://vidble.com/one_med.jpg") "bob" "A title" "pics"
                    "A title" (PInt 1) ".jpg" "/downloads/" "User Name" 1500000000
                    false]
       [HttpGet "https://vidble.com/album/xyz"]) /\
  extracted_content
    (snd (Vidble.extract_content (SamplePage.vidble_album SamplePage.page_imgs) empty_state))
  = [EContent (Content_new (PStr "https://vidble.com/one_med.jpg") "bob" "A title"
                           "pics" "A title" (PInt 1) ".jpg" "/downloads/" "User Name"
                           1500000000 false);
     EMessage (Base.failed_to_locate_message
                 (SamplePage.vidble_album SamplePage.page_imgs))].
Proof. repeat split. Qed.

(** C6, as the code has it.  [ImgurExtractor.extract_album], when the
    client lists [N] well-formed images (every link has a dot, every
    animation has its [mp4] address), and [VidbleExtractor.extract_album],
    when the page is fetched and offers [N] images whose addresses all have
    a dot, append exactly [N] content items, in the order of the images,
    numbered 1 to [N], and no two of them have the same computed file
    name. *)
Theorem C6_album_items_are_numbered_in_order :
  (forall self c domain album_id pics st,
      client self = Some c ->
      PyStr.rsplit1 "/" (url (imgur_base self)) = Some (domain, album_id) ->
      get_album_images c album_id = Returns pics ->
      Forall image_well_formed pics ->
      exists items,
        Imgur.extract_album self st
        = (Returns tt, after_items st items [ImgurGetAlbumImages album_id]) /\
        album_of (Base.choose_file_name (imgur_base self) album_id ++ " ")
                 (map image_download_url pics) items) /\
  (forall self domain vidble_id response ct st,
      PyStr.rsplit1 "/" (url self) = Some (domain, vidble_id) ->
      requests_get (world self) (url self) = Returns response ->
      status_code response = 200 ->
      headers_content_type response = Some ct ->
      PyStr.contains "text" ct = true ->
      let imgs := find_all_img (world self) (response_text response) in
      Forall (fun img => img_class img <> Some []) imgs ->
      Forall (fun l => PyStr.contains "." l = true) (discovered_links imgs) ->
      exists items,
        Vidble.extract_album self st
        = (Returns tt, after_items st items [HttpGet (url self)]) /\
        album_of (Base.choose_file_name self vidble_id)
                 (map (append Vidble.vidble_base) (discovered_links imgs)) items).
Proof.
  split.
  - intros self c domain album_id pics st Hc Hsplit Hpics Hwf.
    set (st0 := mkState (extracted_content st) (failed_extract_messages st)
                        (failed_extracts_to_save st) (logged st)
                        (host_calls st ++ [ImgurGetAlbumImages album_id])).
    destruct (imgur_album_loop (imgur_base self) album_id pics Hwf 1 st0)
      as (items & Hloop & Hlen & Hurl & Hseq & Hname).
    exists items. split.
    + unfold Imgur.extract_album, rsplit_unpack. rewrite Hsplit.
      unfold bind at 1. cbn [ret].
      unfold Imgur.client_get_album_images, Imgur.get_client. rewrite Hc.
      unfold bind at 2 3 4. cbn [ret record_call lift]. rewrite Hpics.
      unfold bind. fold st0. unfold lift. cbv beta iota. rewrite Hloop.
      unfold after_items, st0. cbn. now rewrite !app_nil_r.
    + apply album_of_intro; [exact Hurl | | exact Hname].
      now rewrite length_map.
  - intros self domain vidble_id response ct st Hsplit Hget Hstatus Hct Htext imgs
           Hclass Hdots.
    set (st0 := mkState (extracted_content st) (failed_extract_messages st)
                        (failed_extracts_to_save st) (logged st)
                        (host_calls st ++ [HttpGet (url self)])).
    destruct (vidble_album_loop self vidble_id imgs Hclass Hdots 1 st0)
      as (items & Hloop & Hurl & Hseq & Hname).
    exists items. split.
    + unfold Vidble.extract_album, rsplit_unpack. rewrite Hsplit.
      unfold bind at 1. cbn [ret]. unfold bind at 1.
      rewrite (get_text_accepted self (url self) response ct st Hget Hstatus Hct Htext).
      unfold bind. cbn [Base.soup_find_all_img ret]. fold imgs. fold st0.
      rewrite Hloop.
      unfold after_items, st0. cbn. now rewrite !app_nil_r.
    + apply album_of_intro; [exact Hurl | | exact Hname].
      now rewrite length_map.
Qed.

Lemma C6_witness :
  (exists items,
      Imgur.extract_album SampleAlbum.album empty_state
      = (Returns tt, after_items empty_state items [ImgurGetAlbumImages "abc"]) /\
      album_of "A title "
               ["https://i.imgur.com/one.png"; "https://i.imgur.com/two.png"] items) /\
  (exists items,
      Vidble.extract_album (SamplePage.vidble_album SamplePage.good_imgs) empty_state
      = (Returns tt,
         after_items empty_state items [HttpGet "https://vidble.com/album/xyz"]) /\
      album_of "A title"
               ["https://vidble.com/one_med.jpg"; "https://vidble.com/two_med.png"]
               items).
Proof.
  destruct C6_album_items_are_numbered_in_order as [Himgur Hvidble]. split.
  - apply (Himgur SampleAlbum.album SampleLinks.album_client "https://imgur.com/a" "abc"
                  [SampleLinks.png "one"; SampleLinks.png "two"] empty_state
                  eq_refl eq_refl eq_refl).
    repeat constructor; discriminate.
  - apply (Hvidble (SamplePage.vidble_album SamplePage.good_imgs) "https://vidble.com/album"
                   "xyz" _ "text/html; charset=utf-8" empty_state
                   eq_refl eq_refl eq_refl eq_refl eq_refl).
    + repeat constructor; discriminate.
    + repeat constructor.
Defined.

(** * Further properties of the module *)

(** ** The output lists only grow *)

Lemma grows_refl {A} (l : list A) : grows l l.
Proof. exists []. now rewrite app_nil_r. Qed.

Lemma grows_trans {A} (a b c : list A) : grows a b -> grows b c -> grows a c.
Proof. intros [t ->] [u ->]. exists (t ++ u)%list. now rewrite app_assoc. Qed.

Lemma grows_app {A} (l t : list A) : grows l (l ++ t).
Proof. now exists t. Qed.

Lemma extends_refl st : extends st st.
Proof. repeat split; apply grows_refl. Qed.

Lemma extends_trans a b c : extends a b -> extends b c -> extends a c.
Proof.
  intros (H1 & H2 & H3 & H4 & H5) (K1 & K2 & K3 & K4 & K5).
  repeat split; eapply grows_trans; eassumption.
Qed.

#[local] Hint Resolve extends_refl extends_trans : preorder.

Lemma extends_append_extracted_content x : preserves extends (append_extracted_content x).
Proof. intros st. repeat split; cbn; (apply grows_app || apply grows_refl). Qed.

Lemma extends_append_failed_extract_messages s :
  preserves extends (append_failed_extract_messages s).
Proof. intros st. repeat split; cbn; (apply grows_app || apply grows_refl). Qed.

Lemma extends_append_failed_extracts_to_save p :
  preserves extends (append_failed_extracts_to_save p).
Proof. intros st. repeat split; cbn; (apply grows_app || apply grows_refl). Qed.

Lemma extends_emit_log r : preserves extends (emit_log r).
Proof. intros st. repeat split; cbn; (apply grows_app || apply grows_refl). Qed.

Lemma extends_record_call c : preserves extends (record_call c).
Proof. intros st. repeat split; cbn; (apply grows_app || apply grows_refl). Qed.

Lemma extends_get_log_data self : preserves extends (Base.get_log_data self).
Proof. intros st. apply extends_refl. Qed.

Ltac extends_tac :=
  repeat first
    [ apply extends_append_extracted_content
    | apply extends_append_failed_extract_messages
    | apply extends_append_failed_extracts_to_save
    | apply extends_emit_log
    | apply extends_record_call
    | apply extends_get_log_data
    | preserves_step ].

(** Read [forall st, P st (snd (m st))] as [preserves P m]. *)
Ltac as_preserves :=
  let st := fresh "st" in
  intros st;
  lazymatch goal with
  | |- ?P st (snd (?m st)) => revert st; change (preserves P m)
  end.

Ltac unfold_module :=
  unfold Imgur.init, Imgur.extract_content, Imgur.handlers, Imgur.dispatch,
    Imgur.on_ImgurClientError,
    Imgur.extract_direct_link, Imgur.extract_direct_mislinked, Imgur.extract_album,
    Imgur.extract_single, Imgur.album_step, Imgur.resolve_gif, Imgur.except_NameError,
    Imgur.local_url, Imgur.client_get_image, Imgur.client_get_album_images,
    Imgur.get_client, Imgur.image_mp4,
    Imgur.rate_limit_exceeded_error, Imgur.no_credit_error, Imgur.over_capacity_error,
    Imgur.does_not_exist_error, Imgur.failed_to_locate_error,
    Gfycat.extract_content, Gfycat.dispatch, Gfycat.on_exception,
    Gfycat.extract_direct_link, Gfycat.extract_single,
    Vidble.extract_content, Vidble.dispatch, Vidble.on_exception,
    Vidble.extract_direct_link, Vidble.extract_single, Vidble.extract_album,
    Vidble.album_step, Vidble.is_img2,
    RedditUploads.extract_content, RedditUploads.dispatch, RedditUploads.on_exception,
    Direct.extract_content,
    Base.get_json, Base.get_text, Base.make_content, Base.soup_find_all_img,
    Base.http_get, Base.response_ok, Base.log_with_data.

(** Whatever the link and whatever the collaborators answer, a run of a
    constructor or of an entry point, returning or raising, leaves every
    entry already held by the three output lists (and by the log and the
    trace of host calls) in place: entries are only added at the end. *)
Theorem outputs_only_grow :
  (forall self st, extends st (snd (Imgur.init self st))) /\
  (forall self st, extends st (snd (Imgur.extract_content self st))) /\
  (forall self st, extends st (snd (Gfycat.extract_content self st))) /\
  (forall self st, extends st (snd (Vidble.extract_content self st))) /\
  (forall self st, extends st (snd (RedditUploads.extract_content self st))) /\
  (forall self st, extends st (snd (Direct.extract_content self st))) /\
  (forall self u name count ext date st,
      extends st (snd (Base.make_content self u name count ext date st))).
Proof.
  repeat apply conj; intros self; try intros u name count ext date;
    as_preserves; unfold_module; extends_tac.
Qed.

(** ** A relation kept until one step, and a weaker one from there on *)

Section TwoRelations.

Variables P R : State -> State -> Prop.
Hypothesis P_R : forall a b, P a b -> R a b.
Hypothesis P_then_R : forall a b c, P a b -> R b c -> R a c.
Hypothesis R_then_P : forall a b c, R a b -> P b c -> R a c.

Lemma preserves_weaken {A} (m : M A) : preserves P m -> preserves R m.
Proof. intros H st. apply P_R, H. Qed.

Lemma preserves_bind_before {A B} (m : M A) (k : A -> M B) :
  preserves P m -> (forall a, preserves R (k a)) -> preserves R (bind m k).
Proof.
  intros Hm Hk st. unfold bind. specialize (Hm st).
  destruct (m st) as [[a | e] st']; cbn in *.
  - eapply P_then_R; [exact Hm | apply Hk].
  - now apply P_R.
Qed.

Lemma preserves_bind_after {A B} (m : M A) (k : A -> M B) :
  preserves R m -> (forall a, preserves P (k a)) -> preserves R (bind m k).
Proof.
  intros Hm Hk st. unfold bind. specialize (Hm st).
  destruct (m st) as [[a | e] st']; cbn in *.
  - eapply R_then_P; [exact Hm | apply Hk].
  - exact Hm.
Qed.

Lemma preserves_try_except_after {A} (body : M A) (handler : exn -> option (M A)) :
  preserves R body ->
  (forall e h, handler e = Some h -> preserves P h) ->
  preserves R (try_except body handler).
Proof.
  intros Hb Hh st. unfold try_except. specialize (Hb st).
  destruct (body st) as [[a | e] st']; cbn in *; [exact Hb |].
  destruct (handler e) as [h |] eqn:E; cbn; [| exact Hb].
  eapply R_then_P; [exact Hb | eapply Hh; eassumption].
Qed.

End TwoRelations.

(** ** Which extractors use the failure lists *)

Lemma same_failures_emit_log r : preserves same_failures (emit_log r).
Proof. intros st. now split. Qed.

Lemma same_failures_get_log_data self : preserves same_failures (Base.get_log_data self).
Proof. intros st. now split. Qed.

Ltac same_failures_all :=
  repeat first
    [ apply same_failures_append_extracted_content
    | apply same_failures_record_call
    | apply same_failures_emit_log
    | apply same_failures_get_log_data
    | preserves_step ].

(** The Gfycat, Vidble, RedditUploads and Direct extractors never add a
    failure message to [failed_extract_messages] nor a retry record to
    [failed_extracts_to_save], on any link and whatever the network
    answers: both lists are after the call what they were before. *)
Theorem failure_lists_untouched_outside_imgur :
  (forall self st, same_failures st (snd (Gfycat.extract_content self st))) /\
  (forall self st, same_failures st (snd (Vidble.extract_content self st))) /\
  (forall self st, same_failures st (snd (RedditUploads.extract_content self st))) /\
  (forall self st, same_failures st (snd (Direct.extract_content self st))).
Proof.
  repeat apply conj; intros self; as_preserves; unfold_module; same_failures_all.
Qed.

(** ** At most one host call for a link *)

Section OneCall.

Variable kind : host_call -> Prop.

Lemma same_calls_one_call a b : same_calls a b -> one_call_at_most kind a b.
Proof.
  unfold same_calls. intros H. exists []. rewrite app_nil_r.
  repeat split; [exact H | cbn; lia | constructor].
Qed.

Lemma same_calls_then_one_call a b c :
  same_calls a b -> one_call_at_most kind b c -> one_call_at_most kind a c.
Proof.
  unfold same_calls. intros H (l & Hl & Hlen & Hk). exists l.
  repeat split; [congruence | exact Hlen | exact Hk].
Qed.

Lemma one_call_then_same_calls a b c :
  one_call_at_most kind a b -> same_calls b c -> one_call_at_most kind a c.
Proof.
  unfold same_calls. intros (l & Hl & Hlen & Hk) H. exists l.
  repeat split; [congruence | exact Hlen | exact Hk].
Qed.

Lemma one_call_record_call c :
  kind c -> preserves (one_call_at_most kind) (record_call c).
Proof.
  intros Hc st. exists [c]. repeat split; [cbn; lia | now constructor].
Qed.

End OneCall.

Lemma same_calls_emit_log r : preserves same_calls (emit_log r).
Proof. intros st. reflexivity. Qed.

Lemma same_calls_get_log_data self : preserves same_calls (Base.get_log_data self).
Proof. intros st. reflexivity. Qed.

Ltac same_calls_all :=
  repeat first
    [ apply same_calls_append_extracted_content
    | apply same_calls_append_failed_extract_messages
    | apply same_calls_append_failed_extracts_to_save
    | apply same_calls_emit_log
    | apply same_calls_get_log_data
    | preserves_step ].

(** Splits a goal on [one_call_at_most]: the steps before the call and the
    steps after it issue none. *)
Ltac one_call_step :=
  lazymatch goal with
  | |- forall _, _ => intros
  | |- preserves (one_call_at_most _) (record_call _) =>
      apply one_call_record_call; exact I
  | |- preserves (one_call_at_most ?k) (bind _ _) =>
      first
        [ apply (preserves_bind_before same_calls (one_call_at_most k)
                   (same_calls_one_call k) (same_calls_then_one_call k));
          [solve [same_calls_all] |]
        | apply (preserves_bind_after same_calls (one_call_at_most k)
                   (one_call_then_same_calls k));
          [| solve [same_calls_all]] ]
  | |- preserves (one_call_at_most ?k) (try_except _ _) =>
      apply (preserves_try_except_after same_calls (one_call_at_most k)
               (one_call_then_same_calls k));
      [| solve [same_calls_all]]
  | |- preserves (one_call_at_most ?k) (match ?x with _ => _ end) => destruct x
  | |- preserves (one_call_at_most ?k) _ =>
      apply (preserves_weaken same_calls (one_call_at_most k) (same_calls_one_call k));
      solve [same_calls_all]
  end.

(** A run of [extract_content] issues at most one host call, whatever
    the link and the answers: a call of the Imgur client for
    [ImgurExtractor], an HTTP request for [GfycatExtractor] and
    [VidbleExtractor], and no call at all for [RedditUploadsExtractor] and
    [DirectExtractor]. *)
Theorem at_most_one_host_call :
  (forall self st,
      one_call_at_most is_imgur_call st (snd (Imgur.extract_content self st))) /\
  (forall self st,
      one_call_at_most is_http_get st (snd (Gfycat.extract_content self st))) /\
  (forall self st,
      one_call_at_most is_http_get st (snd (Vidble.extract_content self st))) /\
  (forall self st, same_calls st (snd (RedditUploads.extract_content self st))) /\
  (forall self st, same_calls st (snd (Direct.extract_content self st))).
Proof.
  repeat apply conj; intros self; as_preserves; unfold_module.
  - repeat one_call_step.
  - repeat one_call_step.
  - repeat one_call_step.
  - same_calls_all.
  - same_calls_all.
Qed.

(** ** Imgur: what a failed extraction records *)

Section OneFailure.

Variable self : ImgurExtractor.

Lemma same_failures_one_failure a b : same_failures a b -> one_failure_at_most (Imgur.this_post (imgur_base self)) a b.
Proof.
  intros [H1 H2]. exists [], []. rewrite !app_nil_r.
  repeat split; [exact H1 | exact H2 | cbn; lia | cbn; lia | constructor].
Qed.

Lemma same_failures_then_one_failure a b c :
  same_failures a b -> one_failure_at_most (Imgur.this_post (imgur_base self)) b c -> one_failure_at_most (Imgur.this_post (imgur_base self)) a c.
Proof.
  intros [H1 H2] (msgs & saves & H3 & H4 & H5). exists msgs, saves.
  rewrite <- H1, <- H2. now repeat split.
Qed.

Lemma status_is_true sc n : Imgur.status_is sc n = true -> sc = Some n.
Proof.
  destruct sc as [z |]; cbn; [| discriminate]. intros H.
  apply Z.eqb_eq in H. now subst.
Qed.

(** One message, with or without the retry record of the post. *)
Lemma one_failure_message st st' m :
  failed_extract_messages st' = (failed_extract_messages st ++ [m])%list ->
  failed_extracts_to_save st' = failed_extracts_to_save st \/
  failed_extracts_to_save st' = (failed_extracts_to_save st ++ [Imgur.this_post (imgur_base self)])%list ->
  one_failure_at_most (Imgur.this_post (imgur_base self)) st st'.
Proof.
  intros Hm [Hs | Hs].
  - exists [m], []. rewrite app_nil_r.
    repeat split; [exact Hm | exact Hs | cbn; lia | cbn; lia | constructor].
  - exists [m], [Imgur.this_post (imgur_base self)].
    repeat split; [exact Hm | exact Hs | cbn; lia | cbn; lia | now constructor].
Qed.

Lemma one_failure_on_ImgurClientError sc st :
  one_failure_at_most (Imgur.this_post (imgur_base self)) st (snd (Imgur.on_ImgurClientError self sc st)).
Proof.
  unfold Imgur.on_ImgurClientError.
  destruct (Imgur.status_is sc 403) eqn:E403.
  { apply status_is_true in E403. subst sc. cbn [Imgur.status_is Z.eqb Pos.eqb].
    unfold Imgur.get_client.
    destruct (client self) as [c |]; [| apply same_failures_one_failure; now split].
    unfold bind at 1 2 3 4. cbn [ret].
    destruct (credits_ClientRemaining c) as [| b | r | h | l | d];
      [| destruct b | unfold bind at 1; cbn [py_le_zero ret]; destruct (r <=? 0) | | |];
      first [ eapply one_failure_message; [reflexivity | (now left) || (now right)]
            | apply same_failures_one_failure; now split ]. }
  destruct (Imgur.status_is sc 429) eqn:E429.
  { apply status_is_true in E429. subst sc.
    eapply one_failure_message; [reflexivity | now right]. }
  destruct (Imgur.status_is sc 500) eqn:E500.
  { apply status_is_true in E500. subst sc.
    eapply one_failure_message; [reflexivity | now right]. }
  destruct (Imgur.status_is sc 404) eqn:E404.
  { apply status_is_true in E404. subst sc.
    eapply one_failure_message; [reflexivity | now left]. }
  apply same_failures_one_failure. now split.
Qed.

Lemma one_failure_handlers e h st :
  Imgur.handlers self e = Some h -> one_failure_at_most (Imgur.this_post (imgur_base self)) st (snd (h st)).
Proof.
  intros H.
  destruct e; cbn in H; injection H as <-;
    try (eapply one_failure_message; [reflexivity | (now left) || (now right)]).
  apply one_failure_on_ImgurClientError.
Qed.

(** The two direct paths: when their [try] lets an exception through,
    nothing was recorded yet. *)
Lemma quiet_direct_path (body : M unit) (event : string) st :
  preserves same_failures body ->
  match try_except body (Imgur.except_NameError (imgur_base self) event) st with
  | (Returns _, st') => one_failure_at_most (Imgur.this_post (imgur_base self)) st st'
  | (Raises _, st') => same_failures st st'
  end.
Proof.
  intros Hb. unfold try_except. specialize (Hb st).
  destruct (body st) as [[[] | e] st']; cbn [snd] in Hb.
  - now apply same_failures_one_failure.
  - destruct e; cbn; try exact Hb;
      (eapply same_failures_then_one_failure; [exact Hb |];
       eapply one_failure_message; [reflexivity | now left]).
Qed.

Lemma quiet_preserves (m : M unit) st :
  preserves same_failures m ->
  match m st with
  | (Returns _, st') => one_failure_at_most (Imgur.this_post (imgur_base self)) st st'
  | (Raises _, st') => same_failures st st'
  end.
Proof.
  intros Hm. specialize (Hm st). destruct (m st) as [[[] | e] st']; cbn [snd] in Hm.
  - now apply same_failures_one_failure.
  - exact Hm.
Qed.

Lemma same_failures_extract_single : preserves same_failures (Imgur.extract_single self).
Proof. unfold_module. same_failures_all. Qed.

Lemma same_failures_direct_body (bound : option string) (shift : bool) :
  preserves same_failures
    (u <- Imgur.local_url bound ;;
     '(domain, id_with_ext) <- rsplit_unpack "/" u ;;
     let u := if shift then "https://i.imgur.com/" ++ id_with_ext else u in
     '(image_id, extension) <- rsplit_unpack "." id_with_ext ;;
     let file_name := Base.choose_file_name (imgur_base self) image_id in
     '(u, extension) <- Imgur.resolve_gif self u image_id extension ;;
     append_extracted_content
       (Imgur.new_content (imgur_base self) u file_name (PStr "") extension)).
Proof. unfold_module. same_failures_all. Qed.

Lemma quiet_dispatch st :
  match Imgur.dispatch self st with
  | (Returns _, st') => one_failure_at_most (Imgur.this_post (imgur_base self)) st st'
  | (Raises _, st') => same_failures st st'
  end.
Proof.
  unfold Imgur.dispatch.
  destruct (PyStr.contains "i.imgur" _).
  { apply quiet_direct_path. apply (same_failures_direct_body _ false). }
  destruct (PyStr.contains "/a/" _).
  { apply quiet_preserves, same_failures_extract_album. }
  destruct (PyStr.contains "/gallery/" _).
  { apply quiet_preserves.
    apply preserves_try_except; [preorder | apply same_failures_extract_album |].
    intros e h [= <-]. apply preserves_ret. preorder. }
  destruct (PyStr.endswith_any _ _).
  { apply quiet_direct_path. apply (same_failures_direct_body _ true). }
  apply quiet_preserves, same_failures_extract_single.
Qed.

End OneFailure.

(** For every link and every behaviour of the client, a run of
    [ImgurExtractor.extract_content] adds at most one failure message and at
    most one retry record; a retry record is never added without a message,
    and it is the post of the request (its url, user, title, subreddit and
    creation date). *)
Theorem imgur_records_at_most_one_failure :
  forall self st,
    one_failure_at_most (Imgur.this_post (imgur_base self)) st
                        (snd (Imgur.extract_content self st)).
Proof.
  intros self st. unfold Imgur.extract_content, try_except.
  pose proof (quiet_dispatch self st) as Hd.
  destruct (Imgur.dispatch self st) as [[[] | e] st1]; [exact Hd |].
  destruct (Imgur.handlers self e) as [h |] eqn:Hh.
  - eapply same_failures_then_one_failure; [exact Hd |].
    eapply one_failure_handlers; eassumption.
  - now apply same_failures_one_failure.
Qed.



Lemma over_capacity_error_eq self st :
  Imgur.over_capacity_error self st
  = (Returns tt,
     recorded st [Imgur.this_post self] (Imgur.over_capacity_message self) Error
              "Failed extract: Imgur over capacity").
Proof.
  unfold Imgur.over_capacity_error, recorded, Base.log_with_data, bind. cbn.
  rewrite !length_app. reflexivity.
Qed.


Lemma failed_to_locate_error_eq self st :
  Imgur.failed_to_locate_error self st
  = (Returns tt,
     recorded st [] (Imgur.failed_to_locate_message self) Error
              "Failed extract: Failed to locate content").
Proof.
  unfold Imgur.failed_to_locate_error, recorded, Base.log_with_data, bind. cbn.
  rewrite !length_app, app_nil_r, Nat.add_0_r. reflexivity.
Qed.



(** ** Imgur: construction with credentials *)

(** With both credentials set, [__init__] keeps the client its
    constructor returns and records nothing.  When the constructor raises
    a client error, no client is kept and the error is recorded only for
    status 500 (as an over-capacity failure with its retry record); for
    any other status nothing at all is recorded.  Any other exception of
    the constructor, the rate-limit error included, leaves [__init__]. *)
Theorem imgur_init_with_credentials :
  forall base client_id client_secret st,
    imgur_client_id (world base) = Some client_id ->
    imgur_client_secret (world base) = Some client_secret ->
    (forall c,
        ImgurClient_new (world base) client_id client_secret = Returns c ->
        Imgur.init base st = (Returns (ImgurExtractor_new base (Some c)), st)) /\
    (ImgurClient_new (world base) client_id client_secret
     = Raises (ImgurClientError (Some 500)) ->
     Imgur.init base st
     = (Returns (ImgurExtractor_new base None),
        recorded st [Imgur.this_post base] (Imgur.over_capacity_message base) Error
                 "Failed extract: Imgur over capacity")) /\
    (forall sc,
        ImgurClient_new (world base) client_id client_secret
        = Raises (ImgurClientError sc) ->
        sc <> Some 500 ->
        Imgur.init base st = (Returns (ImgurExtractor_new base None), st)) /\
    (forall e,
        ImgurClient_new (world base) client_id client_secret = Raises e ->
        (forall sc, e <> ImgurClientError sc) ->
        Imgur.init base st = (Raises e, st)).
Proof.
  intros base client_id client_secret st Hid Hsecret.
  unfold Imgur.init. rewrite Hid, Hsecret. unfold try_except, bind, lift.
  repeat apply conj.
  - now intros c ->.
  - intros ->. change (Imgur.status_is (Some 500) 500) with true. cbv beta iota.
    unfold bind. now rewrite over_capacity_error_eq.
  - intros sc -> Hsc. cbv beta iota. unfold bind.
    now rewrite (status_is_false sc 500 Hsc).
  - intros e -> Hne. destruct e; try reflexivity. now destruct (Hne status_code0).
Qed.

Lemma imgur_init_with_credentials_witness :
  Imgur.init
    (Sample.request (SampleMore.configured (Raises (ImgurClientError (Some 401))))
                    "https://imgur.com/abc" "Post Title")
    empty_state
  = (Returns
       (ImgurExtractor_new
          (Sample.request (SampleMore.configured (Raises (ImgurClientError (Some 401))))
                          "https://imgur.com/abc" "Post Title")
          None),
     empty_state) /\
  Imgur.init
    (Sample.request (SampleMore.configured (Raises ImgurClientRateLimitError))
                    "https://imgur.com/abc" "Post Title")
    empty_state
  = (Raises ImgurClientRateLimitError, empty_state).
Proof.
  split.
  - destruct (imgur_init_with_credentials
                (Sample.request
                   (SampleMore.configured (Raises (ImgurClientError (Some 401))))
                   "https://imgur.com/abc" "Post Title")
                "client-id" "client-secret" empty_state eq_refl eq_refl)
      as (_ & _ & Hother & _).
    apply (Hother (Some 401)); [reflexivity | discriminate].
  - destruct (imgur_init_with_credentials
                (Sample.request
                   (SampleMore.configured (Raises ImgurClientRateLimitError))
                   "https://imgur.com/abc" "Post Title")
                "client-id" "client-secret" empty_state eq_refl eq_refl)
      as (_ & _ & _ & Hraise).
    apply Hraise; [reflexivity | discriminate].
Defined.

(** ** Links that are passed through *)

(** [DirectExtractor] on a link [domain/id.ext] (a ['/'], then a last
    segment with a ['.']): exactly one item is appended, with the link as
    its URL, the dot and the text after the last dot as its extension, and
    the post title or the text before the last dot as its file name,
    according to the naming policy; nothing else changes. *)
Theorem direct_extractor_passes_the_link_through :
  forall self domain image_id ext st,
    PyStr.rsplit1 "/" (url self) = Some (domain, image_id ++ "." ++ ext) ->
    PyStr.contains "." ext = false ->
    Direct.extract_content self st
    = (Returns tt,
       with_entry st
         (EContent (Content_new (PStr (url self)) (user self) (post_title self)
                                (subreddit self)
                                (if String.eqb (name_downloads_by self) "Post Title"
                                 then post_title self else image_id)
                                (PStr "") ("." ++ ext) (save_path self)
                                (subreddit_save_method self) (creation_date self)
                                (content_display_only self)))).
Proof.
  intros self domain image_id ext st Hsplit Hext.
  pose proof (rsplit1_app_sep "." image_id ext Hext) as Htail.
  unfold Direct.extract_content, rsplit_unpack, bind. rewrite Hsplit.
  cbn [ret append]. rewrite Htail. reflexivity.
Qed.

Lemma direct_extractor_passes_the_link_through_witness :
  Direct.extract_content
    (Sample.request Sample.offline "https://example.com/pics/cat.v2.jpeg" "Site Id")
    empty_state
  = (Returns tt,
     mkState [EContent (Content_new (PStr "https://example.com/pics/cat.v2.jpeg") "bob"
                                    "A title" "pics" "cat.v2" (PStr "") ".jpeg"
                                    "/downloads/" "User Name" 1500000000 false)]
             [] [] [] []).
Proof.
  apply (direct_extractor_passes_the_link_through
           (Sample.request Sample.offline "https://example.com/pics/cat.v2.jpeg" "Site Id")
           "https://example.com/pics" "cat.v2" "jpeg" empty_state);
    reflexivity.
Defined.

(** [VidbleExtractor] on a link that names no page ([/show/], [/explore/]
    and [/album/] do not occur), ends in a media suffix whatever the case,
    and has the shape [domain/id.ext]: one item is appended for the link
    itself, with the extension as it is written, and the page is never
    requested. *)
Theorem vidble_direct_link_is_passed_through :
  forall self domain vidble_id ext st,
    PyStr.contains "/show/" (url self) = false ->
    PyStr.contains "/explore/" (url self) = false ->
    PyStr.contains "/album/" (url self) = false ->
    PyStr.endswith_any Vidble.direct_suffixes (PyStr.lower (url self)) = true ->
    PyStr.rsplit1 "/" (url self) = Some (domain, vidble_id ++ "." ++ ext) ->
    PyStr.contains "." ext = false ->
    Vidble.extract_content self st
    = (Returns tt,
       with_entry st
         (EContent (Content_new (PStr (url self)) (user self) (post_title self)
                                (subreddit self)
                                (if String.eqb (name_downloads_by self) "Post Title"
                                 then post_title self else vidble_id)
                                (PStr "") ("." ++ ext) (save_path self)
                                (subreddit_save_method self) (creation_date self)
                                (content_display_only self)))).
Proof.
  intros self domain vidble_id ext st Hshow Hexplore Halbum Hend Hsplit Hext.
  pose proof (rsplit1_app_sep "." vidble_id ext Hext) as Htail.
  unfold Vidble.extract_content, Vidble.dispatch, try_except.
  rewrite Hshow, Hexplore, Halbum, Hend. cbn [orb].
  unfold Vidble.extract_direct_link, rsplit_unpack, bind. rewrite Hsplit.
  cbn [ret append]. rewrite Htail. reflexivity.
Qed.

Lemma vidble_direct_link_is_passed_through_witness :
  Vidble.extract_content
    (Sample.request Sample.offline "https://vidble.com/AbCdEf.JPG" "Site Id") empty_state
  = (Returns tt,
     mkState [EContent (Content_new (PStr "https://vidble.com/AbCdEf.JPG") "bob"
                                    "A title" "pics" "AbCdEf" (PStr "") ".JPG"
                                    "/downloads/" "User Name" 1500000000 false)]
             [] [] [] []).
Proof.
  apply (vidble_direct_link_is_passed_through
           (Sample.request Sample.offline "https://vidble.com/AbCdEf.JPG" "Site Id")
           "https://vidble.com" "AbCdEf" "JPG" empty_state);
    reflexivity.
Defined.

(** ** Gfycat: the lookup *)

(** The API path of [GfycatExtractor], when the lookup is accepted and
    its body is an object whose [gfyItem] is an object: the address
    requested is the API address followed by the last segment of the link;
    one item is appended whose URL is whatever [webmUrl] holds in the item
    ([None] when the key is missing), with the extension [.webm] and the
    post title or that last segment as its file name. *)
Theorem gfycat_lookup_emits_the_webm_url :
  forall self domain gif_id response ct body item st,
    PyStr.endswith_any Gfycat.direct_suffixes (PyStr.lower (url self)) = false ->
    PyStr.rsplit1 "/" (url self) = Some (domain, gif_id) ->
    requests_get (world self) (Gfycat.api_caller ++ gif_id) = Returns response ->
    status_code response = 200 ->
    headers_content_type response = Some ct ->
    PyStr.contains "json" ct = true ->
    response_json response = Returns (PDict body) ->
    dict_lookup "gfyItem" body = PDict item ->
    Gfycat.extract_content self st
    = (Returns tt,
       with_entry (with_call st (HttpGet (Gfycat.api_caller ++ gif_id)))
         (EContent (Content_new (dict_lookup "webmUrl" item) (user self)
                                (post_title self) (subreddit self)
                                (if String.eqb (name_downloads_by self) "Post Title"
                                 then post_title self else gif_id)
                                (PStr "") ".webm" (save_path self)
                                (subreddit_save_method self) (creation_date self)
                                (content_display_only self)))).
Proof.
  intros self domain gif_id response ct body item st Hend Hsplit Hget Hs Hct Hj
         Hbody Hitem.
  unfold Gfycat.extract_content, Gfycat.dispatch, try_except. rewrite Hend.
  unfold Gfycat.extract_single, rsplit_unpack. rewrite Hsplit.
  unfold bind at 1. cbn [ret]. unfold bind at 1.
  rewrite (get_json_accepted self _ response ct st Hget Hs Hct Hj), Hbody.
  unfold bind. cbn [py_get ret]. rewrite Hitem. reflexivity.
Qed.

Lemma gfycat_lookup_emits_the_webm_url_witness :
  Gfycat.extract_content (SampleGfycat.request (Returns SampleGfycat.body)) empty_state
  = (Returns tt,
     mkState [EContent (Content_new (PStr "https://x/abc123.webm") "bob" "A title"
                                    "pics" "abc123" (PStr "") ".webm" "/downloads/"
                                    "User Name" 1500000000 false)]
             [] [] [] [HttpGet "https://gfycat.com/cajax/get/abc123"]).
Proof.
  apply (gfycat_lookup_emits_the_webm_url
           (SampleGfycat.request (Returns SampleGfycat.body)) "https://gfycat.com"
           "abc123"
           (Response_new 200 (Some "application/json") (Returns SampleGfycat.body) "{...}")
           "application/json"
           [("gfyItem", PDict [("webmUrl", PStr "https://x/abc123.webm")])]
           [("webmUrl", PStr "https://x/abc123.webm")] empty_state);
    reflexivity.
Defined.

(** The API path of [GfycatExtractor], when the lookup fails otherwise
    than by a refused response: the request itself raises, the body does
    not decode, the body is not an object, or its [gfyItem] is not an
    object.  No item is appended; the bare [except:] appends its one
    message to [extracted_content] and logs one event, and the call
    returns. *)
Theorem gfycat_lookup_failure_leaves_one_message :
  forall self domain gif_id st,
    PyStr.endswith_any Gfycat.direct_suffixes (PyStr.lower (url self)) = false ->
    PyStr.rsplit1 "/" (url self) = Some (domain, gif_id) ->
    (forall e,
        requests_get (world self) (Gfycat.api_caller ++ gif_id) = Raises e ->
        Gfycat.extract_content self st
        = (Returns tt,
           after_generic_failure self
             (with_call st (HttpGet (Gfycat.api_caller ++ gif_id))))) /\
    (forall response ct,
        requests_get (world self) (Gfycat.api_caller ++ gif_id) = Returns response ->
        status_code response = 200 ->
        headers_content_type response = Some ct ->
        PyStr.contains "json" ct = true ->
        (exists e, response_json response = Raises e) \/
        (exists v, response_json response = Returns v /\ not_an_object v) \/
        (exists body, response_json response = Returns (PDict body) /\
                      not_an_object (dict_lookup "gfyItem" body)) ->
        Gfycat.extract_content self st
        = (Returns tt,
           after_generic_failure self
             (with_call st (HttpGet (Gfycat.api_caller ++ gif_id))))).
Proof.
  intros self domain gif_id st Hend Hsplit.
  assert (Hfail : forall e st1,
             Gfycat.extract_single self st = (Raises e, st1) ->
             Gfycat.extract_content self st = (Returns tt, after_generic_failure self st1)).
  { intros e st1 H. unfold Gfycat.extract_content, Gfycat.dispatch, try_except.
    rewrite Hend, H. unfold Gfycat.on_exception, Base.log_with_data, bind,
      after_generic_failure. cbn. now rewrite length_app. }
  split.
  - intros e Hget. apply (Hfail e).
    unfold Gfycat.extract_single, rsplit_unpack. rewrite Hsplit.
    unfold bind at 1. cbn [ret].
    unfold Base.get_json, Base.http_get, bind, record_call, lift. now rewrite Hget.
  - intros response ct Hget Hs Hct Hj Hbad.
    assert (Hjson := get_json_accepted self _ response ct st Hget Hs Hct Hj).
    destruct Hbad as [(e & He) | [(v & Hv & Hno) | (body & Hb & Hno)]].
    + apply (Hfail e).
      unfold Gfycat.extract_single, rsplit_unpack. rewrite Hsplit.
      unfold bind at 1. cbn [ret]. unfold bind at 1. now rewrite Hjson, He.
    + apply (Hfail AttributeError).
      unfold Gfycat.extract_single, rsplit_unpack. rewrite Hsplit.
      unfold bind at 1. cbn [ret]. unfold bind at 1. rewrite Hjson, Hv.
      unfold bind. now destruct v.
    + apply (Hfail AttributeError).
      unfold Gfycat.extract_single, rsplit_unpack. rewrite Hsplit.
      unfold bind at 1. cbn [ret]. unfold bind at 1. rewrite Hjson, Hb.
      unfold bind. cbn [py_get ret]. now destruct (dict_lookup "gfyItem" body).
Qed.

Lemma gfycat_lookup_failure_leaves_one_message_witness :
  Gfycat.extract_content (Sample.request Sample.offline "https://gfycat.com/abc123" "Site Id")
                         empty_state
  = (Returns tt,
     mkState [EMessage (Base.failed_to_locate_message
                          (Sample.request Sample.offline "https://gfycat.com/abc123"
                                          "Site Id"))]
             [] []
             [Log Error "Failed extract: Failed to locate content" None
                  (Some (Counts 1 0 0))]
             [HttpGet "https://gfycat.com/cajax/get/abc123"]) /\
  Gfycat.extract_content (SampleGfycat.request (Returns (PDict []))) empty_state
  = (Returns tt,
     mkState [EMessage (Base.failed_to_locate_message
                          (SampleGfycat.request (Returns (PDict []))))]
             [] []
             [Log Error "Failed extract: Failed to locate content" None
                  (Some (Counts 1 0 0))]
             [HttpGet "https://gfycat.com/cajax/get/abc123"]).
Proof.
  split.
  - refine (proj1 (gfycat_lookup_failure_leaves_one_message
                     (Sample.request Sample.offline "https://gfycat.com/abc123" "Site Id")
                     "https://gfycat.com" "abc123" empty_state eq_refl eq_refl)
                  ConnectionError eq_refl).
  - refine (proj2 (gfycat_lookup_failure_leaves_one_message
                     (SampleGfycat.request (Returns (PDict [])))
                     "https://gfycat.com" "abc123" empty_state eq_refl eq_refl)
                  (Response_new 200 (Some "application/json") (Returns (PDict [])) "{...}")
                  "application/json" eq_refl eq_refl eq_refl eq_refl _).
    right. right. exists []. split; [reflexivity | exact I].
Defined.

(** ** Imgur: cutting the link after its extension *)

Lemma prefix_app sub s : prefix sub s = true -> exists rest, s = (sub ++ rest)%string.
Proof.
  revert s. induction sub as [| c sub IH]; intros s.
  - intros _. now exists s.
  - destruct s as [| d s]; cbn [prefix]; [intros H; discriminate H |].
    destruct (ascii_dec c d) as [<- | _]; [| intros H; discriminate H].
    intros H. destruct (IH s H) as [rest ->]. now exists rest.
Qed.

Lemma substring_app_l p t : substring 0 (String.length p) (p ++ t) = p.
Proof. induction p as [| c p IH]; cbn; [now destruct t | now rewrite IH]. Qed.

(** [find] gives the offset of an occurrence: the text splits there. *)
Lemma find_from_occurrence sub s i :
  PyStr.contains sub s = true ->
  exists p rest, s = (p ++ sub ++ rest)%string /\
                 PyStr.find_from i sub s = i + PyStr.len p.
Proof.
  revert i. induction s as [| c s IH]; intros i; cbn [PyStr.contains PyStr.find_from].
  - rewrite orb_false_r. intros H. rewrite H.
    destruct (prefix_app _ _ H) as [rest Hrest].
    exists EmptyString, rest. split; [exact Hrest | cbn; lia].
  - destruct (prefix sub (String c s)) eqn:Hp.
    + intros _. destruct (prefix_app _ _ Hp) as [rest Hrest].
      exists EmptyString, rest. split; [exact Hrest | cbn; lia].
    + cbn [orb]. intros H. destruct (IH (i + 1) H) as (p & rest & -> & Hf).
      exists (String c p), rest. split; [reflexivity |].
      rewrite Hf. unfold PyStr.len. cbn [String.length]. lia.
Qed.

Lemma slice_to_find sub s :
  PyStr.contains sub s = true ->
  exists rest, s = (PyStr.slice_to (PyStr.find sub s) s ++ sub ++ rest)%string.
Proof.
  intros H. destruct (find_from_occurrence sub s 0 H) as (p & rest & Hs & Hf).
  exists rest. unfold PyStr.find. rewrite Hf. unfold PyStr.slice_to, PyStr.len.
  destruct (0 + Z.of_nat (String.length p) <? 0) eqn:E; [apply Z.ltb_lt in E; lia |].
  rewrite Z.add_0_l, Nat2Z.id. rewrite Hs at 2. now rewrite substring_app_l.
Qed.

Lemma fold_cut_spec u exts bound r :
  fold_left
    (fun (bound : option string) (ext : string) =>
       if PyStr.contains ext u
       then Some (PyStr.slice_to (PyStr.find ext u) u ++ ext)%string
       else bound)
    exts bound = r ->
  (r = bound /\ forall ext, In ext exts -> PyStr.contains ext u = false) \/
  (exists ext, In ext exts /\ PyStr.contains ext u = true /\
               r = Some (PyStr.slice_to (PyStr.find ext u) u ++ ext)%string).
Proof.
  revert bound. induction exts as [| e exts IH]; intros bound; cbn [fold_left].
  - intros <-. left. split; [reflexivity | intros ext []].
  - intros H. destruct (IH _ H) as [[Hr Hnone] | (ext & Hin & Hc & Hr)].
    + destruct (PyStr.contains e u) eqn:He.
      * right. exists e. split; [now left | split; [exact He | exact Hr]].
      * left. split; [exact Hr |]. intros ext [<- | Hin]; [exact He | now apply Hnone].
    + right. exists ext. split; [now right | split; assumption].
Qed.

Lemma cut_after_extension_Some u r :
  Imgur.cut_after_extension u = Some r ->
  exists p ext rest,
    In ext Imgur.direct_extensions /\
    r = (p ++ ext)%string /\ u = (p ++ ext ++ rest)%string.
Proof.
  unfold Imgur.cut_after_extension. intros H.
  destruct (fold_cut_spec u _ _ _ H) as [[Hr _] | (ext & Hin & Hc & Hr)];
    [discriminate |].
  injection Hr as ->. destruct (slice_to_find ext u Hc) as [rest Hrest].
  now exists (PyStr.slice_to (PyStr.find ext u) u), ext, rest.
Qed.

Lemma cut_after_extension_None u :
  Imgur.cut_after_extension u = None <->
  forall ext, In ext Imgur.direct_extensions -> PyStr.contains ext u = false.
Proof.
  unfold Imgur.cut_after_extension. split.
  - intros H. destruct (fold_cut_spec u _ _ _ H) as [[_ Hnone] | (ext & _ & _ & Hr)];
      [exact Hnone | discriminate].
  - intros Hnone.
    destruct (fold_cut_spec u Imgur.direct_extensions None _ eq_refl)
      as [[Hr _] | (ext & Hin & Hc & _)]; [exact Hr |].
    rewrite (Hnone ext Hin) in Hc. discriminate.
Qed.

(** The loop that opens the two direct paths.  When it binds the local
    [url], the value is a prefix of the link that stops right after an
    occurrence of one of the seven extensions, so that a query string or
    any other text after the extension is dropped; it leaves [url] unbound
    exactly when none of the extensions occurs in the link, as written. *)
Theorem cut_after_extension_keeps_a_prefix :
  forall u,
    (forall r,
        Imgur.cut_after_extension u = Some r ->
        exists p ext rest,
          In ext Imgur.direct_extensions /\
          r = (p ++ ext)%string /\ u = (p ++ ext ++ rest)%string) /\
    (Imgur.cut_after_extension u = None <->
     forall ext, In ext Imgur.direct_extensions -> PyStr.contains ext u = false).
Proof.
  intros u. split.
  - apply cut_after_extension_Some.
  - apply cut_after_extension_None.
Qed.

(** ** Imgur: the two direct paths *)

Lemma resolve_gif_static self u image_id extension st :
  PyStr.endswith "gifv" u = false ->
  PyStr.endswith "gif" u = false ->
  Imgur.resolve_gif self u image_id extension st = (Returns (u, extension), st).
Proof. unfold Imgur.resolve_gif. now intros -> ->. Qed.

Lemma resolve_gif_lookup self c u image_id extension pic st :
  PyStr.endswith "gifv" u || PyStr.endswith "gif" u = true ->
  client self = Some c ->
  get_image c image_id = Returns pic ->
  Imgur.resolve_gif self u image_id extension st
  = (if Imgur.is_animated_gif pic
     then match mp4 pic with
          | Some m => Returns (m, "mp4")
          | None => Raises AttributeError
          end
     else Returns (u, extension),
     with_call st (ImgurGetImage image_id)).
Proof.
  intros Hgif Hc Hpic.
  unfold Imgur.resolve_gif, Imgur.client_get_image, Imgur.get_client, Imgur.image_mp4.
  rewrite Hgif, Hc. unfold bind, record_call, lift. cbn [ret]. rewrite Hpic.
  destruct (Imgur.is_animated_gif pic); [| reflexivity].
  now destruct (mp4 pic).
Qed.

(** A link on one of the two direct paths in which none of the seven
    extensions occurs as written (an extension in capitals, for one): the
    local [url] is unbound, the [NameError] is caught inside the path, one
    event is logged and one "unrecognized file extension" message is
    appended to [failed_extract_messages]; no item, no retry record, no
    host call, and [extract_content] returns. *)
Theorem imgur_unrecognized_extension :
  forall self st,
    (forall ext, In ext Imgur.direct_extensions ->
                 PyStr.contains ext (url (imgur_base self)) = false) ->
    (PyStr.contains "i.imgur" (url (imgur_base self)) = true ->
     Imgur.extract_content self st
     = (Returns tt,
        after_unrecognized_extension
          (imgur_base self) "Failed direct extract: Unrecognized extension" st)) /\
    (PyStr.contains "i.imgur" (url (imgur_base self)) = false ->
     PyStr.contains "/a/" (url (imgur_base self)) = false ->
     PyStr.contains "/gallery/" (url (imgur_base self)) = false ->
     PyStr.endswith_any Imgur.mislinked_suffixes (PyStr.lower (url (imgur_base self)))
     = true ->
     Imgur.extract_content self st
     = (Returns tt,
        after_unrecognized_extension
          (imgur_base self) "Failed direct mislinked extract: Unrecognized extension"
          st)).
Proof.
  intros self st Hnone.
  apply cut_after_extension_None in Hnone.
  split.
  - intros H1. unfold Imgur.extract_content, Imgur.dispatch, try_except at 1.
    rewrite H1. unfold Imgur.extract_direct_link, try_except. rewrite Hnone.
    reflexivity.
  - intros H1 H2 H3 H4. unfold Imgur.extract_content, Imgur.dispatch, try_except at 1.
    rewrite H1, H2, H3, H4. unfold Imgur.extract_direct_mislinked, try_except.
    rewrite Hnone. reflexivity.
Qed.

Lemma imgur_unrecognized_extension_witness :
  Imgur.extract_content
    (SampleImgur.with_client None "http://imgur.com/abc.JPG" "Post Title") empty_state
  = (Returns tt,
     mkState []
       [Imgur.unrecognized_extension_message
          (Sample.request Sample.offline "http://imgur.com/abc.JPG" "Post Title")]
       []
       [Log Error "Failed direct mislinked extract: Unrecognized extension" None
            (Some (Counts 0 0 0))]
       []).
Proof.
  refine (proj2 (imgur_unrecognized_extension
                   (SampleImgur.with_client None "http://imgur.com/abc.JPG" "Post Title")
                   empty_state _)
                eq_refl eq_refl eq_refl eq_refl).
  intros ext Hin. cbn in Hin.
  repeat (destruct Hin as [<- | Hin]; [reflexivity |]). destruct Hin.
Defined.

(** A link on one of the two direct paths that, once cut after its
    extension, has the shape [domain/id.ext] and does not end in [gif] or
    [gifv]: one item is appended without any call to the client (none
    needs to be configured).  On the direct path its URL is the link as
    cut; on the mislinked path it is [https://i.imgur.com/] followed by
    [id.ext], whatever host the link named.  The extension is the dot and
    [ext], the file name the post title or [id]. *)
Theorem imgur_still_image_link_needs_no_client :
  forall self u domain image_id ext st,
    Imgur.cut_after_extension (url (imgur_base self)) = Some u ->
    PyStr.rsplit1 "/" u = Some (domain, image_id ++ "." ++ ext) ->
    PyStr.contains "." ext = false ->
    (PyStr.contains "i.imgur" (url (imgur_base self)) = true ->
     PyStr.endswith "gifv" u = false ->
     PyStr.endswith "gif" u = false ->
     Imgur.extract_content self st
     = (Returns tt,
        with_entry st
          (Imgur.new_content (imgur_base self) u
                             (Base.choose_file_name (imgur_base self) image_id)
                             (PStr "") ext))) /\
    (PyStr.contains "i.imgur" (url (imgur_base self)) = false ->
     PyStr.contains "/a/" (url (imgur_base self)) = false ->
     PyStr.contains "/gallery/" (url (imgur_base self)) = false ->
     PyStr.endswith_any Imgur.mislinked_suffixes (PyStr.lower (url (imgur_base self)))
     = true ->
     PyStr.endswith "gifv" ("https://i.imgur.com/" ++ image_id ++ "." ++ ext) = false ->
     PyStr.endswith "gif" ("https://i.imgur.com/" ++ image_id ++ "." ++ ext) = false ->
     Imgur.extract_content self st
     = (Returns tt,
        with_entry st
          (Imgur.new_content (imgur_base self)
                             ("https://i.imgur.com/" ++ image_id ++ "." ++ ext)
                             (Base.choose_file_name (imgur_base self) image_id)
                             (PStr "") ext))).
Proof.
  intros self u domain image_id ext st Hcut Hsplit Hext.
  pose proof (rsplit1_app_sep "." image_id ext Hext) as Htail.
  split.
  - intros H1 Hgifv Hgif.
    unfold Imgur.extract_content, Imgur.dispatch, try_except at 1. rewrite H1.
    unfold Imgur.extract_direct_link, try_except. rewrite Hcut.
    unfold Imgur.local_url, rsplit_unpack, bind at 1. cbn [ret].
    rewrite Hsplit. unfold bind at 1. cbn [ret append]. rewrite Htail.
    unfold bind at 1. cbn [ret]. unfold bind.
    rewrite (resolve_gif_static _ _ _ _ _ Hgifv Hgif). reflexivity.
  - intros H1 H2 H3 H4 Hgifv Hgif.
    unfold Imgur.extract_content, Imgur.dispatch, try_except at 1.
    rewrite H1, H2, H3, H4.
    unfold Imgur.extract_direct_mislinked, try_except. rewrite Hcut.
    unfold Imgur.local_url, rsplit_unpack, bind at 1. cbn [ret].
    rewrite Hsplit. unfold bind at 1. cbn [ret append]. rewrite Htail.
    unfold bind at 1. cbn [ret]. unfold bind.
    cbn [append] in Hgifv, Hgif.
    rewrite (resolve_gif_static _ _ _ _ _ Hgifv Hgif). reflexivity.
Qed.

Lemma imgur_still_image_link_needs_no_client_witness :
  Imgur.extract_content
    (SampleImgur.with_client None "https://i.imgur.com/abc.jpg?1" "Site Id") empty_state
  = (Returns tt,
     mkState [EContent (Content_new (PStr "https://i.imgur.com/abc.jpg") "bob" "A title"
                                    "pics" "abc" (PStr "") ".jpg" "/downloads/"
                                    "User Name" 1500000000 false)]
             [] [] [] []) /\
  Imgur.extract_content
    (SampleImgur.with_client None "http://m.imgur.com/xyz.png" "Site Id") empty_state
  = (Returns tt,
     mkState [EContent (Content_new (PStr "https://i.imgur.com/xyz.png") "bob" "A title"
                                    "pics" "xyz" (PStr "") ".png" "/downloads/"
                                    "User Name" 1500000000 false)]
             [] [] [] []).
Proof.
  split.
  - refine (proj1 (imgur_still_image_link_needs_no_client
                     (SampleImgur.with_client None "https://i.imgur.com/abc.jpg?1"
                                              "Site Id")
                     "https://i.imgur.com/abc.jpg" "https://i.imgur.com" "abc" "jpg"
                     empty_state eq_refl eq_refl eq_refl)
                  eq_refl eq_refl eq_refl).
  - refine (proj2 (imgur_still_image_link_needs_no_client
                     (SampleImgur.with_client None "http://m.imgur.com/xyz.png" "Site Id")
                     "http://m.imgur.com/xyz.png" "http://m.imgur.com" "xyz" "png"
                     empty_state eq_refl eq_refl eq_refl)
                  eq_refl eq_refl eq_refl eq_refl eq_refl eq_refl).
Defined.

(** ** Running a sequence step by step *)

Lemma bind_returns {A B} (m : M A) (k : A -> M B) st a st' :
  m st = (Returns a, st') -> bind m k st = k a st'.
Proof. unfold bind. now intros ->. Qed.

Lemma bind_raises {A B} (m : M A) (k : A -> M B) st e st' :
  m st = (Raises e, st') -> bind m k st = (Raises e, st').
Proof. unfold bind. now intros ->. Qed.

Lemma try_except_returns {A} (body : M A) handler st a st' :
  body st = (Returns a, st') -> try_except body handler st = (Returns a, st').
Proof. unfold try_except. now intros ->. Qed.

Lemma try_except_raises {A} (body : M A) handler st e st' h :
  body st = (Raises e, st') -> handler e = Some h ->
  try_except body handler st = h st'.
Proof. unfold try_except. now intros -> ->. Qed.

(** ** Imgur: animations are fetched as MP4 *)

(** The single-image path, with a client: the image named by the last
    segment of the link is looked up once.  For an animated GIF (type
    [image/gif], [animated] set) that carries its [mp4] address, the item
    has that address as URL and [.mp4] as extension; for any other image
    whose link has the shape [address.ext], the item has the link of the
    image as URL and the dot and [ext] as extension.  The file name is the
    post title or the image id. *)
Theorem imgur_single_image_resolution :
  forall self c domain image_id pic address ext st,
    PyStr.contains "i.imgur" (url (imgur_base self)) = false ->
    PyStr.contains "/a/" (url (imgur_base self)) = false ->
    PyStr.contains "/gallery/" (url (imgur_base self)) = false ->
    PyStr.endswith_any Imgur.mislinked_suffixes (PyStr.lower (url (imgur_base self)))
    = false ->
    PyStr.rsplit1 "/" (url (imgur_base self)) = Some (domain, image_id) ->
    client self = Some c ->
    get_image c image_id = Returns pic ->
    link pic = (address ++ "." ++ ext)%string ->
    PyStr.contains "." ext = false ->
    (forall m,
        Imgur.is_animated_gif pic = true ->
        mp4 pic = Some m ->
        Imgur.extract_content self st
        = (Returns tt,
           with_entry (with_call st (ImgurGetImage image_id))
             (Imgur.new_content (imgur_base self) m
                                (Base.choose_file_name (imgur_base self) image_id)
                                (PStr "") "mp4"))) /\
    (Imgur.is_animated_gif pic = false ->
     Imgur.extract_content self st
     = (Returns tt,
        with_entry (with_call st (ImgurGetImage image_id))
          (Imgur.new_content (imgur_base self) (link pic)
                             (Base.choose_file_name (imgur_base self) image_id)
                             (PStr "") ext))).
Proof.
  intros self c domain image_id pic address ext st H1 H2 H3 H4 Hsplit Hc Hpic Hlink
         Hext.
  pose proof (rsplit1_app_sep "." address ext Hext) as Htail.
  cbn [append] in Hlink. rewrite <- Hlink in Htail.
  assert (Hstart :
            Imgur.extract_content self st
            = try_except
                ('(u, extension) <- (if Imgur.is_animated_gif pic
                                     then m <- Imgur.image_mp4 pic ;; ret (m, "mp4")
                                     else ret (link pic, ext)) ;;
                 append_extracted_content
                   (Imgur.new_content (imgur_base self) u
                      (Base.choose_file_name (imgur_base self) image_id) (PStr "")
                      extension))
                (Imgur.handlers self)
                (with_call st (ImgurGetImage image_id))).
  { unfold Imgur.extract_content, Imgur.dispatch, try_except.
    rewrite H1, H2, H3, H4.
    unfold Imgur.extract_single, rsplit_unpack. rewrite Hsplit.
    unfold bind at 1. cbn [ret]. unfold bind at 1.
    unfold Imgur.client_get_image, Imgur.get_client. rewrite Hc.
    unfold bind at 1 2 3. cbn [ret record_call lift]. rewrite Hpic.
    unfold bind at 1. rewrite Htail. cbn [ret]. reflexivity. }
  rewrite Hstart. unfold try_except, bind, Imgur.image_mp4. split.
  - intros m Hanim Hm. rewrite Hanim, Hm. reflexivity.
  - intros Hanim. rewrite Hanim. reflexivity.
Qed.

Lemma imgur_single_image_resolution_witness :
  Imgur.extract_content
    (SampleImgur.with_client (Some SampleImgur.animation_client)
                             "https://imgur.com/abc" "Site Id")
    empty_state
  = (Returns tt,
     mkState [EContent (Content_new (PStr "https://i.imgur.com/abc.mp4") "bob" "A title"
                                    "pics" "abc" (PStr "") ".mp4" "/downloads/"
                                    "User Name" 1500000000 false)]
             [] [] [] [ImgurGetImage "abc"]).
Proof.
  refine (proj1 (imgur_single_image_resolution
                   (SampleImgur.with_client (Some SampleImgur.animation_client)
                                            "https://imgur.com/abc" "Site Id")
                   SampleImgur.animation_client "https://imgur.com" "abc"
                   SampleImgur.animation "https://i.imgur.com/abc" "gif" empty_state
                   eq_refl eq_refl eq_refl eq_refl eq_refl eq_refl eq_refl eq_refl
                   eq_refl)
                "https://i.imgur.com/abc.mp4" eq_refl eq_refl).
Defined.

(** A direct link that, once cut, ends in [gif] or [gifv] and has the
    shape [domain/id.ext], with a client: the image [id] is looked up
    once.  When the client reports an animated GIF with its [mp4] address,
    the item has that address as URL and [.mp4] as extension; when it
    reports anything else, the item keeps the link as cut and the
    extension as written. *)
Theorem imgur_direct_gif_resolution :
  forall self c u domain image_id ext pic st,
    PyStr.contains "i.imgur" (url (imgur_base self)) = true ->
    Imgur.cut_after_extension (url (imgur_base self)) = Some u ->
    PyStr.rsplit1 "/" u = Some (domain, image_id ++ "." ++ ext) ->
    PyStr.contains "." ext = false ->
    PyStr.endswith "gifv" u || PyStr.endswith "gif" u = true ->
    client self = Some c ->
    get_image c image_id = Returns pic ->
    (forall m,
        Imgur.is_animated_gif pic = true ->
        mp4 pic = Some m ->
        Imgur.extract_content self st
        = (Returns tt,
           with_entry (with_call st (ImgurGetImage image_id))
             (Imgur.new_content (imgur_base self) m
                                (Base.choose_file_name (imgur_base self) image_id)
                                (PStr "") "mp4"))) /\
    (Imgur.is_animated_gif pic = false ->
     Imgur.extract_content self st
     = (Returns tt,
        with_entry (with_call st (ImgurGetImage image_id))
          (Imgur.new_content (imgur_base self) u
                             (Base.choose_file_name (imgur_base self) image_id)
                             (PStr "") ext))).
Proof.
  intros self c u domain image_id ext pic st H1 Hcut Hsplit Hext Hgif Hc Hpic.
  pose proof (rsplit1_app_sep "." image_id ext Hext) as Htail.
  pose proof (resolve_gif_lookup self c u image_id ext pic st Hgif Hc Hpic) as Hlookup.
  assert (Hpath : forall r,
             Imgur.extract_direct_link self st = (Returns tt, r) ->
             Imgur.extract_content self st = (Returns tt, r)).
  { intros r Hr. unfold Imgur.extract_content, Imgur.dispatch.
    rewrite H1. now apply try_except_returns. }
  split.
  - intros m Hanim Hm. rewrite Hanim, Hm in Hlookup. apply Hpath.
    unfold Imgur.extract_direct_link. apply try_except_returns. rewrite Hcut.
    erewrite bind_returns by reflexivity.
    erewrite bind_returns by (unfold rsplit_unpack; rewrite Hsplit; reflexivity).
    cbv beta iota.
    erewrite bind_returns by (unfold rsplit_unpack; cbn [append]; rewrite Htail;
                              reflexivity).
    cbv beta iota zeta.
    erewrite bind_returns by exact Hlookup.
    reflexivity.
  - intros Hanim. rewrite Hanim in Hlookup. apply Hpath.
    unfold Imgur.extract_direct_link. apply try_except_returns. rewrite Hcut.
    erewrite bind_returns by reflexivity.
    erewrite bind_returns by (unfold rsplit_unpack; rewrite Hsplit; reflexivity).
    cbv beta iota.
    erewrite bind_returns by (unfold rsplit_unpack; cbn [append]; rewrite Htail;
                              reflexivity).
    cbv beta iota zeta.
    erewrite bind_returns by exact Hlookup.
    reflexivity.
Qed.

Lemma imgur_direct_gif_resolution_witness :
  Imgur.extract_content
    (SampleImgur.with_client (Some SampleImgur.animation_client)
                             "https://i.imgur.com/abc.gifv" "Site Id")
    empty_state
  = (Returns tt,
     mkState [EContent (Content_new (PStr "https://i.imgur.com/abc.mp4") "bob" "A title"
                                    "pics" "abc" (PStr "") ".mp4" "/downloads/"
                                    "User Name" 1500000000 false)]
             [] [] [] [ImgurGetImage "abc"]).
Proof.
  refine (proj1 (imgur_direct_gif_resolution
                   (SampleImgur.with_client (Some SampleImgur.animation_client)
                                            "https://i.imgur.com/abc.gifv" "Site Id")
                   SampleImgur.animation_client "https://i.imgur.com/abc.gifv"
                   "https://i.imgur.com" "abc" "gifv" SampleImgur.animation empty_state
                   eq_refl eq_refl eq_refl eq_refl eq_refl eq_refl eq_refl)
                "https://i.imgur.com/abc.mp4" eq_refl eq_refl).
Defined.

(** ** Vidble: pages *)

Lemma get_text_refused self u response st :
  requests_get (world self) u = Returns response ->
  refused "text" response ->
  Base.get_text self u st
  = (Returns PNone,
     after_refusal st u (Base.text_failure_message self u) (status_code response)).
Proof.
  intros Hg Hr.
  unfold Base.get_text, Base.http_get, bind, record_call, lift. cbn. rewrite Hg.
  now rewrite response_ok_refused.
Qed.

Lemma vidble_on_exception_eq self st :
  Vidble.on_exception self st = (Returns tt, after_generic_failure self st).
Proof.
  unfold Vidble.on_exception, Base.log_with_data, bind, after_generic_failure. cbn.
  now rewrite length_app.
Qed.

(** A Vidble page that is refused (a status other than 200, or a content
    type without [text]), on the single-image path or on the album path,
    fallback included: [get_text] appends its message and returns [None],
    the parser then raises on [None], and the bare [except:] appends
    the generic message.  Two messages end up in [extracted_content], no
    item, and the call returns. *)
Theorem vidble_refused_page_leaves_two_messages :
  forall self domain vidble_id response st,
    PyStr.contains "/show/" (url self) || PyStr.contains "/explore/" (url self) = true \/
    PyStr.contains "/album/" (url self) = true \/
    PyStr.endswith_any Vidble.direct_suffixes (PyStr.lower (url self)) = false ->
    PyStr.rsplit1 "/" (url self) = Some (domain, vidble_id) ->
    requests_get (world self) (url self) = Returns response ->
    refused "text" response ->
    Vidble.extract_content self st
    = (Returns tt,
       after_generic_failure self
         (after_refusal st (url self) (Base.text_failure_message self (url self))
                        (status_code response))).
Proof.
  intros self domain vidble_id response st Hpath Hsplit Hget Href.
  pose proof (get_text_refused self (url self) response st Hget Href) as Htext.
  assert (Hsingle : Vidble.extract_single self st
                    = (Raises TypeError,
                       after_refusal st (url self)
                         (Base.text_failure_message self (url self))
                         (status_code response))).
  { unfold Vidble.extract_single.
    erewrite bind_returns by (unfold rsplit_unpack; rewrite Hsplit; reflexivity).
    cbv beta iota zeta. erewrite bind_returns by exact Htext.
    reflexivity. }
  assert (Halbum : Vidble.extract_album self st
                   = (Raises TypeError,
                      after_refusal st (url self)
                        (Base.text_failure_message self (url self))
                        (status_code response))).
  { unfold Vidble.extract_album.
    erewrite bind_returns by (unfold rsplit_unpack; rewrite Hsplit; reflexivity).
    cbv beta iota zeta. erewrite bind_returns by exact Htext.
    reflexivity. }
  unfold Vidble.extract_content, Vidble.dispatch.
  destruct (PyStr.contains "/show/" (url self) || PyStr.contains "/explore/" (url self)).
  { erewrite try_except_raises by (exact Hsingle || reflexivity).
    apply vidble_on_exception_eq. }
  destruct (PyStr.contains "/album/" (url self)).
  { erewrite try_except_raises by (exact Halbum || reflexivity).
    apply vidble_on_exception_eq. }
  destruct Hpath as [Hpath | [Hpath | Hpath]]; try discriminate. rewrite Hpath.
  erewrite try_except_raises by (exact Halbum || reflexivity).
  apply vidble_on_exception_eq.
Qed.

Lemma vidble_refused_page_leaves_two_messages_witness :
  extracted_content (snd (Vidble.extract_content SampleVidble.refused_page empty_state))
  = [EMessage (Base.text_failure_message SampleVidble.refused_page
                                         "https://vidble.com/show/abc.jpg");
     EMessage (Base.failed_to_locate_message SampleVidble.refused_page)].
Proof.
  rewrite (vidble_refused_page_leaves_two_messages
             SampleVidble.refused_page "https://vidble.com/show" "abc.jpg"
             (Response_new 404 (Some "text/html") (Raises ValueError)
                           "<html>Not Found</html>")
             empty_state).
  - reflexivity.
  - left. reflexivity.
  - reflexivity.
  - reflexivity.
  - left. cbn. discriminate.
Defined.

Lemma vidble_single_step_spec self vidble_id img st :
  img_class img <> Some [] ->
  Forall (fun l => PyStr.contains "." l = true) (discovered_links [img]) ->
  exists items,
    vidble_single_step self vidble_id tt img st = (Returns tt, after_items st items []) /\
    map c_url items
    = map PStr (map (append Vidble.vidble_base) (discovered_links [img])) /\
    Forall (fun c => c_number_in_seq c = PStr "" /\
                     c_file_name c = Base.choose_file_name self vidble_id) items.
Proof.
  intros Hclass Hdots.
  unfold vidble_single_step, Vidble.is_img2, discovered_links in *.
  cbn [flat_map] in *.
  destruct (img_class img) as [[| first rest] |]; [congruence | |].
  - unfold bind at 1. cbn [ret].
    destruct (String.eqb first "img2").
    + destruct (img_src img) as [l |].
      * cbn in Hdots. inversion Hdots as [| ? ? Hdot _]; subst.
        apply rsplit1_of_contains in Hdot as (a & x & Hsplit).
        unfold rsplit_unpack. rewrite Hsplit. eexists [_]. cbn.
        unfold after_items. cbn. rewrite app_nil_r. repeat split.
        constructor; [now split | constructor].
      * exists []. cbn. rewrite after_items_nil. repeat split. constructor.
    + destruct (img_src img); exists []; cbn;
        rewrite after_items_nil; repeat split; constructor.
  - exists []. cbn. rewrite after_items_nil. repeat split. constructor.
Qed.

Lemma vidble_single_loop self vidble_id imgs :
  Forall (fun img => img_class img <> Some []) imgs ->
  Forall (fun l => PyStr.contains "." l = true) (discovered_links imgs) ->
  forall st,
  exists items,
    for_each imgs tt (vidble_single_step self vidble_id) st
    = (Returns tt, after_items st items []) /\
    map c_url items
    = map PStr (map (append Vidble.vidble_base) (discovered_links imgs)) /\
    Forall (fun c => c_number_in_seq c = PStr "" /\
                     c_file_name c = Base.choose_file_name self vidble_id) items.
Proof.
  induction 1 as [| img imgs Himg _ IH]; intros Hdots st.
  - exists []. cbn. rewrite after_items_nil. repeat split. constructor.
  - rewrite discovered_links_cons in *. apply Forall_app in Hdots as [Hd1 Hd2].
    destruct (vidble_single_step_spec self vidble_id img st Himg Hd1)
      as (items1 & Hstep & Hurl1 & Hname1).
    destruct (IH Hd2 (after_items st items1 [])) as (items2 & Hloop & Hurl2 & Hname2).
    exists (items1 ++ items2)%list. cbn [for_each].
    erewrite bind_returns by exact Hstep. rewrite Hloop, after_items_app.
    rewrite !map_app, Hurl1, Hurl2.
    repeat split. apply Forall_app. now split.
Qed.

Lemma vidble_stem_spec (a b : string) :
  PyStr.contains "." b = false -> vidble_stem (a ++ "." ++ b) = a.
Proof.
  intros Hb. unfold vidble_stem, PyStr.rfind. cbn [append].
  rewrite (rsplit1_app_sep "." a b Hb).
  assert (Hc : PyStr.contains "." (a ++ String "." b) = true).
  { destruct (PyStr.contains "." (a ++ String "." b)) eqn:E; [reflexivity |].
    apply rsplit1_None in E. rewrite (rsplit1_app_sep "." a b Hb) in E. discriminate. }
  rewrite Hc. unfold PyStr.slice_to, PyStr.len.
  destruct (Z.of_nat (String.length a) <? 0) eqn:E; [apply Z.ltb_lt in E; lia |].
  rewrite Nat2Z.id. apply substring_app_l.
Qed.

(** The single-image path of [VidbleExtractor] (the link has [/show/] or
    [/explore/]), when the page is fetched and every selected image has an
    address with a dot: one item is appended for every [img] whose first
    class token is [img2] and that has a [src], in page order, with the
    Vidble host put before the address.  Every one of these items has the
    empty ordinal and the same file name (the post title, or the last
    segment of the link without its extension), so that on a page with
    several such images all items have the same computed file name. *)
Theorem vidble_single_page_items :
  forall self domain vidble_id response ct st,
    PyStr.contains "/show/" (url self) || PyStr.contains "/explore/" (url self) = true ->
    PyStr.rsplit1 "/" (url self) = Some (domain, vidble_id) ->
    requests_get (world self) (url self) = Returns response ->
    status_code response = 200 ->
    headers_content_type response = Some ct ->
    PyStr.contains "text" ct = true ->
    let imgs := find_all_img (world self) (response_text response) in
    Forall (fun img => img_class img <> Some []) imgs ->
    Forall (fun l => PyStr.contains "." l = true) (discovered_links imgs) ->
    exists items,
      Vidble.extract_content self st
      = (Returns tt, after_items st items [HttpGet (url self)]) /\
      map c_url items
      = map PStr (map (append Vidble.vidble_base) (discovered_links imgs)) /\
      Forall (fun c => c_number_in_seq c = PStr "" /\
                       c_file_name c
                       = Base.choose_file_name self (vidble_stem vidble_id)) items /\
      (forall c1 c2, In c1 items -> In c2 items ->
                     computed_file_name c1 = computed_file_name c2) /\
      (forall a b, vidble_id = (a ++ "." ++ b)%string ->
                   PyStr.contains "." b = false -> vidble_stem vidble_id = a).
Proof.
  intros self domain vidble_id response ct st Hpath Hsplit Hget Hs Hct Htext imgs
         Hclass Hdots.
  set (st0 := with_call st (HttpGet (url self))).
  destruct (vidble_single_loop self (vidble_stem vidble_id) imgs Hclass Hdots st0)
    as (items & Hloop & Hurl & Hname).
  exists items. split; [| split; [exact Hurl | split; [exact Hname | split]]].
  - unfold Vidble.extract_content, Vidble.dispatch. rewrite Hpath.
    apply try_except_returns. unfold Vidble.extract_single.
    erewrite bind_returns by (unfold rsplit_unpack; rewrite Hsplit; reflexivity).
    cbv beta iota zeta.
    erewrite bind_returns
      by exact (get_text_accepted self (url self) response ct st Hget Hs Hct Htext).
    erewrite bind_returns by reflexivity.
    change (for_each imgs tt (vidble_single_step self (vidble_stem vidble_id)) st0
            = (Returns tt, after_items st items [HttpGet (url self)])).
    rewrite Hloop. unfold after_items, st0, with_call. cbn. now rewrite !app_nil_r.
  - intros c1 c2 H1 H2. rewrite Forall_forall in Hname.
    destruct (Hname c1 H1) as [Hs1 Hn1]. destruct (Hname c2 H2) as [Hs2 Hn2].
    unfold computed_file_name. now rewrite Hs1, Hs2, Hn1, Hn2.
  - intros a b -> Hb. now apply vidble_stem_spec.
Qed.

Lemma vidble_single_page_items_witness :
  exists items,
    Vidble.extract_content SampleVidble.show_page empty_state
    = (Returns tt,
       after_items empty_state items [HttpGet "https://vidble.com/show/abc.jpg"]) /\
    map c_url items
    = [PStr "https://vidble.com/one_med.jpg"; PStr "https://vidble.com/two_med.png"] /\
    Forall (fun c => c_number_in_seq c = PStr "" /\ c_file_name c = "abc") items.
Proof.
  destruct (vidble_single_page_items
              SampleVidble.show_page "https://vidble.com/show" "abc.jpg"
              (Response_new 200 (Some "text/html; charset=utf-8") (Raises ValueError)
                            "<html>...</html>")
              "text/html; charset=utf-8" empty_state
              eq_refl eq_refl eq_refl eq_refl eq_refl eq_refl)
    as (items & Hrun & Hurl & Hname & _ & _).
  - repeat constructor; discriminate.
  - repeat constructor.
  - exists items. split; [exact Hrun | split; [exact Hurl | exact Hname]].
Defined.

(** ** Links without a separator *)

Lemma contains_sep_app_l sep (p q : string) :
  PyStr.contains (String sep EmptyString) (p ++ q) = false ->
  PyStr.contains (String sep EmptyString) p = false.
Proof.
  induction p as [| c p IH]; [reflexivity |].
  cbn [append]. rewrite !contains_sep_cons.
  intros H. apply orb_false_elim in H as [-> H]. now apply IH.
Qed.

Lemma contains_sep_middle sep (p q : string) :
  PyStr.contains (String sep EmptyString) (p ++ String sep q) = true.
Proof.
  induction p as [| c p IH]; cbn [append]; rewrite contains_sep_cons.
  - now rewrite Ascii.eqb_refl.
  - rewrite IH. apply orb_true_r.
Qed.

Lemma string_append_assoc (a b c : string) :
  (a ++ b ++ c = (a ++ b) ++ c)%string.
Proof. induction a as [| x a IH]; cbn; [reflexivity | now rewrite IH]. Qed.

(** A text in which [String sep sub] occurs has [sep] in it. *)
Lemma contains_first_char sep sub s :
  PyStr.contains (String sep sub) s = true ->
  PyStr.contains (String sep EmptyString) s = true.
Proof.
  intros H. destruct (find_from_occurrence _ _ 0 H) as (p & rest & -> & _).
  cbn [append]. apply contains_sep_middle.
Qed.

Lemma gfycat_on_exception_eq self st :
  Gfycat.on_exception self st = (Returns tt, after_generic_failure self st).
Proof.
  unfold Gfycat.on_exception, Base.log_with_data, bind, after_generic_failure. cbn.
  now rewrite length_app.
Qed.

(** A link in which no ['/'] occurs.  [GfycatExtractor] and
    [VidbleExtractor] stop at their first split of the link: no request is
    made and no item appended, and the one generic message lands in
    [extracted_content].  [ImgurExtractor] likewise calls nothing and
    appends no item; unless the link ends up in the handler for an
    unrecognized extension, it records the generic "failed to locate"
    message in [failed_extract_messages], without a retry record. *)
Theorem link_without_separator_is_reported :
  (forall self st,
      PyStr.contains "/" (url self) = false ->
      Gfycat.extract_content self st = (Returns tt, after_generic_failure self st)) /\
  (forall self st,
      PyStr.contains "/" (url self) = false ->
      Vidble.extract_content self st = (Returns tt, after_generic_failure self st)) /\
  (forall self st,
      PyStr.contains "/" (url (imgur_base self)) = false ->
      (exists ext, In ext Imgur.direct_extensions /\
                   PyStr.contains ext (url (imgur_base self)) = true) \/
      PyStr.contains "i.imgur" (url (imgur_base self)) = false /\
      PyStr.endswith_any Imgur.mislinked_suffixes (PyStr.lower (url (imgur_base self)))
      = false ->
      Imgur.extract_content self st
      = (Returns tt,
         recorded st [] (Imgur.failed_to_locate_message (imgur_base self)) Error
                  "Failed extract: Failed to locate content")).
Proof.
  repeat apply conj.
  - intros self st Hno. apply rsplit1_None in Hno.
    unfold Gfycat.extract_content.
    erewrite try_except_raises with (e := ValueError) (st' := st);
      [apply gfycat_on_exception_eq | | reflexivity].
    unfold Gfycat.dispatch, Gfycat.extract_direct_link, Gfycat.extract_single.
    destruct (PyStr.endswith_any _ _);
      apply bind_raises; unfold rsplit_unpack; now rewrite Hno.
  - intros self st Hno. apply rsplit1_None in Hno.
    unfold Vidble.extract_content.
    erewrite try_except_raises with (e := ValueError) (st' := st);
      [apply vidble_on_exception_eq | | reflexivity].
    unfold Vidble.dispatch, Vidble.extract_direct_link, Vidble.extract_single,
      Vidble.extract_album.
    destruct (_ || _); [| destruct (PyStr.contains "/album/" _);
                          [| destruct (PyStr.endswith_any _ _)]];
      apply bind_raises; unfold rsplit_unpack; now rewrite Hno.
  - intros self st Hno Hcase.
    assert (Ha : PyStr.contains "/a/" (url (imgur_base self)) = false).
    { destruct (PyStr.contains "/a/" _) eqn:E; [| reflexivity].
      apply contains_first_char in E. congruence. }
    assert (Hg : PyStr.contains "/gallery/" (url (imgur_base self)) = false).
    { destruct (PyStr.contains "/gallery/" _) eqn:E; [| reflexivity].
      apply contains_first_char in E. congruence. }
    assert (Hdirect : forall shift event,
               (exists ext, In ext Imgur.direct_extensions /\
                            PyStr.contains ext (url (imgur_base self)) = true) ->
               try_except
                 (u <- Imgur.local_url (Imgur.cut_after_extension (url (imgur_base self))) ;;
                  '(domain, id_with_ext) <- rsplit_unpack "/" u ;;
                  let u := if shift : bool then "https://i.imgur.com/" ++ id_with_ext
                           else u in
                  '(image_id, extension) <- rsplit_unpack "." id_with_ext ;;
                  let file_name := Base.choose_file_name (imgur_base self) image_id in
                  '(u, extension) <- Imgur.resolve_gif self u image_id extension ;;
                  append_extracted_content
                    (Imgur.new_content (imgur_base self) u file_name (PStr "") extension))
                 (Imgur.except_NameError (imgur_base self) event) st
               = (Raises ValueError, st)).
    { intros shift event (ext & Hin & Hext).
      destruct (Imgur.cut_after_extension (url (imgur_base self))) as [u |] eqn:Hcut.
      - destruct (cut_after_extension_Some _ u Hcut)
          as (p & ext' & rest & _ & -> & Hu).
        rewrite Hu, string_append_assoc in Hno. apply contains_sep_app_l in Hno.
        apply rsplit1_None in Hno.
        unfold try_except. erewrite bind_returns by reflexivity.
        erewrite bind_raises by (unfold rsplit_unpack; rewrite Hno; reflexivity).
        reflexivity.
      - rewrite cut_after_extension_None in Hcut.
        rewrite (Hcut ext Hin) in Hext. discriminate. }
    assert (Hsingle : Imgur.extract_single self st = (Raises ValueError, st)).
    { apply rsplit1_None in Hno. unfold Imgur.extract_single.
      apply bind_raises. unfold rsplit_unpack. now rewrite Hno. }
    unfold Imgur.extract_content.
    erewrite try_except_raises with (e := ValueError) (st' := st);
      [apply failed_to_locate_error_eq | | reflexivity].
    unfold Imgur.dispatch. rewrite Ha, Hg.
    destruct Hcase as [Hext | [Hhost Hsuffix]].
    + destruct (PyStr.contains "i.imgur" _).
      * apply (Hdirect false _ Hext).
      * destruct (PyStr.endswith_any _ _); [apply (Hdirect true _ Hext) | exact Hsingle].
    + rewrite Hhost, Hsuffix. exact Hsingle.
Qed.

Lemma link_without_separator_is_reported_witness :
  Gfycat.extract_content (Sample.request Sample.offline "abc.gif" "Post Title") empty_state
  = (Returns tt,
     mkState [EMessage (Base.failed_to_locate_message
                          (Sample.request Sample.offline "abc.gif" "Post Title"))]
             [] []
             [Log Error "Failed extract: Failed to locate content" None
                  (Some (Counts 1 0 0))]
             []) /\
  Imgur.extract_content (SampleImgur.with_client None "i.imgur.com-abc.jpg" "Post Title")
                        empty_state
  = (Returns tt,
     mkState []
       [Imgur.failed_to_locate_message
          (Sample.request Sample.offline "i.imgur.com-abc.jpg" "Post Title")]
       []
       [Log Error "Failed extract: Failed to locate content" None (Some (Counts 0 1 0))]
       []).
Proof.
  destruct link_without_separator_is_reported as (Hgfycat & _ & Himgur). split.
  - apply Hgfycat. reflexivity.
  - apply (Himgur (SampleImgur.with_client None "i.imgur.com-abc.jpg" "Post Title")
                  empty_state eq_refl).
    left. exists ".jpg". split; [cbn; tauto | reflexivity].
Defined.

Lemma cut_after_extension_keeps_a_prefix_witness :
  exists p ext rest,
    In ext Imgur.direct_extensions /\
    "https://i.imgur.com/abc.gifv" = (p ++ ext)%string /\
    "https://i.imgur.com/abc.gifv?x=1" = (p ++ ext ++ rest)%string.
Proof.
  exact (proj1 (cut_after_extension_keeps_a_prefix "https://i.imgur.com/abc.gifv?x=1")
               "https://i.imgur.com/abc.gifv" eq_refl).
Defined.

(** ** The transport helpers on a 200 response *)

(** [get_json] and [get_text] on a response with status 200.  With a
    content type that has the expected word ([json], [text]) they hand
    back what [response.json()] gives (its exception, when the body does
    not decode) or the text of the body, and only the request is traced:
    nothing is logged or appended.  Without any [Content-Type] header the
    lookup of the header raises [KeyError], and again nothing is logged or
    appended. *)
Theorem transport_helpers_on_status_200 :
  forall self u response st,
    requests_get (world self) u = Returns response ->
    status_code response = 200 ->
    (forall ct,
        headers_content_type response = Some ct ->
        PyStr.contains "json" ct = true ->
        Base.get_json self u st = (response_json response, with_call st (HttpGet u))) /\
    (forall ct,
        headers_content_type response = Some ct ->
        PyStr.contains "text" ct = true ->
        Base.get_text self u st
        = (Returns (PStr (response_text response)), with_call st (HttpGet u))) /\
    (headers_content_type response = None ->
     Base.get_json self u st = (Raises KeyError, with_call st (HttpGet u)) /\
     Base.get_text self u st = (Raises KeyError, with_call st (HttpGet u))).
Proof.
  intros self u response st Hget Hs. repeat apply conj.
  - intros ct Hct Hw. unfold with_call. eapply get_json_accepted; eassumption.
  - intros ct Hct Hw. unfold with_call. eapply get_text_accepted; eassumption.
  - intros Hct.
    unfold Base.get_json, Base.get_text, Base.http_get, Base.response_ok, bind,
      record_call, lift.
    cbn. now rewrite Hget, Hs, Hct.
Qed.

Lemma transport_helpers_on_status_200_witness :
  Base.get_json (SampleGfycat.request (Raises ValueError))
                "https://gfycat.com/cajax/get/abc123" empty_state
  = (Raises ValueError,
     mkState [] [] [] [] [HttpGet "https://gfycat.com/cajax/get/abc123"]).
Proof.
  refine (proj1 (transport_helpers_on_status_200
                   (SampleGfycat.request (Raises ValueError))
                   "https://gfycat.com/cajax/get/abc123"
                   (Response_new 200 (Some "application/json") (Raises ValueError) "{...}")
                   empty_state eq_refl eq_refl)
                "application/json" eq_refl eq_refl).
Defined.

(** ** Which entry points always return *)

(** No exception leaves [extract_content] of the Gfycat, Vidble and
    RedditUploads extractors, whatever the link and whatever the network
    and the parser do; none leaves [ImgurExtractor.extract_content] either
    as long as the credit counter of its client, if it has one, is [None]
    or a number.  [DirectExtractor.extract_content] has no handler: it
    raises [ValueError], leaving the state as it was, when the link has no
    ['/'] or when its last segment has no ['.'], and returns otherwise. *)
Theorem entry_points_that_always_return :
  (forall self st,
      (forall c, client self = Some c -> none_or_number (credits_ClientRemaining c)) ->
      fst (Imgur.extract_content self st) = Returns tt) /\
  (forall self st, fst (Gfycat.extract_content self st) = Returns tt) /\
  (forall self st, fst (Vidble.extract_content self st) = Returns tt) /\
  (forall self st, fst (RedditUploads.extract_content self st) = Returns tt) /\
  (forall self st,
      PyStr.contains "/" (url self) = false ->
      Direct.extract_content self st = (Raises ValueError, st)) /\
  (forall self st d t,
      PyStr.rsplit1 "/" (url self) = Some (d, t) ->
      PyStr.contains "." t = false ->
      Direct.extract_content self st = (Raises ValueError, st)) /\
  (forall self st d t,
      PyStr.rsplit1 "/" (url self) = Some (d, t) ->
      PyStr.contains "." t = true ->
      fst (Direct.extract_content self st) = Returns tt).
Proof.
  repeat apply conj.
  - intros self st Hnum. now apply never_raises_unit, never_raises_imgur_extract_content.
  - intros self. apply never_raises_unit. apply never_raises_try_except.
    intros e. eexists; split; [reflexivity | apply never_raises_gfycat_on_exception].
  - intros self. apply never_raises_unit. apply never_raises_try_except.
    intros e. eexists; split; [reflexivity | apply never_raises_vidble_on_exception].
  - intros self. apply never_raises_unit. apply never_raises_try_except.
    intros e. eexists; split; [reflexivity | apply never_raises_reddit_on_exception].
  - apply direct_extract_content_no_separator.
  - apply direct_extract_content_no_dot.
  - apply direct_extract_content_dot.
Qed.

Lemma entry_points_that_always_return_witness :
  fst (Imgur.extract_content
         (SampleFailures.single_image_request SampleFailures.bad_request_client)
         empty_state)
  = Returns tt /\
  Direct.extract_content
    (Sample.request Sample.offline "no-separator.jpg" "Post Title") empty_state
  = (Raises ValueError, empty_state) /\
  Direct.extract_content
    (Sample.request Sample.offline "https://example.com/noextension" "Post Title")
    empty_state
  = (Raises ValueError, empty_state) /\
  fst (Direct.extract_content
         (Sample.request Sample.offline "https://example.com/a.jpg" "Post Title")
         empty_state)
  = Returns tt.
Proof.
  destruct entry_points_that_always_return
    as (Himgur & _ & _ & _ & Hsep & Hdot & Hok).
  split; [| split; [| split]].
  - apply Himgur. intros c [= <-]. exact I.
  - apply Hsep. reflexivity.
  - eapply Hdot; reflexivity.
  - eapply Hok; reflexivity.
Defined.
